(** * Resume analyzer: extraction-and-scoring pipeline of [analyzer.py]

    A shallow embedding of the analysis pipeline (text extraction, section
    segmentation, job-fit matching, issue compilation, scoring,
    recommendations, orchestration) together with the properties stated
    about it.

    Conventions of the embedding:
    - a Python [str] is a [string]: a sequence of Unicode code points, so
      that [len] and slices count code points.  The character classes
      ([str.isspace], [str.isdigit], the classes [\s], [\d], [\w] and the
      boundary [\b] of [re]) and [str.lower] are those of CPython 3.11
      (Unicode 14.0.0) on every code point, given by their tables;
    - a Python [float] is an IEEE 754 binary64 number, [spec_float] with
      [prec = 53] and [emax = 1024];
    - a Python [set] of strings is a [gset string]; where the source iterates
      over a set to build a sequence, the iteration order is a parameter;
    - a Python [dict] with string keys is a [gmap string _];
    - the external collaborators (lemmatizer, summarizer, OCR engine, the
      PDF and DOCX readers) are parameters gathered in a record. *)

From Stdlib Require Import ZArith QArith Lia Bool List SpecFloat.
From Stdlib.Strings Require Import Byte.
From stdpp Require Import base decidable option list countable gmap sets sorting.

Local Open Scope Z_scope.

(* ===================================================================== *)
(** * Text: sequences of code points *)
(* ===================================================================== *)

(** A character of a [str]: a Unicode code point. *)
Record char := Chr { code : N }.

(** A [str]. *)
Inductive string :=
  | EmptyString
  | String (c : char) (s : string).

Module Char.

Definition eqb (a b : char) : bool := (code a =? code b)%N.

(** Literals: one ASCII character, or three decimal digits for the code
    (["010"] is the newline). *)
Definition digit_of_byte (b : byte) : option N :=
  let n := Byte.to_N b in
  if ((48 <=? n) && (n <=? 57))%N then Some (n - 48)%N else None.

Definition of_bytes (l : list byte) : option char :=
  match l with
  | [b] => let n := Byte.to_N b in if (n <? 128)%N then Some (Chr n) else None
  | [a; b; c] =>
      match digit_of_byte a, digit_of_byte b, digit_of_byte c with
      | Some x, Some y, Some z => Some (Chr (100 * x + 10 * y + z)%N)
      | _, _, _ => None
      end
  | _ => None
  end.

Definition to_bytes (c : char) : option (list byte) :=
  if (code c <? 128)%N then option_map (fun b => [b]) (Byte.of_N (code c)) else None.

End Char.

Declare Scope chr_scope.
Delimit Scope chr_scope with chr.
Bind Scope chr_scope with char.
String Notation char Char.of_bytes Char.to_bytes : chr_scope.

Module String.

Fixpoint eqb (s1 s2 : string) : bool :=
  match s1, s2 with
  | EmptyString, EmptyString => true
  | String a s1', String b s2' => Char.eqb a b && eqb s1' s2'
  | _, _ => false
  end.

Fixpoint length (s : string) : nat :=
  match s with
  | EmptyString => O
  | String _ s' => S (length s')
  end.

Fixpoint append (s1 s2 : string) : string :=
  match s1 with
  | EmptyString => s2
  | String c s1' => String c (append s1' s2)
  end.

(** The order of [str]: lexicographic, by code point. *)
Fixpoint leb (s1 s2 : string) : bool :=
  match s1, s2 with
  | EmptyString, _ => true
  | String _ _, EmptyString => false
  | String a s1', String b s2' =>
      if (code a <? code b)%N then true
      else if (code a =? code b)%N then leb s1' s2'
      else false
  end.

Definition le (s1 s2 : string) : Prop := leb s1 s2 = true.

Fixpoint to_list (s : string) : list N :=
  match s with
  | EmptyString => []
  | String c s' => code c :: to_list s'
  end.

(** The strings are counted through one positive number per string: the
    binary digits of each code point, lowest first and each behind a 1,
    closed by a 0. *)
Fixpoint pos_cons (p acc : positive) : positive :=
  match p with
  | xH => acc~0
  | p'~0 => (pos_cons p' acc)~0~1
  | p'~1 => (pos_cons p' acc)~1~1
  end%positive.

Fixpoint to_pos (s : string) : positive :=
  match s with
  | EmptyString => 1
  | String c s' => pos_cons (N.succ_pos (code c)) (to_pos s')
  end.

Fixpoint of_pos_go (k : positive -> positive) (inside : bool) (q : positive)
  : option string :=
  match q with
  | q'~0 => option_map (String (Chr (Pos.pred_N (k 1)))) (of_pos_go id false q')
  | q'~1 =>
      match q' with
      | q''~0 => of_pos_go (fun x => k x~0) true q''
      | q''~1 => of_pos_go (fun x => k x~1) true q''
      | xH => None
      end
  | xH => if inside then None else Some EmptyString
  end%positive.

Definition of_pos (q : positive) : option string := of_pos_go id false q.

(** Literals: ASCII text. *)
Fixpoint of_bytes (l : list byte) : option string :=
  match l with
  | [] => Some EmptyString
  | b :: l' =>
      let n := Byte.to_N b in
      if (n <? 128)%N then option_map (String (Chr n)) (of_bytes l') else None
  end.

Fixpoint to_bytes (s : string) : option (list byte) :=
  match s with
  | EmptyString => Some []
  | String c s' =>
      match Char.to_bytes c, to_bytes s' with
      | Some [b], Some l => Some (b :: l)
      | _, _ => None
      end
  end.

End String.

Declare Scope str_scope.
Delimit Scope str_scope with str.
Bind Scope str_scope with string.
String Notation string String.of_bytes String.to_bytes : str_scope.
Local Open Scope str_scope.

Infix "+:+" := String.append (at level 60, right associativity) : str_scope.

#[global] Instance char_eq_dec : EqDecision char.
Proof. solve_decision. Defined.

#[global] Instance string_eq_dec : EqDecision string.
Proof. solve_decision. Defined.

Lemma string_of_pos_cons (p acc : positive) (k : positive -> positive) (inside : bool) :
  String.of_pos_go k inside (String.pos_cons p acc)
  = option_map (String (Chr (Pos.pred_N (k p)))) (String.of_pos acc).
Proof.
  revert k inside. induction p as [p IH|p IH|]; intros k inside; cbn.
  - apply (IH (fun x => k x~1)%positive).
  - apply (IH (fun x => k x~0)%positive).
  - reflexivity.
Qed.

Lemma string_of_to_pos (s : string) : String.of_pos (String.to_pos s) = Some s.
Proof.
  induction s as [|[n] s IH]; [reflexivity|].
  unfold String.of_pos. cbn [String.to_pos code].
  rewrite string_of_pos_cons, IH. cbn. by rewrite N.pos_pred_succ.
Qed.

#[global] Instance string_countable : Countable string :=
  {| encode := String.to_pos; decode := String.of_pos; decode_encode := string_of_to_pos |}.

#[global] Instance string_le_dec : RelDecision String.le.
Proof. intros s1 s2. unfold String.le. apply _. Defined.

(* ===================================================================== *)
(** * The character tables of the interpreter *)
(* ===================================================================== *)

(** The answers of CPython 3.11 (Unicode 14.0.0) on every code point, as
    ranges [(first, last)] of code points. *)
Module Unicode.

Definition in_ranges (table : list (N * N)) (n : N) : bool :=
  existsb (fun '(lo, hi) => (lo <=? n) && (n <=? hi))%N table.

(** The number of code points of a table. *)
Definition size (table : list (N * N)) : N :=
  foldr (fun '(lo, hi) total => (hi - lo + 1 + total)%N) 0%N table.

(** [str.isspace], which is also the class [\s] of [re] on a [str]. *)
Definition SPACE : list (N * N) :=
  [(9, 13); (28, 32); (133, 133); (160, 160); (5760, 5760); (8192, 8202);
   (8232, 8233); (8239, 8239); (8287, 8287); (12288, 12288)]%N.

(** [str.isdigit]. *)
Definition DIGIT : list (N * N) :=
  [(48, 57); (178, 179); (185, 185); (1632, 1641); (1776, 1785);
   (1984, 1993); (2406, 2415); (2534, 2543); (2662, 2671); (2790, 2799);
   (2918, 2927); (3046, 3055); (3174, 3183); (3302, 3311); (3430, 3439);
   (3558, 3567); (3664, 3673); (3792, 3801); (3872, 3881); (4160, 4169);
   (4240, 4249); (4969, 4977); (6112, 6121); (6160, 6169); (6470, 6479);
   (6608, 6618); (6784, 6793); (6800, 6809); (6992, 7001); (7088, 7097);
   (7232, 7241); (7248, 7257); (8304, 8304); (8308, 8313); (8320, 8329);
   (9312, 9320); (9332, 9340); (9352, 9360); (9450, 9450); (9461, 9469);
   (9471, 9471); (10102, 10110); (10112, 10120); (10122, 10130);
   (42528, 42537); (43216, 43225); (43264, 43273); (43472, 43481);
   (43504, 43513); (43600, 43609); (44016, 44025); (65296, 65305);
   (66720, 66729); (68160, 68163); (68912, 68921); (69216, 69224);
   (69714, 69722); (69734, 69743); (69872, 69881); (69942, 69951);
   (70096, 70105); (70384, 70393); (70736, 70745); (70864, 70873);
   (71248, 71257); (71360, 71369); (71472, 71481); (71904, 71913);
   (72016, 72025); (72784, 72793); (73040, 73049); (73120, 73129);
   (92768, 92777); (92864, 92873); (93008, 93017); (120782, 120831);
   (123200, 123209); (123632, 123641); (125264, 125273); (127232, 127242);
   (130032, 130041)]%N.

(** [str.isdecimal], which is also the class [\d] of [re] on a [str]. *)
Definition DECIMAL : list (N * N) :=
  [(48, 57); (1632, 1641); (1776, 1785); (1984, 1993); (2406, 2415);
   (2534, 2543); (2662, 2671); (2790, 2799); (2918, 2927); (3046, 3055);
   (3174, 3183); (3302, 3311); (3430, 3439); (3558, 3567); (3664, 3673);
   (3792, 3801); (3872, 3881); (4160, 4169); (4240, 4249); (6112, 6121);
   (6160, 6169); (6470, 6479); (6608, 6617); (6784, 6793); (6800, 6809);
   (6992, 7001); (7088, 7097); (7232, 7241); (7248, 7257); (42528, 42537);
   (43216, 43225); (43264, 43273); (43472, 43481); (43504, 43513);
   (43600, 43609); (44016, 44025); (65296, 65305); (66720, 66729);
   (68912, 68921); (69734, 69743); (69872, 69881); (69942, 69951);
   (70096, 70105); (70384, 70393); (70736, 70745); (70864, 70873);
   (71248, 71257); (71360, 71369); (71472, 71481); (71904, 71913);
   (72016, 72025); (72784, 72793); (73040, 73049); (73120, 73129);
   (92768, 92777); (92864, 92873); (93008, 93017); (120782, 120831);
   (123200, 123209); (123632, 123641); (125264, 125273); (130032, 130041)]%N.

(** The class [\w] of [re] on a [str]: [str.isalnum], and the underscore. *)
Definition WORD : list (N * N) :=
  [(48, 57); (65, 90); (95, 95); (97, 122); (170, 170); (178, 179);
   (181, 181); (185, 186); (188, 190); (192, 214); (216, 246); (248, 705);
   (710, 721); (736, 740); (748, 748); (750, 750); (880, 884); (886, 887);
   (890, 893); (895, 895); (902, 902); (904, 906); (908, 908); (910, 929);
   (931, 1013); (1015, 1153); (1162, 1327); (1329, 1366); (1369, 1369);
   (1376, 1416); (1488, 1514); (1519, 1522); (1568, 1610); (1632, 1641);
   (1646, 1647); (1649, 1747); (1749, 1749); (1765, 1766); (1774, 1788);
   (1791, 1791); (1808, 1808); (1810, 1839); (1869, 1957); (1969, 1969);
   (1984, 2026); (2036, 2037); (2042, 2042); (2048, 2069); (2074, 2074);
   (2084, 2084); (2088, 2088); (2112, 2136); (2144, 2154); (2160, 2183);
   (2185, 2190); (2208, 2249); (2308, 2361); (2365, 2365); (2384, 2384);
   (2392, 2401); (2406, 2415); (2417, 2432); (2437, 2444); (2447, 2448);
   (2451, 2472); (2474, 2480); (2482, 2482); (2486, 2489); (2493, 2493);
   (2510, 2510); (2524, 2525); (2527, 2529); (2534, 2545); (2548, 2553);
   (2556, 2556); (2565, 2570); (2575, 2576); (2579, 2600); (2602, 2608);
   (2610, 2611); (2613, 2614); (2616, 2617); (2649, 2652); (2654, 2654);
   (2662, 2671); (2674, 2676); (2693, 2701); (2703, 2705); (2707, 2728);
   (2730, 2736); (2738, 2739); (2741, 2745); (2749, 2749); (2768, 2768);
   (2784, 2785); (2790, 2799); (2809, 2809); (2821, 2828); (2831, 2832);
   (2835, 2856); (2858, 2864); (2866, 2867); (2869, 2873); (2877, 2877);
   (2908, 2909); (2911, 2913); (2918, 2927); (2929, 2935); (2947, 2947);
   (2949, 2954); (2958, 2960); (2962, 2965); (2969, 2970); (2972, 2972);
   (2974, 2975); (2979, 2980); (2984, 2986); (2990, 3001); (3024, 3024);
   (3046, 3058); (3077, 3084); (3086, 3088); (3090, 3112); (3114, 3129);
   (3133, 3133); (3160, 3162); (3165, 3165); (3168, 3169); (3174, 3183);
   (3192, 3198); (3200, 3200); (3205, 3212); (3214, 3216); (3218, 3240);
   (3242, 3251); (3253, 3257); (3261, 3261); (3293, 3294); (3296, 3297);
   (3302, 3311); (3313, 3314); (3332, 3340); (3342, 3344); (3346, 3386);
   (3389, 3389); (3406, 3406); (3412, 3414); (3416, 3425); (3430, 3448);
   (3450, 3455); (3461, 3478); (3482, 3505); (3507, 3515); (3517, 3517);
   (3520, 3526); (3558, 3567); (3585, 3632); (3634, 3635); (3648, 3654);
   (3664, 3673); (3713, 3714); (3716, 3716); (3718, 3722); (3724, 3747);
   (3749, 3749); (3751, 3760); (3762, 3763); (3773, 3773); (3776, 3780);
   (3782, 3782); (3792, 3801); (3804, 3807); (3840, 3840); (3872, 3891);
   (3904, 3911); (3913, 3948); (3976, 3980); (4096, 4138); (4159, 4169);
   (4176, 4181); (4186, 4189); (4193, 4193); (4197, 4198); (4206, 4208);
   (4213, 4225); (4238, 4238); (4240, 4249); (4256, 4293); (4295, 4295);
   (4301, 4301); (4304, 4346); (4348, 4680); (4682, 4685); (4688, 4694);
   (4696, 4696); (4698, 4701); (4704, 4744); (4746, 4749); (4752, 4784);
   (4786, 4789); (4792, 4798); (4800, 4800); (4802, 4805); (4808, 4822);
   (4824, 4880); (4882, 4885); (4888, 4954); (4969, 4988); (4992, 5007);
   (5024, 5109); (5112, 5117); (5121, 5740); (5743, 5759); (5761, 5786);
   (5792, 5866); (5870, 5880); (5888, 5905); (5919, 5937); (5952, 5969);
   (5984, 5996); (5998, 6000); (6016, 6067); (6103, 6103); (6108, 6108);
   (6112, 6121); (6128, 6137); (6160, 6169); (6176, 6264); (6272, 6276);
   (6279, 6312); (6314, 6314); (6320, 6389); (6400, 6430); (6470, 6509);
   (6512, 6516); (6528, 6571); (6576, 6601); (6608, 6618); (6656, 6678);
   (6688, 6740); (6784, 6793); (6800, 6809); (6823, 6823); (6917, 6963);
   (6981, 6988); (6992, 7001); (7043, 7072); (7086, 7141); (7168, 7203);
   (7232, 7241); (7245, 7293); (7296, 7304); (7312, 7354); (7357, 7359);
   (7401, 7404); (7406, 7411); (7413, 7414); (7418, 7418); (7424, 7615);
   (7680, 7957); (7960, 7965); (7968, 8005); (8008, 8013); (8016, 8023);
   (8025, 8025); (8027, 8027); (8029, 8029); (8031, 8061); (8064, 8116);
   (8118, 8124); (8126, 8126); (8130, 8132); (8134, 8140); (8144, 8147);
   (8150, 8155); (8160, 8172); (8178, 8180); (8182, 8188); (8304, 8305);
   (8308, 8313); (8319, 8329); (8336, 8348); (8450, 8450); (8455, 8455);
   (8458, 8467); (8469, 8469); (8473, 8477); (8484, 8484); (8486, 8486);
   (8488, 8488); (8490, 8493); (8495, 8505); (8508, 8511); (8517, 8521);
   (8526, 8526); (8528, 8585); (9312, 9371); (9450, 9471); (10102, 10131);
   (11264, 11492); (11499, 11502); (11506, 11507); (11517, 11517);
   (11520, 11557); (11559, 11559); (11565, 11565); (11568, 11623);
   (11631, 11631); (11648, 11670); (11680, 11686); (11688, 11694);
   (11696, 11702); (11704, 11710); (11712, 11718); (11720, 11726);
   (11728, 11734); (11736, 11742); (11823, 11823); (12293, 12295);
   (12321, 12329); (12337, 12341); (12344, 12348); (12353, 12438);
   (12445, 12447); (12449, 12538); (12540, 12543); (12549, 12591);
   (12593, 12686); (12690, 12693); (12704, 12735); (12784, 12799);
   (12832, 12841); (12872, 12879); (12881, 12895); (12928, 12937);
   (12977, 12991); (13312, 19903); (19968, 42124); (42192, 42237);
   (42240, 42508); (42512, 42539); (42560, 42606); (42623, 42653);
   (42656, 42735); (42775, 42783); (42786, 42888); (42891, 42954);
   (42960, 42961); (42963, 42963); (42965, 42969); (42994, 43009);
   (43011, 43013); (43015, 43018); (43020, 43042); (43056, 43061);
   (43072, 43123); (43138, 43187); (43216, 43225); (43250, 43255);
   (43259, 43259); (43261, 43262); (43264, 43301); (43312, 43334);
   (43360, 43388); (43396, 43442); (43471, 43481); (43488, 43492);
   (43494, 43518); (43520, 43560); (43584, 43586); (43588, 43595);
   (43600, 43609); (43616, 43638); (43642, 43642); (43646, 43695);
   (43697, 43697); (43701, 43702); (43705, 43709); (43712, 43712);
   (43714, 43714); (43739, 43741); (43744, 43754); (43762, 43764);
   (43777, 43782); (43785, 43790); (43793, 43798); (43808, 43814);
   (43816, 43822); (43824, 43866); (43868, 43881); (43888, 44002);
   (44016, 44025); (44032, 55203); (55216, 55238); (55243, 55291);
   (63744, 64109); (64112, 64217); (64256, 64262); (64275, 64279);
   (64285, 64285); (64287, 64296); (64298, 64310); (64312, 64316);
   (64318, 64318); (64320, 64321); (64323, 64324); (64326, 64433);
   (64467, 64829); (64848, 64911); (64914, 64967); (65008, 65019);
   (65136, 65140); (65142, 65276); (65296, 65305); (65313, 65338);
   (65345, 65370); (65382, 65470); (65474, 65479); (65482, 65487);
   (65490, 65495); (65498, 65500); (65536, 65547); (65549, 65574);
   (65576, 65594); (65596, 65597); (65599, 65613); (65616, 65629);
   (65664, 65786); (65799, 65843); (65856, 65912); (65930, 65931);
   (66176, 66204); (66208, 66256); (66273, 66299); (66304, 66339);
   (66349, 66378); (66384, 66421); (66432, 66461); (66464, 66499);
   (66504, 66511); (66513, 66517); (66560, 66717); (66720, 66729);
   (66736, 66771); (66776, 66811); (66816, 66855); (66864, 66915);
   (66928, 66938); (66940, 66954); (66956, 66962); (66964, 66965);
   (66967, 66977); (66979, 66993); (66995, 67001); (67003, 67004);
   (67072, 67382); (67392, 67413); (67424, 67431); (67456, 67461);
   (67463, 67504); (67506, 67514); (67584, 67589); (67592, 67592);
   (67594, 67637); (67639, 67640); (67644, 67644); (67647, 67669);
   (67672, 67702); (67705, 67742); (67751, 67759); (67808, 67826);
   (67828, 67829); (67835, 67867); (67872, 67897); (67968, 68023);
   (68028, 68047); (68050, 68096); (68112, 68115); (68117, 68119);
   (68121, 68149); (68160, 68168); (68192, 68222); (68224, 68255);
   (68288, 68295); (68297, 68324); (68331, 68335); (68352, 68405);
   (68416, 68437); (68440, 68466); (68472, 68497); (68521, 68527);
   (68608, 68680); (68736, 68786); (68800, 68850); (68858, 68899);
   (68912, 68921); (69216, 69246); (69248, 69289); (69296, 69297);
   (69376, 69415); (69424, 69445); (69457, 69460); (69488, 69505);
   (69552, 69579); (69600, 69622); (69635, 69687); (69714, 69743);
   (69745, 69746); (69749, 69749); (69763, 69807); (69840, 69864);
   (69872, 69881); (69891, 69926); (69942, 69951); (69956, 69956);
   (69959, 69959); (69968, 70002); (70006, 70006); (70019, 70066);
   (70081, 70084); (70096, 70106); (70108, 70108); (70113, 70132);
   (70144, 70161); (70163, 70187); (70272, 70278); (70280, 70280);
   (70282, 70285); (70287, 70301); (70303, 70312); (70320, 70366);
   (70384, 70393); (70405, 70412); (70415, 70416); (70419, 70440);
   (70442, 70448); (70450, 70451); (70453, 70457); (70461, 70461);
   (70480, 70480); (70493, 70497); (70656, 70708); (70727, 70730);
   (70736, 70745); (70751, 70753); (70784, 70831); (70852, 70853);
   (70855, 70855); (70864, 70873); (71040, 71086); (71128, 71131);
   (71168, 71215); (71236, 71236); (71248, 71257); (71296, 71338);
   (71352, 71352); (71360, 71369); (71424, 71450); (71472, 71483);
   (71488, 71494); (71680, 71723); (71840, 71922); (71935, 71942);
   (71945, 71945); (71948, 71955); (71957, 71958); (71960, 71983);
   (71999, 71999); (72001, 72001); (72016, 72025); (72096, 72103);
   (72106, 72144); (72161, 72161); (72163, 72163); (72192, 72192);
   (72203, 72242); (72250, 72250); (72272, 72272); (72284, 72329);
   (72349, 72349); (72368, 72440); (72704, 72712); (72714, 72750);
   (72768, 72768); (72784, 72812); (72818, 72847); (72960, 72966);
   (72968, 72969); (72971, 73008); (73030, 73030); (73040, 73049);
   (73056, 73061); (73063, 73064); (73066, 73097); (73112, 73112);
   (73120, 73129); (73440, 73458); (73648, 73648); (73664, 73684);
   (73728, 74649); (74752, 74862); (74880, 75075); (77712, 77808);
   (77824, 78894); (82944, 83526); (92160, 92728); (92736, 92766);
   (92768, 92777); (92784, 92862); (92864, 92873); (92880, 92909);
   (92928, 92975); (92992, 92995); (93008, 93017); (93019, 93025);
   (93027, 93047); (93053, 93071); (93760, 93846); (93952, 94026);
   (94032, 94032); (94099, 94111); (94176, 94177); (94179, 94179);
   (94208, 100343); (100352, 101589); (101632, 101640); (110576, 110579);
   (110581, 110587); (110589, 110590); (110592, 110882); (110928, 110930);
   (110948, 110951); (110960, 111355); (113664, 113770); (113776, 113788);
   (113792, 113800); (113808, 113817); (119520, 119539); (119648, 119672);
   (119808, 119892); (119894, 119964); (119966, 119967); (119970, 119970);
   (119973, 119974); (119977, 119980); (119982, 119993); (119995, 119995);
   (119997, 120003); (120005, 120069); (120071, 120074); (120077, 120084);
   (120086, 120092); (120094, 120121); (120123, 120126); (120128, 120132);
   (120134, 120134); (120138, 120144); (120146, 120485); (120488, 120512);
   (120514, 120538); (120540, 120570); (120572, 120596); (120598, 120628);
   (120630, 120654); (120656, 120686); (120688, 120712); (120714, 120744);
   (120746, 120770); (120772, 120779); (120782, 120831); (122624, 122654);
   (123136, 123180); (123191, 123197); (123200, 123209); (123214, 123214);
   (123536, 123565); (123584, 123627); (123632, 123641); (124896, 124902);
   (124904, 124907); (124909, 124910); (124912, 124926); (124928, 125124);
   (125127, 125135); (125184, 125251); (125259, 125259); (125264, 125273);
   (126065, 126123); (126125, 126127); (126129, 126132); (126209, 126253);
   (126255, 126269); (126464, 126467); (126469, 126495); (126497, 126498);
   (126500, 126500); (126503, 126503); (126505, 126514); (126516, 126519);
   (126521, 126521); (126523, 126523); (126530, 126530); (126535, 126535);
   (126537, 126537); (126539, 126539); (126541, 126543); (126545, 126546);
   (126548, 126548); (126551, 126551); (126553, 126553); (126555, 126555);
   (126557, 126557); (126559, 126559); (126561, 126562); (126564, 126564);
   (126567, 126570); (126572, 126578); (126580, 126583); (126585, 126588);
   (126590, 126590); (126592, 126601); (126603, 126619); (126625, 126627);
   (126629, 126633); (126635, 126651); (127232, 127244); (130032, 130041);
   (131072, 173791); (173824, 177976); (177984, 178205); (178208, 183969);
   (183984, 191456); (194560, 195101); (196608, 201546)]%N.

(** The cased characters among those that are not case-ignorable. *)
Definition CASED : list (N * N) :=
  [(65, 90); (97, 122); (170, 170); (181, 181); (186, 186); (192, 214);
   (216, 246); (248, 442); (444, 447); (452, 659); (661, 687); (880, 883);
   (886, 887); (891, 893); (895, 895); (902, 902); (904, 906); (908, 908);
   (910, 929); (931, 1013); (1015, 1153); (1162, 1327); (1329, 1366);
   (1376, 1416); (4256, 4293); (4295, 4295); (4301, 4301); (4304, 4346);
   (4349, 4351); (5024, 5109); (5112, 5117); (7296, 7304); (7312, 7354);
   (7357, 7359); (7424, 7467); (7531, 7543); (7545, 7578); (7680, 7957);
   (7960, 7965); (7968, 8005); (8008, 8013); (8016, 8023); (8025, 8025);
   (8027, 8027); (8029, 8029); (8031, 8061); (8064, 8116); (8118, 8124);
   (8126, 8126); (8130, 8132); (8134, 8140); (8144, 8147); (8150, 8155);
   (8160, 8172); (8178, 8180); (8182, 8188); (8450, 8450); (8455, 8455);
   (8458, 8467); (8469, 8469); (8473, 8477); (8484, 8484); (8486, 8486);
   (8488, 8488); (8490, 8493); (8495, 8500); (8505, 8505); (8508, 8511);
   (8517, 8521); (8526, 8526); (8544, 8575); (8579, 8580); (9398, 9449);
   (11264, 11387); (11390, 11492); (11499, 11502); (11506, 11507);
   (11520, 11557); (11559, 11559); (11565, 11565); (42560, 42605);
   (42624, 42651); (42786, 42863); (42865, 42887); (42891, 42894);
   (42896, 42954); (42960, 42961); (42963, 42963); (42965, 42969);
   (42997, 42998); (43002, 43002); (43824, 43866); (43872, 43880);
   (43888, 43967); (64256, 64262); (64275, 64279); (65313, 65338);
   (65345, 65370); (66560, 66639); (66736, 66771); (66776, 66811);
   (66928, 66938); (66940, 66954); (66956, 66962); (66964, 66965);
   (66967, 66977); (66979, 66993); (66995, 67001); (67003, 67004);
   (68736, 68786); (68800, 68850); (71840, 71903); (93760, 93823);
   (119808, 119892); (119894, 119964); (119966, 119967); (119970, 119970);
   (119973, 119974); (119977, 119980); (119982, 119993); (119995, 119995);
   (119997, 120003); (120005, 120069); (120071, 120074); (120077, 120084);
   (120086, 120092); (120094, 120121); (120123, 120126); (120128, 120132);
   (120134, 120134); (120138, 120144); (120146, 120485); (120488, 120512);
   (120514, 120538); (120540, 120570); (120572, 120596); (120598, 120628);
   (120630, 120654); (120656, 120686); (120688, 120712); (120714, 120744);
   (120746, 120770); (120772, 120779); (122624, 122633); (122635, 122654);
   (125184, 125251); (127280, 127305); (127312, 127337); (127344, 127369)]%N.

(** The case-ignorable characters. *)
Definition CASE_IGNORABLE : list (N * N) :=
  [(39, 39); (46, 46); (58, 58); (94, 94); (96, 96); (168, 168); (173, 173);
   (175, 175); (180, 180); (183, 184); (688, 879); (884, 885); (890, 890);
   (900, 901); (903, 903); (1155, 1161); (1369, 1369); (1375, 1375);
   (1425, 1469); (1471, 1471); (1473, 1474); (1476, 1477); (1479, 1479);
   (1524, 1524); (1536, 1541); (1552, 1562); (1564, 1564); (1600, 1600);
   (1611, 1631); (1648, 1648); (1750, 1757); (1759, 1768); (1770, 1773);
   (1807, 1807); (1809, 1809); (1840, 1866); (1958, 1968); (2027, 2037);
   (2042, 2042); (2045, 2045); (2070, 2093); (2137, 2139); (2184, 2184);
   (2192, 2193); (2200, 2207); (2249, 2306); (2362, 2362); (2364, 2364);
   (2369, 2376); (2381, 2381); (2385, 2391); (2402, 2403); (2417, 2417);
   (2433, 2433); (2492, 2492); (2497, 2500); (2509, 2509); (2530, 2531);
   (2558, 2558); (2561, 2562); (2620, 2620); (2625, 2626); (2631, 2632);
   (2635, 2637); (2641, 2641); (2672, 2673); (2677, 2677); (2689, 2690);
   (2748, 2748); (2753, 2757); (2759, 2760); (2765, 2765); (2786, 2787);
   (2810, 2815); (2817, 2817); (2876, 2876); (2879, 2879); (2881, 2884);
   (2893, 2893); (2901, 2902); (2914, 2915); (2946, 2946); (3008, 3008);
   (3021, 3021); (3072, 3072); (3076, 3076); (3132, 3132); (3134, 3136);
   (3142, 3144); (3146, 3149); (3157, 3158); (3170, 3171); (3201, 3201);
   (3260, 3260); (3263, 3263); (3270, 3270); (3276, 3277); (3298, 3299);
   (3328, 3329); (3387, 3388); (3393, 3396); (3405, 3405); (3426, 3427);
   (3457, 3457); (3530, 3530); (3538, 3540); (3542, 3542); (3633, 3633);
   (3636, 3642); (3654, 3662); (3761, 3761); (3764, 3772); (3782, 3782);
   (3784, 3789); (3864, 3865); (3893, 3893); (3895, 3895); (3897, 3897);
   (3953, 3966); (3968, 3972); (3974, 3975); (3981, 3991); (3993, 4028);
   (4038, 4038); (4141, 4144); (4146, 4151); (4153, 4154); (4157, 4158);
   (4184, 4185); (4190, 4192); (4209, 4212); (4226, 4226); (4229, 4230);
   (4237, 4237); (4253, 4253); (4348, 4348); (4957, 4959); (5906, 5908);
   (5938, 5939); (5970, 5971); (6002, 6003); (6068, 6069); (6071, 6077);
   (6086, 6086); (6089, 6099); (6103, 6103); (6109, 6109); (6155, 6159);
   (6211, 6211); (6277, 6278); (6313, 6313); (6432, 6434); (6439, 6440);
   (6450, 6450); (6457, 6459); (6679, 6680); (6683, 6683); (6742, 6742);
   (6744, 6750); (6752, 6752); (6754, 6754); (6757, 6764); (6771, 6780);
   (6783, 6783); (6823, 6823); (6832, 6862); (6912, 6915); (6964, 6964);
   (6966, 6970); (6972, 6972); (6978, 6978); (7019, 7027); (7040, 7041);
   (7074, 7077); (7080, 7081); (7083, 7085); (7142, 7142); (7144, 7145);
   (7149, 7149); (7151, 7153); (7212, 7219); (7222, 7223); (7288, 7293);
   (7376, 7378); (7380, 7392); (7394, 7400); (7405, 7405); (7412, 7412);
   (7416, 7417); (7468, 7530); (7544, 7544); (7579, 7679); (8125, 8125);
   (8127, 8129); (8141, 8143); (8157, 8159); (8173, 8175); (8189, 8190);
   (8203, 8207); (8216, 8217); (8228, 8228); (8231, 8231); (8234, 8238);
   (8288, 8292); (8294, 8303); (8305, 8305); (8319, 8319); (8336, 8348);
   (8400, 8432); (11388, 11389); (11503, 11505); (11631, 11631);
   (11647, 11647); (11744, 11775); (11823, 11823); (12293, 12293);
   (12330, 12333); (12337, 12341); (12347, 12347); (12441, 12446);
   (12540, 12542); (40981, 40981); (42232, 42237); (42508, 42508);
   (42607, 42610); (42612, 42621); (42623, 42623); (42652, 42655);
   (42736, 42737); (42752, 42785); (42864, 42864); (42888, 42890);
   (42994, 42996); (43000, 43001); (43010, 43010); (43014, 43014);
   (43019, 43019); (43045, 43046); (43052, 43052); (43204, 43205);
   (43232, 43249); (43263, 43263); (43302, 43309); (43335, 43345);
   (43392, 43394); (43443, 43443); (43446, 43449); (43452, 43453);
   (43471, 43471); (43493, 43494); (43561, 43566); (43569, 43570);
   (43573, 43574); (43587, 43587); (43596, 43596); (43632, 43632);
   (43644, 43644); (43696, 43696); (43698, 43700); (43703, 43704);
   (43710, 43711); (43713, 43713); (43741, 43741); (43756, 43757);
   (43763, 43764); (43766, 43766); (43867, 43871); (43881, 43883);
   (44005, 44005); (44008, 44008); (44013, 44013); (64286, 64286);
   (64434, 64450); (65024, 65039); (65043, 65043); (65056, 65071);
   (65106, 65106); (65109, 65109); (65279, 65279); (65287, 65287);
   (65294, 65294); (65306, 65306); (65342, 65342); (65344, 65344);
   (65392, 65392); (65438, 65439); (65507, 65507); (65529, 65531);
   (66045, 66045); (66272, 66272); (66422, 66426); (67456, 67461);
   (67463, 67504); (67506, 67514); (68097, 68099); (68101, 68102);
   (68108, 68111); (68152, 68154); (68159, 68159); (68325, 68326);
   (68900, 68903); (69291, 69292); (69446, 69456); (69506, 69509);
   (69633, 69633); (69688, 69702); (69744, 69744); (69747, 69748);
   (69759, 69761); (69811, 69814); (69817, 69818); (69821, 69821);
   (69826, 69826); (69837, 69837); (69888, 69890); (69927, 69931);
   (69933, 69940); (70003, 70003); (70016, 70017); (70070, 70078);
   (70089, 70092); (70095, 70095); (70191, 70193); (70196, 70196);
   (70198, 70199); (70206, 70206); (70367, 70367); (70371, 70378);
   (70400, 70401); (70459, 70460); (70464, 70464); (70502, 70508);
   (70512, 70516); (70712, 70719); (70722, 70724); (70726, 70726);
   (70750, 70750); (70835, 70840); (70842, 70842); (70847, 70848);
   (70850, 70851); (71090, 71093); (71100, 71101); (71103, 71104);
   (71132, 71133); (71219, 71226); (71229, 71229); (71231, 71232);
   (71339, 71339); (71341, 71341); (71344, 71349); (71351, 71351);
   (71453, 71455); (71458, 71461); (71463, 71467); (71727, 71735);
   (71737, 71738); (71995, 71996); (71998, 71998); (72003, 72003);
   (72148, 72151); (72154, 72155); (72160, 72160); (72193, 72202);
   (72243, 72248); (72251, 72254); (72263, 72263); (72273, 72278);
   (72281, 72283); (72330, 72342); (72344, 72345); (72752, 72758);
   (72760, 72765); (72767, 72767); (72850, 72871); (72874, 72880);
   (72882, 72883); (72885, 72886); (73009, 73014); (73018, 73018);
   (73020, 73021); (73023, 73029); (73031, 73031); (73104, 73105);
   (73109, 73109); (73111, 73111); (73459, 73460); (78896, 78904);
   (92912, 92916); (92976, 92982); (92992, 92995); (94031, 94031);
   (94095, 94111); (94176, 94177); (94179, 94180); (110576, 110579);
   (110581, 110587); (110589, 110590); (113821, 113822); (113824, 113827);
   (118528, 118573); (118576, 118598); (119143, 119145); (119155, 119170);
   (119173, 119179); (119210, 119213); (119362, 119364); (121344, 121398);
   (121403, 121452); (121461, 121461); (121476, 121476); (121499, 121503);
   (121505, 121519); (122880, 122886); (122888, 122904); (122907, 122913);
   (122915, 122916); (122918, 122922); (123184, 123197); (123566, 123566);
   (123628, 123631); (125136, 125142); (125252, 125259); (127995, 127999);
   (917505, 917505); (917536, 917631); (917760, 917999)]%N.

(** The lower-case mapping of one character, where it is one character: the
    code points [lo .. hi] go to [target .. target + (hi - lo)].  Every other
    code point but U+0130 is its own lower case. *)
Definition LOWER : list (N * N * N) :=
  [(65, 90, 97); (192, 214, 224); (216, 222, 248); (256, 256, 257);
   (258, 258, 259); (260, 260, 261); (262, 262, 263); (264, 264, 265);
   (266, 266, 267); (268, 268, 269); (270, 270, 271); (272, 272, 273);
   (274, 274, 275); (276, 276, 277); (278, 278, 279); (280, 280, 281);
   (282, 282, 283); (284, 284, 285); (286, 286, 287); (288, 288, 289);
   (290, 290, 291); (292, 292, 293); (294, 294, 295); (296, 296, 297);
   (298, 298, 299); (300, 300, 301); (302, 302, 303); (306, 306, 307);
   (308, 308, 309); (310, 310, 311); (313, 313, 314); (315, 315, 316);
   (317, 317, 318); (319, 319, 320); (321, 321, 322); (323, 323, 324);
   (325, 325, 326); (327, 327, 328); (330, 330, 331); (332, 332, 333);
   (334, 334, 335); (336, 336, 337); (338, 338, 339); (340, 340, 341);
   (342, 342, 343); (344, 344, 345); (346, 346, 347); (348, 348, 349);
   (350, 350, 351); (352, 352, 353); (354, 354, 355); (356, 356, 357);
   (358, 358, 359); (360, 360, 361); (362, 362, 363); (364, 364, 365);
   (366, 366, 367); (368, 368, 369); (370, 370, 371); (372, 372, 373);
   (374, 374, 375); (376, 376, 255); (377, 377, 378); (379, 379, 380);
   (381, 381, 382); (385, 385, 595); (386, 386, 387); (388, 388, 389);
   (390, 390, 596); (391, 391, 392); (393, 394, 598); (395, 395, 396);
   (398, 398, 477); (399, 399, 601); (400, 400, 603); (401, 401, 402);
   (403, 403, 608); (404, 404, 611); (406, 406, 617); (407, 407, 616);
   (408, 408, 409); (412, 412, 623); (413, 413, 626); (415, 415, 629);
   (416, 416, 417); (418, 418, 419); (420, 420, 421); (422, 422, 640);
   (423, 423, 424); (425, 425, 643); (428, 428, 429); (430, 430, 648);
   (431, 431, 432); (433, 434, 650); (435, 435, 436); (437, 437, 438);
   (439, 439, 658); (440, 440, 441); (444, 444, 445); (452, 452, 454);
   (453, 453, 454); (455, 455, 457); (456, 456, 457); (458, 458, 460);
   (459, 459, 460); (461, 461, 462); (463, 463, 464); (465, 465, 466);
   (467, 467, 468); (469, 469, 470); (471, 471, 472); (473, 473, 474);
   (475, 475, 476); (478, 478, 479); (480, 480, 481); (482, 482, 483);
   (484, 484, 485); (486, 486, 487); (488, 488, 489); (490, 490, 491);
   (492, 492, 493); (494, 494, 495); (497, 497, 499); (498, 498, 499);
   (500, 500, 501); (502, 502, 405); (503, 503, 447); (504, 504, 505);
   (506, 506, 507); (508, 508, 509); (510, 510, 511); (512, 512, 513);
   (514, 514, 515); (516, 516, 517); (518, 518, 519); (520, 520, 521);
   (522, 522, 523); (524, 524, 525); (526, 526, 527); (528, 528, 529);
   (530, 530, 531); (532, 532, 533); (534, 534, 535); (536, 536, 537);
   (538, 538, 539); (540, 540, 541); (542, 542, 543); (544, 544, 414);
   (546, 546, 547); (548, 548, 549); (550, 550, 551); (552, 552, 553);
   (554, 554, 555); (556, 556, 557); (558, 558, 559); (560, 560, 561);
   (562, 562, 563); (570, 570, 11365); (571, 571, 572); (573, 573, 410);
   (574, 574, 11366); (577, 577, 578); (579, 579, 384); (580, 580, 649);
   (581, 581, 652); (582, 582, 583); (584, 584, 585); (586, 586, 587);
   (588, 588, 589); (590, 590, 591); (880, 880, 881); (882, 882, 883);
   (886, 886, 887); (895, 895, 1011); (902, 902, 940); (904, 906, 941);
   (908, 908, 972); (910, 911, 973); (913, 929, 945); (931, 939, 963);
   (975, 975, 983); (984, 984, 985); (986, 986, 987); (988, 988, 989);
   (990, 990, 991); (992, 992, 993); (994, 994, 995); (996, 996, 997);
   (998, 998, 999); (1000, 1000, 1001); (1002, 1002, 1003);
   (1004, 1004, 1005); (1006, 1006, 1007); (1012, 1012, 952);
   (1015, 1015, 1016); (1017, 1017, 1010); (1018, 1018, 1019);
   (1021, 1023, 891); (1024, 1039, 1104); (1040, 1071, 1072);
   (1120, 1120, 1121); (1122, 1122, 1123); (1124, 1124, 1125);
   (1126, 1126, 1127); (1128, 1128, 1129); (1130, 1130, 1131);
   (1132, 1132, 1133); (1134, 1134, 1135); (1136, 1136, 1137);
   (1138, 1138, 1139); (1140, 1140, 1141); (1142, 1142, 1143);
   (1144, 1144, 1145); (1146, 1146, 1147); (1148, 1148, 1149);
   (1150, 1150, 1151); (1152, 1152, 1153); (1162, 1162, 1163);
   (1164, 1164, 1165); (1166, 1166, 1167); (1168, 1168, 1169);
   (1170, 1170, 1171); (1172, 1172, 1173); (1174, 1174, 1175);
   (1176, 1176, 1177); (1178, 1178, 1179); (1180, 1180, 1181);
   (1182, 1182, 1183); (1184, 1184, 1185); (1186, 1186, 1187);
   (1188, 1188, 1189); (1190, 1190, 1191); (1192, 1192, 1193);
   (1194, 1194, 1195); (1196, 1196, 1197); (1198, 1198, 1199);
   (1200, 1200, 1201); (1202, 1202, 1203); (1204, 1204, 1205);
   (1206, 1206, 1207); (1208, 1208, 1209); (1210, 1210, 1211);
   (1212, 1212, 1213); (1214, 1214, 1215); (1216, 1216, 1231);
   (1217, 1217, 1218); (1219, 1219, 1220); (1221, 1221, 1222);
   (1223, 1223, 1224); (1225, 1225, 1226); (1227, 1227, 1228);
   (1229, 1229, 1230); (1232, 1232, 1233); (1234, 1234, 1235);
   (1236, 1236, 1237); (1238, 1238, 1239); (1240, 1240, 1241);
   (1242, 1242, 1243); (1244, 1244, 1245); (1246, 1246, 1247);
   (1248, 1248, 1249); (1250, 1250, 1251); (1252, 1252, 1253);
   (1254, 1254, 1255); (1256, 1256, 1257); (1258, 1258, 1259);
   (1260, 1260, 1261); (1262, 1262, 1263); (1264, 1264, 1265);
   (1266, 1266, 1267); (1268, 1268, 1269); (1270, 1270, 1271);
   (1272, 1272, 1273); (1274, 1274, 1275); (1276, 1276, 1277);
   (1278, 1278, 1279); (1280, 1280, 1281); (1282, 1282, 1283);
   (1284, 1284, 1285); (1286, 1286, 1287); (1288, 1288, 1289);
   (1290, 1290, 1291); (1292, 1292, 1293); (1294, 1294, 1295);
   (1296, 1296, 1297); (1298, 1298, 1299); (1300, 1300, 1301);
   (1302, 1302, 1303); (1304, 1304, 1305); (1306, 1306, 1307);
   (1308, 1308, 1309); (1310, 1310, 1311); (1312, 1312, 1313);
   (1314, 1314, 1315); (1316, 1316, 1317); (1318, 1318, 1319);
   (1320, 1320, 1321); (1322, 1322, 1323); (1324, 1324, 1325);
   (1326, 1326, 1327); (1329, 1366, 1377); (4256, 4293, 11520);
   (4295, 4295, 11559); (4301, 4301, 11565); (5024, 5103, 43888);
   (5104, 5109, 5112); (7312, 7354, 4304); (7357, 7359, 4349);
   (7680, 7680, 7681); (7682, 7682, 7683); (7684, 7684, 7685);
   (7686, 7686, 7687); (7688, 7688, 7689); (7690, 7690, 7691);
   (7692, 7692, 7693); (7694, 7694, 7695); (7696, 7696, 7697);
   (7698, 7698, 7699); (7700, 7700, 7701); (7702, 7702, 7703);
   (7704, 7704, 7705); (7706, 7706, 7707); (7708, 7708, 7709);
   (7710, 7710, 7711); (7712, 7712, 7713); (7714, 7714, 7715);
   (7716, 7716, 7717); (7718, 7718, 7719); (7720, 7720, 7721);
   (7722, 7722, 7723); (7724, 7724, 7725); (7726, 7726, 7727);
   (7728, 7728, 7729); (7730, 7730, 7731); (7732, 7732, 7733);
   (7734, 7734, 7735); (7736, 7736, 7737); (7738, 7738, 7739);
   (7740, 7740, 7741); (7742, 7742, 7743); (7744, 7744, 7745);
   (7746, 7746, 7747); (7748, 7748, 7749); (7750, 7750, 7751);
   (7752, 7752, 7753); (7754, 7754, 7755); (7756, 7756, 7757);
   (7758, 7758, 7759); (7760, 7760, 7761); (7762, 7762, 7763);
   (7764, 7764, 7765); (7766, 7766, 7767); (7768, 7768, 7769);
   (7770, 7770, 7771); (7772, 7772, 7773); (7774, 7774, 7775);
   (7776, 7776, 7777); (7778, 7778, 7779); (7780, 7780, 7781);
   (7782, 7782, 7783); (7784, 7784, 7785); (7786, 7786, 7787);
   (7788, 7788, 7789); (7790, 7790, 7791); (7792, 7792, 7793);
   (7794, 7794, 7795); (7796, 7796, 7797); (7798, 7798, 7799);
   (7800, 7800, 7801); (7802, 7802, 7803); (7804, 7804, 7805);
   (7806, 7806, 7807); (7808, 7808, 7809); (7810, 7810, 7811);
   (7812, 7812, 7813); (7814, 7814, 7815); (7816, 7816, 7817);
   (7818, 7818, 7819); (7820, 7820, 7821); (7822, 7822, 7823);
   (7824, 7824, 7825); (7826, 7826, 7827); (7828, 7828, 7829);
   (7838, 7838, 223); (7840, 7840, 7841); (7842, 7842, 7843);
   (7844, 7844, 7845); (7846, 7846, 7847); (7848, 7848, 7849);
   (7850, 7850, 7851); (7852, 7852, 7853); (7854, 7854, 7855);
   (7856, 7856, 7857); (7858, 7858, 7859); (7860, 7860, 7861);
   (7862, 7862, 7863); (7864, 7864, 7865); (7866, 7866, 7867);
   (7868, 7868, 7869); (7870, 7870, 7871); (7872, 7872, 7873);
   (7874, 7874, 7875); (7876, 7876, 7877); (7878, 7878, 7879);
   (7880, 7880, 7881); (7882, 7882, 7883); (7884, 7884, 7885);
   (7886, 7886, 7887); (7888, 7888, 7889); (7890, 7890, 7891);
   (7892, 7892, 7893); (7894, 7894, 7895); (7896, 7896, 7897);
   (7898, 7898, 7899); (7900, 7900, 7901); (7902, 7902, 7903);
   (7904, 7904, 7905); (7906, 7906, 7907); (7908, 7908, 7909);
   (7910, 7910, 7911); (7912, 7912, 7913); (7914, 7914, 7915);
   (7916, 7916, 7917); (7918, 7918, 7919); (7920, 7920, 7921);
   (7922, 7922, 7923); (7924, 7924, 7925); (7926, 7926, 7927);
   (7928, 7928, 7929); (7930, 7930, 7931); (7932, 7932, 7933);
   (7934, 7934, 7935); (7944, 7951, 7936); (7960, 7965, 7952);
   (7976, 7983, 7968); (7992, 7999, 7984); (8008, 8013, 8000);
   (8025, 8025, 8017); (8027, 8027, 8019); (8029, 8029, 8021);
   (8031, 8031, 8023); (8040, 8047, 8032); (8072, 8079, 8064);
   (8088, 8095, 8080); (8104, 8111, 8096); (8120, 8121, 8112);
   (8122, 8123, 8048); (8124, 8124, 8115); (8136, 8139, 8050);
   (8140, 8140, 8131); (8152, 8153, 8144); (8154, 8155, 8054);
   (8168, 8169, 8160); (8170, 8171, 8058); (8172, 8172, 8165);
   (8184, 8185, 8056); (8186, 8187, 8060); (8188, 8188, 8179);
   (8486, 8486, 969); (8490, 8490, 107); (8491, 8491, 229);
   (8498, 8498, 8526); (8544, 8559, 8560); (8579, 8579, 8580);
   (9398, 9423, 9424); (11264, 11311, 11312); (11360, 11360, 11361);
   (11362, 11362, 619); (11363, 11363, 7549); (11364, 11364, 637);
   (11367, 11367, 11368); (11369, 11369, 11370); (11371, 11371, 11372);
   (11373, 11373, 593); (11374, 11374, 625); (11375, 11375, 592);
   (11376, 11376, 594); (11378, 11378, 11379); (11381, 11381, 11382);
   (11390, 11391, 575); (11392, 11392, 11393); (11394, 11394, 11395);
   (11396, 11396, 11397); (11398, 11398, 11399); (11400, 11400, 11401);
   (11402, 11402, 11403); (11404, 11404, 11405); (11406, 11406, 11407);
   (11408, 11408, 11409); (11410, 11410, 11411); (11412, 11412, 11413);
   (11414, 11414, 11415); (11416, 11416, 11417); (11418, 11418, 11419);
   (11420, 11420, 11421); (11422, 11422, 11423); (11424, 11424, 11425);
   (11426, 11426, 11427); (11428, 11428, 11429); (11430, 11430, 11431);
   (11432, 11432, 11433); (11434, 11434, 11435); (11436, 11436, 11437);
   (11438, 11438, 11439); (11440, 11440, 11441); (11442, 11442, 11443);
   (11444, 11444, 11445); (11446, 11446, 11447); (11448, 11448, 11449);
   (11450, 11450, 11451); (11452, 11452, 11453); (11454, 11454, 11455);
   (11456, 11456, 11457); (11458, 11458, 11459); (11460, 11460, 11461);
   (11462, 11462, 11463); (11464, 11464, 11465); (11466, 11466, 11467);
   (11468, 11468, 11469); (11470, 11470, 11471); (11472, 11472, 11473);
   (11474, 11474, 11475); (11476, 11476, 11477); (11478, 11478, 11479);
   (11480, 11480, 11481); (11482, 11482, 11483); (11484, 11484, 11485);
   (11486, 11486, 11487); (11488, 11488, 11489); (11490, 11490, 11491);
   (11499, 11499, 11500); (11501, 11501, 11502); (11506, 11506, 11507);
   (42560, 42560, 42561); (42562, 42562, 42563); (42564, 42564, 42565);
   (42566, 42566, 42567); (42568, 42568, 42569); (42570, 42570, 42571);
   (42572, 42572, 42573); (42574, 42574, 42575); (42576, 42576, 42577);
   (42578, 42578, 42579); (42580, 42580, 42581); (42582, 42582, 42583);
   (42584, 42584, 42585); (42586, 42586, 42587); (42588, 42588, 42589);
   (42590, 42590, 42591); (42592, 42592, 42593); (42594, 42594, 42595);
   (42596, 42596, 42597); (42598, 42598, 42599); (42600, 42600, 42601);
   (42602, 42602, 42603); (42604, 42604, 42605); (42624, 42624, 42625);
   (42626, 42626, 42627); (42628, 42628, 42629); (42630, 42630, 42631);
   (42632, 42632, 42633); (42634, 42634, 42635); (42636, 42636, 42637);
   (42638, 42638, 42639); (42640, 42640, 42641); (42642, 42642, 42643);
   (42644, 42644, 42645); (42646, 42646, 42647); (42648, 42648, 42649);
   (42650, 42650, 42651); (42786, 42786, 42787); (42788, 42788, 42789);
   (42790, 42790, 42791); (42792, 42792, 42793); (42794, 42794, 42795);
   (42796, 42796, 42797); (42798, 42798, 42799); (42802, 42802, 42803);
   (42804, 42804, 42805); (42806, 42806, 42807); (42808, 42808, 42809);
   (42810, 42810, 42811); (42812, 42812, 42813); (42814, 42814, 42815);
   (42816, 42816, 42817); (42818, 42818, 42819); (42820, 42820, 42821);
   (42822, 42822, 42823); (42824, 42824, 42825); (42826, 42826, 42827);
   (42828, 42828, 42829); (42830, 42830, 42831); (42832, 42832, 42833);
   (42834, 42834, 42835); (42836, 42836, 42837); (42838, 42838, 42839);
   (42840, 42840, 42841); (42842, 42842, 42843); (42844, 42844, 42845);
   (42846, 42846, 42847); (42848, 42848, 42849); (42850, 42850, 42851);
   (42852, 42852, 42853); (42854, 42854, 42855); (42856, 42856, 42857);
   (42858, 42858, 42859); (42860, 42860, 42861); (42862, 42862, 42863);
   (42873, 42873, 42874); (42875, 42875, 42876); (42877, 42877, 7545);
   (42878, 42878, 42879); (42880, 42880, 42881); (42882, 42882, 42883);
   (42884, 42884, 42885); (42886, 42886, 42887); (42891, 42891, 42892);
   (42893, 42893, 613); (42896, 42896, 42897); (42898, 42898, 42899);
   (42902, 42902, 42903); (42904, 42904, 42905); (42906, 42906, 42907);
   (42908, 42908, 42909); (42910, 42910, 42911); (42912, 42912, 42913);
   (42914, 42914, 42915); (42916, 42916, 42917); (42918, 42918, 42919);
   (42920, 42920, 42921); (42922, 42922, 614); (42923, 42923, 604);
   (42924, 42924, 609); (42925, 42925, 620); (42926, 42926, 618);
   (42928, 42928, 670); (42929, 42929, 647); (42930, 42930, 669);
   (42931, 42931, 43859); (42932, 42932, 42933); (42934, 42934, 42935);
   (42936, 42936, 42937); (42938, 42938, 42939); (42940, 42940, 42941);
   (42942, 42942, 42943); (42944, 42944, 42945); (42946, 42946, 42947);
   (42948, 42948, 42900); (42949, 42949, 642); (42950, 42950, 7566);
   (42951, 42951, 42952); (42953, 42953, 42954); (42960, 42960, 42961);
   (42966, 42966, 42967); (42968, 42968, 42969); (42997, 42997, 42998);
   (65313, 65338, 65345); (66560, 66599, 66600); (66736, 66771, 66776);
   (66928, 66938, 66967); (66940, 66954, 66979); (66956, 66962, 66995);
   (66964, 66965, 67003); (68736, 68786, 68800); (71840, 71871, 71872);
   (93760, 93791, 93792); (125184, 125217, 125218)]%N.

(** The lower case of a code point that has one of one character. *)
Fixpoint lookup_lower (table : list (N * N * N)) (n : N) : N :=
  match table with
  | [] => n
  | (lo, hi, target) :: rest =>
      if ((lo <=? n) && (n <=? hi))%N then (target + (n - lo))%N
      else lookup_lower rest n
  end.

End Unicode.

(* ===================================================================== *)
(** * Python strings *)
(* ===================================================================== *)

Module Py.

(** [str.isspace] on one character. *)
Definition isspace (c : char) : bool := Unicode.in_ranges Unicode.SPACE (code c).

(** [str.isdigit] on one character. *)
Definition isdigit (c : char) : bool := Unicode.in_ranges Unicode.DIGIT (code c).

(** The class [\d] of the [re] module. *)
Definition isdecimal (c : char) : bool := Unicode.in_ranges Unicode.DECIMAL (code c).

(** The class [\w] of the [re] module. *)
Definition isword (c : char) : bool := Unicode.in_ranges Unicode.WORD (code c).

(** The two properties that the lowering of the capital sigma consults;
    [cased] is asked of characters that are not case-ignorable only. *)
Definition case_ignorable (c : char) : bool :=
  Unicode.in_ranges Unicode.CASE_IGNORABLE (code c).

Definition cased (c : char) : bool := Unicode.in_ranges Unicode.CASED (code c).

(** The lower case of one character other than the capital sigma. *)
Definition lower_full (c : char) : string :=
  if (code c =? 304)%N then String (Chr 105) (String (Chr 775) EmptyString)
  else String (Chr (Unicode.lookup_lower Unicode.LOWER (code c))) EmptyString.

(** [s.lower()].  A character becomes its lower case, which for U+0130 is
    two characters; the capital sigma U+03A3 becomes the final sigma U+03C2
    when a cased letter comes before it and none comes after it,
    case-ignorable characters being skipped on both sides, and the small
    sigma U+03C3 otherwise.  [cased_before] tells that the last character
    read that is not case-ignorable is a cased one. *)
Fixpoint no_cased_after (s : string) : bool :=
  match s with
  | EmptyString => true
  | String c s' => if case_ignorable c then no_cased_after s' else negb (cased c)
  end.

Fixpoint lower_go (cased_before : bool) (s : string) : string :=
  match s with
  | EmptyString => EmptyString
  | String c s' =>
      (if (code c =? 931)%N
       then String (Chr (if cased_before && no_cased_after s' then 962 else 963))
                   EmptyString
       else lower_full c)
      +:+ lower_go (if case_ignorable c then cased_before else cased c) s'
  end.

Definition lower (s : string) : string := lower_go false s.

(** [chr(n)]: the string of one code point. *)
Definition chr (n : N) : string := String (Chr n) EmptyString.

(** [any(char.isdigit() for char in s)] *)
Fixpoint any_digit (s : string) : bool :=
  match s with
  | EmptyString => false
  | String c s' => isdigit c || any_digit s'
  end.

(** [s.lstrip()], [s.rstrip()], [s.strip()] *)
Fixpoint lstrip (s : string) : string :=
  match s with
  | EmptyString => EmptyString
  | String c s' => if isspace c then lstrip s' else s
  end.

Fixpoint rstrip (s : string) : string :=
  match s with
  | EmptyString => EmptyString
  | String c s' =>
      match rstrip s' with
      | EmptyString => if isspace c then EmptyString else String c EmptyString
      | r => String c r
      end
  end.

Definition strip (s : string) : string := rstrip (lstrip s).

(** [s.replace(c, '')] for a one-character [c] *)
Fixpoint remove_char (c : char) (s : string) : string :=
  match s with
  | EmptyString => EmptyString
  | String a s' =>
      if Char.eqb a c then remove_char c s' else String a (remove_char c s')
  end.

(** [s.split(sep)] for a one-character separator: empty fields are kept,
    and the empty string gives one empty field. *)
Fixpoint split_on (sep : char) (s : string) : list string :=
  match s with
  | EmptyString => [EmptyString]
  | String c s' =>
      if Char.eqb c sep then EmptyString :: split_on sep s'
      else match split_on sep s' with
           | [] => [String c EmptyString]
           | w :: ws => String c w :: ws
           end
  end.

(** [s.split()]: the maximal runs of non-space characters. *)
Fixpoint split_go (s : string) : option string * list string :=
  match s with
  | EmptyString => (None, [])
  | String c s' =>
      let '(cur, ws) := split_go s' in
      if isspace c then (None, option_list cur ++ ws)
      else (Some (String c (default EmptyString cur)), ws)
  end.

Definition split (s : string) : list string :=
  let '(cur, ws) := split_go s in option_list cur ++ ws.

(** [sep.join(l)] *)
Fixpoint join (sep : string) (l : list string) : string :=
  match l with
  | [] => EmptyString
  | [x] => x
  | x :: l' => x +:+ sep +:+ join sep l'
  end.

(** [s.startswith(p)] *)
Fixpoint startswith (p s : string) : bool :=
  match p, s with
  | EmptyString, _ => true
  | String a p', String b s' => Char.eqb a b && startswith p' s'
  | String _ _, EmptyString => false
  end.

(** [sub in s] *)
Fixpoint contains (sub s : string) : bool :=
  startswith sub s ||
  match s with
  | EmptyString => false
  | String _ s' => contains sub s'
  end.

(** [s[:n]] *)
Fixpoint prefix (n : nat) (s : string) : string :=
  match n, s with
  | S n', String c s' => String c (prefix n' s')
  | _, _ => EmptyString
  end.

(** Truth value of a string: [bool(s)]. *)
Definition truthy (s : string) : bool :=
  match s with EmptyString => false | _ => true end.

End Py.

(** The tables are looked up by computation only. *)
#[global] Arguments Unicode.in_ranges : simpl never.
#[global] Arguments Unicode.lookup_lower : simpl never.
#[global] Arguments Py.isspace : simpl never.
#[global] Arguments Py.isdigit : simpl never.
#[global] Arguments Py.isdecimal : simpl never.
#[global] Arguments Py.isword : simpl never.
#[global] Arguments Py.case_ignorable : simpl never.
#[global] Arguments Py.cased : simpl never.
#[global] Arguments Py.lower_full : simpl never.

(* ===================================================================== *)
(** * The regular expressions of the source *)
(* ===================================================================== *)

Module Re.

Definition isblank (c : char) : bool :=
  Char.eqb c " " || Char.eqb c "009".

(** [re.sub(r'[ \t]+', ' ', s)]: every maximal run of spaces and tabs
    becomes one space.  [inrun] tells that the previous character belongs
    to the run being replaced. *)
Fixpoint sub_blanks_go (inrun : bool) (s : string) : string :=
  match s with
  | EmptyString => EmptyString
  | String c s' =>
      if isblank c
      then if inrun then sub_blanks_go true s'
           else String " " (sub_blanks_go true s')
      else String c (sub_blanks_go false s')
  end.

Definition sub_blanks (s : string) : string := sub_blanks_go false s.

(** [re.sub(r'\s*\n\s*', rep, s)].  A match starts at the first character
    of a maximal whitespace run and, the quantifiers being greedy, covers
    the whole run as soon as the run holds a newline; a run without a
    newline is kept.  [sub_newlines_go rep s] is the leading whitespace run
    of [s], paired with the result for what follows that run. *)
Definition has_newline (run : string) : bool :=
  Py.contains (String "010" EmptyString) run.

Definition flush (rep run : string) : string :=
  if has_newline run then rep else run.

Fixpoint sub_newlines_go (rep s : string) : string * string :=
  match s with
  | EmptyString => (EmptyString, EmptyString)
  | String c s' =>
      let '(run, out) := sub_newlines_go rep s' in
      if Py.isspace c then (String c run, out)
      else (EmptyString, String c (flush rep run +:+ out))
  end.

Definition sub_newlines (rep s : string) : string :=
  let '(run, out) := sub_newlines_go rep s in flush rep run +:+ out.

(** [re.search(r'\b(19|20)\d{2}\b', s)] as a truth value.  [year_at s]
    matches the pattern without its first [\b] at the start of [s];
    [prev] tells whether the character before [s] is a word character. *)
Definition year_at (s : string) : bool :=
  match s with
  | String a (String b (String c (String d rest))) =>
      (Char.eqb a "1" && Char.eqb b "9" || Char.eqb a "2" && Char.eqb b "0")
      && Py.isdecimal c && Py.isdecimal d
      && match rest with
         | EmptyString => true
         | String e _ => negb (Py.isword e)
         end
  | _ => false
  end.

Fixpoint search_year_go (prev : bool) (s : string) : bool :=
  (negb prev && year_at s) ||
  match s with
  | EmptyString => false
  | String c s' => search_year_go (Py.isword c) s'
  end.

Definition search_year (s : string) : bool := search_year_go false s.

End Re.

(* ===================================================================== *)
(** * Python floats: IEEE 754 binary64 *)
(* ===================================================================== *)

Module PyFloat.

Definition prec : Z := 53.
Definition emax : Z := 1024.

(** [float(z)] for an [int]: the nearest double, ties to even. *)
Definition of_int (z : Z) : spec_float := binary_normalize prec emax z 0 false.

Definition mul : spec_float -> spec_float -> spec_float := SFmul prec emax.
Definition add : spec_float -> spec_float -> spec_float := SFadd prec emax.
Definition div : spec_float -> spec_float -> spec_float := SFdiv prec emax.
Definition ltb : spec_float -> spec_float -> bool := SFltb.

(** [a / b] on two [int]s below [2^53]: both convert exactly and the
    quotient is the IEEE division.  (The caller excludes [b = 0].) *)
Definition truediv (a b : Z) : spec_float := div (of_int a) (of_int b).

(** [int(x)]: truncation toward zero.  Python raises on an infinity or a
    NaN; the pipeline only converts finite values, and the model maps the
    others to [0]. *)
Definition to_int (x : spec_float) : Z :=
  match x with
  | S754_finite s m e =>
      cond_Zopp s
        (match e with
         | Zneg p => Z.pos m / 2 ^ Z.pos p
         | _ => Z.pos m * 2 ^ e
         end)
  | _ => 0
  end.

(** [round(x)] with one argument: the nearest integer, ties to even. *)
Definition round_half_even (n d : Z) : Z :=
  let q := n / d in
  let r := n mod d in
  match 2 * r ?= d with
  | Lt => q
  | Gt => q + 1
  | Eq => if Z.even q then q else q + 1
  end.

Definition round (x : spec_float) : Z :=
  match x with
  | S754_finite s m e =>
      cond_Zopp s
        (match e with
         | Zneg p => round_half_even (Z.pos m) (2 ^ Z.pos p)
         | _ => Z.pos m * 2 ^ e
         end)
  | _ => 0
  end.

(** The float literals of the source: the doubles nearest to the decimal
    numbers, [0.3 = 0x3FD3333333333333], [0.4 = 0x3FD999999999999A],
    [0.6 = 0x3FE3333333333333]. *)
Definition lit_0_3 : spec_float := S754_finite false 5404319552844595 (-54).
Definition lit_0_4 : spec_float := S754_finite false 7205759403792794 (-54).
Definition lit_0_6 : spec_float := S754_finite false 5404319552844595 (-53).

End PyFloat.

(** ** The rounding of [spec_float], as the proofs follow it *)

Module FloatFacts.

Abbreviation fexp := (SpecFloat.fexp PyFloat.prec PyFloat.emax).
Abbreviation emin := (SpecFloat.emin PyFloat.prec PyFloat.emax).

(** The position of the remainder [N - m * M] inside a unit [M], as the two
    bits (round, sticky) of a shift record encode it. *)
Definition located (N M : Z) (mrs : shr_record) : Prop :=
  0 <= shr_m mrs /\
  0 <= N - shr_m mrs * M < M /\
  (shr_r mrs = true <-> M <= 2 * (N - shr_m mrs * M)) /\
  (shr_s mrs = true <-> N - shr_m mrs * M <> 0 /\ 2 * (N - shr_m mrs * M) <> M).

End FloatFacts.

(* ===================================================================== *)
(** * Configuration tables and external collaborators *)
(* ===================================================================== *)

Definition OUTDATED_TECH : list string :=
  ["flash"; "jquery"; "svn"; "subversion"; "visual basic"; "vb.net";
   "webforms"; "soap"; "angularjs"].

Definition BUZZWORDS : list string :=
  ["synergy"; "go-getter"; "team player"; "results-oriented"; "dynamic";
   "proactive"; "thought leader"; "self-starter"].

Definition ACTION_VERBS : list string :=
  ["achieved"; "accelerated"; "improved"; "drove"; "managed"; "created";
   "launched"; "led"; "increased"; "decreased"; "optimized"].

Definition EDUCATION_TERMS : list string :=
  ["b.s"; "b.a"; "m.s"; "m.a"; "ph.d"; "bachelor"; "master"; "doctorate";
   "university"; "college"; "institute"].

(** The domain table, in the order in which the source writes it (the order
    in which a Python [dict] is iterated). *)
Definition DOMAIN_KEYWORDS : list (string * list string) :=
  [("software", ["engineer"; "developer"; "python"; "java"; "aws"; "software";
                 "api"; "database"; "git"; "cloud"]);
   ("marketing", ["marketing"; "campaign"; "brand"; "seo"; "ppc"; "content";
                  "digital"; "analytic"; "social media"]);
   ("graphic_designer", ["graphic"; "photoshop"; "illustrator"; "figma";
                         "design"; "visual"; "assets"; "branding"]);
   ("scm", ["supply chain"; "scm"; "logistics"; "warehousing"; "distribution";
            "procurement"; "inventory"; "freight"])].

Definition JD_MARKETING : string :=
  "Marketing Manager: Expertise in B2B/B2C marketing, demand generation, campaign execution, digital marketing (SEO, SEM, PPC), content strategy, and marketing analytics.".
Definition JD_SOFTWARE : string :=
  "Senior Software Engineer: Skilled in Python, Java, Go, data structures, algorithms, cloud computing (AWS/Azure/GCP), microservices architecture, Docker, Kubernetes, and SQL/NoSQL databases.".
Definition JD_GRAPHIC_DESIGNER : string :=
  "Graphic Designer: Proficiency in Adobe Creative Suite (Photoshop, Illustrator, InDesign), Figma, and Sketch. Experience in UI/UX design, branding, and creating visual assets for digital and print media.".
Definition JD_SCM : string :=
  "Supply Chain Manager: Experience in logistics, inventory management, procurement, vendor relations, warehousing, and distribution. Focus on optimizing processes and reducing costs.".
Definition JD_GENERIC : string :=
  "A general professional role with a focus on clear communication, quantifiable achievements, leadership, project management, and problem-solving skills.".

Definition DEFAULT_JDS : gmap string string :=
  <["generic" := JD_GENERIC]>
  (<["scm" := JD_SCM]>
  (<["graphic_designer" := JD_GRAPHIC_DESIGNER]>
  (<["software" := JD_SOFTWARE]>
  (<["marketing" := JD_MARKETING]> ∅)))).

(** A token of the lemmatizer, with the four attributes the source reads. *)
Record Token := {
  lemma_ : string;
  is_stop : bool;
  is_punct : bool;
  is_alpha : bool
}.

(** One page of an opened PDF: its text layer, and the bytes of its
    rendering at 300 DPI ([None] when rendering or decoding the image
    raises). *)
Record Page := {
  get_text : string;
  get_pixmap : option string
}.

(** What [pytesseract.image_to_string] does on an image. *)
Inductive ocr_outcome :=
  | OcrText (t : string)
  | TesseractNotFoundError
  | OcrException.

(** The collaborators of one run.
    - [nlp]: the spaCy model, [None] when it failed to load;
    - [summarizer]: the summarization model, [None] when it failed to load;
      a call answers [None] when it raises;
    - [set_iter]: the order in which a set of strings is iterated;
    - [fitz_open]: the pages of the PDF at a path, [None] when opening or
      reading the text layer raises;
    - [docx_open]: the paragraph texts of the DOCX at a path, [None] when
      reading raises;
    - [image_to_string]: the OCR engine. *)
Record Env := {
  nlp : option (string -> list Token);
  summarizer : option (string -> option string);
  set_iter : gset string -> list string;
  fitz_open : string -> option (list Page);
  docx_open : string -> option (list string);
  image_to_string : string -> ocr_outcome
}.

(** Iterating over a set visits each of its elements once. *)
Definition set_iter_ok (env : Env) : Prop :=
  forall s : gset string, set_iter env s ≡ₚ elements s.

(** The OCR engine is not installed: every call raises
    [TesseractNotFoundError]. *)
Definition ocr_engine_missing (env : Env) : Prop :=
  forall img, image_to_string env img = TesseractNotFoundError.

Definition NL : string := String "010" EmptyString.

(* ===================================================================== *)
(** * Text extraction *)
(* ===================================================================== *)

Definition TESSERACT_NOT_FOUND : string := "TESSERACT_NOT_FOUND".

(** The outcome of the OCR loop of [extract_text_from_pdf]. *)
Inductive ocr_loop :=
  | OcrDone (full_text : string)
  | OcrEngineMissing
  | OcrRaised.

Fixpoint ocr_pages (env : Env) (pages : list Page) (full_text : string) : ocr_loop :=
  match pages with
  | [] => OcrDone full_text
  | page :: rest =>
      match get_pixmap page with
      | None => OcrRaised
      | Some img =>
          match image_to_string env img with
          | OcrText page_text => ocr_pages env rest (full_text +:+ page_text +:+ NL)
          | TesseractNotFoundError => OcrEngineMissing
          | OcrException => OcrRaised
          end
      end
  end.

Definition text_layer (pages : list Page) : string :=
  foldl (fun full_text page => full_text +:+ get_text page) EmptyString pages.

Definition extract_text_from_pdf (env : Env) (filepath : string) : string * bool :=
  match fitz_open env filepath with
  | None => (EmptyString, false)
  | Some doc =>
      let full_text := text_layer doc in
      if (String.length (Py.strip full_text) <? 150)%nat
      then match ocr_pages env doc EmptyString with
           | OcrDone full_text => (Py.strip full_text, true)
           | OcrEngineMissing => (TESSERACT_NOT_FOUND, false)
           | OcrRaised => (EmptyString, false)
           end
      else (Py.strip full_text, false)
  end.

Definition extract_text_from_docx (env : Env) (filepath : string) : string * bool :=
  match docx_open env filepath with
  | Some paragraphs => (Py.strip (Py.join NL paragraphs), false)
  | None => (EmptyString, false)
  end.

(** [os.path.splitext(p)[1]] (POSIX paths): the suffix of the last path
    component that starts at its last dot, leading dots of the component not
    counting. *)
Module OsPath.

Fixpoint after_last_sep (p : string) : option string :=
  match p with
  | EmptyString => None
  | String c p' =>
      match after_last_sep p' with
      | Some b => Some b
      | None => if Char.eqb c "/" then Some p' else None
      end
  end.

Definition basename (p : string) : string := default p (after_last_sep p).

Fixpoint drop_dots (s : string) : string :=
  match s with
  | String c s' => if Char.eqb c "." then drop_dots s' else s
  | EmptyString => EmptyString
  end.

Fixpoint from_last_dot (s : string) : option string :=
  match s with
  | EmptyString => None
  | String c s' =>
      match from_last_dot s' with
      | Some e => Some e
      | None => if Char.eqb c "." then Some s else None
      end
  end.

Definition splitext_ext (p : string) : string :=
  default EmptyString (from_last_dot (drop_dots (basename p))).

End OsPath.

(* ===================================================================== *)
(** * Section segmentation *)
(* ===================================================================== *)

Definition section_keywords : list (string * list string) :=
  [("profile_summary", ["summary"; "profile"; "objective"]);
   ("work_experience", ["experience"; "work history"; "professional experience";
                        "experience details"]);
   ("education", ["education"; "academic background"; "academic record";
                  "professional qualification"]);
   ("skills", ["skills"; "technical skills"; "technical proficiency"; "tools";
               "skill set"; "core competencies"; "areas of expertise";
               "computer skills"])].

(** [{kw: key for key, kws in section_keywords.items() for kw in kws}] *)
Definition keyword_to_section : gmap string string :=
  foldl (fun m '(key, kws) => foldl (fun m kw => <[kw := key]> m) m kws)
        ∅ section_keywords.

(** [{key: [] for key in section_keywords.keys()}] *)
Definition empty_sections : gmap string (list string) :=
  foldl (fun m '(key, _) => <[key := []]> m) ∅ section_keywords.

Definition clean_line (line : string) : string :=
  Py.remove_char ":" (Py.lower (Py.strip line)).

(** The heading test of the loop: the section a line switches to, if any. *)
Definition heading_of (line : string) : option string :=
  let cleaned_line := clean_line line in
  let words := length (Py.split cleaned_line) in
  if ((1 <=? words) && (words <=? 4))%nat
  then keyword_to_section !! cleaned_line
  else None.

(** One iteration of the loop over the lines; the state is the cursor
    [current_section] and the accumulators. *)
Definition segment_step (st : option string * gmap string (list string))
    (line : string) : option string * gmap string (list string) :=
  let '(current_section, sections) := st in
  match heading_of line with
  | Some key => (Some key, sections)
  | None =>
      match current_section with
      | Some key =>
          if Py.truthy key
          then (current_section, alter (fun ls => ls ++ [line]) key sections)
          else st
      | None => st
      end
  end.

Definition parse_sections_by_iteration (text : string) : gmap string string :=
  let lines := Py.split_on "010" text in
  let '(_, sections) := foldl segment_step (None, empty_sections) lines in
  (fun section_lines => Py.strip (Py.join NL section_lines)) <$> sections.

Definition master_text_extractor (env : Env) (filepath : string)
  : option string * gmap string string * bool :=
  let ext := Py.lower (OsPath.splitext_ext filepath) in
  let extracted :=
    if String.eqb ext ".pdf" then Some (extract_text_from_pdf env filepath)
    else if String.eqb ext ".docx" then Some (extract_text_from_docx env filepath)
    else None in
  match extracted with
  | None => (None, ∅, false)
  | Some (raw_text, is_graphics_heavy) =>
      if negb (Py.truthy raw_text) || String.eqb raw_text TESSERACT_NOT_FOUND
      then (Some raw_text, ∅, is_graphics_heavy)
      else
        let normalized_text := Re.sub_blanks raw_text in
        let normalized_text := Py.strip (Re.sub_newlines NL normalized_text) in
        (Some normalized_text, parse_sections_by_iteration normalized_text,
         is_graphics_heavy)
  end.

(* ===================================================================== *)
(** * Analysis engine *)
(* ===================================================================== *)

Definition generate_ai_summary (env : Env) (resume_text : string) : string :=
  match summarizer env with
  | None => "AI summary model is unavailable."
  | Some model =>
      let cleaned_text := Py.strip (Re.sub_newlines " " resume_text) in
      match model (Py.prefix 2048 cleaned_text) with
      | Some summary_text => Py.strip summary_text
      | None => "Could not generate a unique AI summary."
      end
  end.

Record MatchResult := {
  score : Z;
  missing_keywords : list string;
  overlap_keywords : list string
}.

(** [sorted(list(s))] on a set of strings: the order of the iteration does
    not matter, the strings being distinct and their order total. *)
Definition sorted (s : gset string) : list string :=
  merge_sort String.le (elements s).

Definition keep_token (t : Token) : bool :=
  negb (is_stop t) && negb (is_punct t) && is_alpha t.

(** [{token.lemma_ for token in nlp(text.lower()) if not token.is_stop and
    not token.is_punct and token.is_alpha}] *)
Definition lemma_set (model : string -> list Token) (text : string) : gset string :=
  list_to_set (lemma_ <$> List.filter keep_token (model (Py.lower text))).

Definition no_match : MatchResult :=
  {| score := 0; missing_keywords := []; overlap_keywords := [] |}.

(** [int((len(overlap) / len(jd_lemmas)) * 100)] *)
Definition overlap_percent (n_overlap n_jd : Z) : Z :=
  PyFloat.to_int (PyFloat.mul (PyFloat.truediv n_overlap n_jd) (PyFloat.of_int 100)).

Definition match_job_description (env : Env) (resume_text job_description_text : string)
  : MatchResult :=
  match nlp env with
  | None => no_match
  | Some model =>
      let resume_lemmas := lemma_set model resume_text in
      let jd_lemmas := lemma_set model job_description_text in
      if decide (jd_lemmas = ∅) then no_match
      else
        let overlap := resume_lemmas ∩ jd_lemmas in
        let score :=
          if decide (jd_lemmas = ∅) then 0
          else overlap_percent (Z.of_nat (size overlap)) (Z.of_nat (size jd_lemmas)) in
        {| score := score;
           missing_keywords := sorted (jd_lemmas ∖ resume_lemmas);
           overlap_keywords := sorted overlap |}
  end.

(** The issue messages. *)
Definition MSG_NO_SKILLS : string :=
  "A dedicated 'Skills' section is crucial for ATS and is missing.".
Definition MSG_NO_WORK : string :=
  "A standard 'Work Experience' section was not found.".
Definition MSG_BUZZWORDS (found : list string) : string :=
  "Profile summary uses buzzwords: " +:+ Py.join ", " found +:+ ".".
Definition MSG_VALUE_PROPOSITION : string :=
  "Profile summary may lack a clear value proposition.".
Definition MSG_EDU_TERMS : string :=
  "Education section may be missing degree or institution information.".
Definition MSG_EDU_YEAR : string :=
  "Education section is missing a clear graduation year.".
Definition MSG_NO_EDUCATION : string :=
  "An 'Education' section was not found.".
Definition MSG_QUANTIFICATION : string :=
  "Work experience lacks quantification. Add metrics to show impact.".
Definition MSG_GRAPHICS : string :=
  "Resume appears to be graphics-heavy or image-based.".

(** [l.append(x) if c], as a state transformer on the list. *)
Definition append_if (c : bool) (x : string) (l : list string) : list string :=
  if c then l ++ [x] else l.

(** [sections.get(key, '')]; [sections.get(key)] has the same truth value. *)
Definition section_text (sections : gmap string string) (key : string) : string :=
  default EmptyString (sections !! key).

(** [BUZZWORDS.intersection(summary_text.lower().split())] *)
Definition found_buzzwords (summary_text : string) : gset string :=
  list_to_set BUZZWORDS ∩ list_to_set (Py.split (Py.lower summary_text)).

(** [any(sub in text for sub in subs)] *)
Definition any_contained (subs : list string) (text : string) : bool :=
  existsb (fun sub => Py.contains sub text) subs.

Definition summary_issues (env : Env) (summary_text : string)
    (content_issues : list string) : list string :=
  if Py.truthy summary_text then
    let found := found_buzzwords summary_text in
    let content_issues :=
      append_if (bool_decide (found ≠ ∅)) (MSG_BUZZWORDS (set_iter env found))
                content_issues in
    append_if (negb (Py.any_digit summary_text)
               && negb (any_contained ACTION_VERBS (Py.lower summary_text)))
              MSG_VALUE_PROPOSITION content_issues
  else content_issues.

Definition education_issues (education_text : string)
    (content_issues : list string) : list string :=
  if Py.truthy education_text then
    let content_issues :=
      append_if (negb (any_contained EDUCATION_TERMS (Py.lower education_text)))
                MSG_EDU_TERMS content_issues in
    append_if (negb (Re.search_year education_text)) MSG_EDU_YEAR content_issues
  else content_issues ++ [MSG_NO_EDUCATION].

(** The lines of the work-experience text that count, and those of them
    that hold a digit. *)
Definition substantive_lines (exp_text : string) : list string :=
  List.filter (fun line => (15 <? String.length (Py.strip line))%nat)
              (Py.split_on "010" exp_text).

Definition quantified_lines (lines : list string) : nat :=
  length (List.filter Py.any_digit lines).

Definition quantification_ratio (lines : list string) : spec_float :=
  match lines with
  | [] => PyFloat.of_int 0
  | _ => PyFloat.truediv (Z.of_nat (quantified_lines lines)) (Z.of_nat (length lines))
  end.

Definition experience_issues (exp_text : string)
    (content_issues : list string) : list string :=
  if Py.truthy exp_text then
    let lines := substantive_lines exp_text in
    append_if (PyFloat.ltb (quantification_ratio lines) PyFloat.lit_0_3)
              MSG_QUANTIFICATION content_issues
  else content_issues.

Definition outdated_mentions (env : Env) (raw_text : string) : list string :=
  match nlp env with
  | Some model =>
      set_iter env (list_to_set OUTDATED_TECH
                    ∩ list_to_set ((fun t => Py.lower (lemma_ t)) <$> model raw_text))
  | None => []
  end.

Definition compile_issues (env : Env) (sections : gmap string string) (raw_text : string)
  : list string * list string * list string :=
  let formatting_issues :=
    append_if (negb (Py.truthy (section_text sections "skills"))) MSG_NO_SKILLS [] in
  let formatting_issues :=
    append_if (negb (Py.truthy (section_text sections "work_experience"))) MSG_NO_WORK
              formatting_issues in
  let content_issues := summary_issues env (section_text sections "profile_summary") [] in
  let content_issues := education_issues (section_text sections "education") content_issues in
  let content_issues :=
    experience_issues (section_text sections "work_experience") content_issues in
  (formatting_issues, content_issues, outdated_mentions env raw_text).

(** [next((g for t, g in {80: "A", 70: "B", 60: "C", 40: "D"}.items()
          if final_score >= t), "F")] *)
Definition GRADE_TABLE : list (Z * string) :=
  [(80, "A"); (70, "B"); (60, "C"); (40, "D")].

Fixpoint first_grade (table : list (Z * string)) (final_score : Z) : string :=
  match table with
  | [] => "F"
  | (t, g) :: rest => if t <=? final_score then g else first_grade rest final_score
  end.

Definition quality_score (formatting_issues content_issues outdated_tech : list string) : Z :=
  let total_failures := Z.of_nat (length formatting_issues) + Z.of_nat (length content_issues) in
  Z.max 0 (100 - total_failures * 10 - Z.of_nat (length outdated_tech) * 5).

(** [round((quality_score * 0.4) + (jd_match_score * 0.6))] *)
Definition weighted_score (quality_score jd_match_score : Z) : Z :=
  PyFloat.round (PyFloat.add (PyFloat.mul (PyFloat.of_int quality_score) PyFloat.lit_0_4)
                             (PyFloat.mul (PyFloat.of_int jd_match_score) PyFloat.lit_0_6)).

Definition calculate_scores (formatting_issues content_issues outdated_tech : list string)
    (jd_match_score : Z) : Z * string :=
  let quality_score := quality_score formatting_issues content_issues outdated_tech in
  let final_score := weighted_score quality_score jd_match_score in
  (final_score, first_grade GRADE_TABLE final_score).

(* ===================================================================== *)
(** * Recommendations *)
(* ===================================================================== *)

Record ClassifiedChecks := {
  formatting_ats : list string;        (* ["Formatting & ATS"]["issues"] *)
  content_impact : list string;        (* ["Content & Impact"]["issues"] *)
  job_fit : MatchResult;               (* ["Job Fit"] *)
  technology_freshness : list string   (* ["Technology Freshness"]["outdated_tech"] *)
}.

Record Report := {
  overall_score : Z;
  resume_grade : string;
  ai_generated_summary : string;
  classified_checks : ClassifiedChecks;
  personalized_recommendations : list string
}.

Definition REC_JOB_FIT (keywords : list string) : string :=
  "**Improve Job Fit:** Your resume is missing key terms from the job description. To better match the role, integrate these keywords: **"
  +:+ Py.join ", " keywords +:+ "**.".
Definition REC_SECTION_HEADERS : string :=
  "**Check Section Headers:** To ensure automated systems read your resume correctly, use standard titles like **'Work Experience'** and **'Technical Skills'**.".
Definition REC_PROFILE : string :=
  "**Rewrite Your Profile Summary:** Your summary may use generic phrases. Create a stronger value proposition with powerful action verbs and achievements.".
Definition REC_QUANTIFY : string :=
  "**Quantify Your Achievements:** Your work experience lacks metrics. Strengthen your bullet points by adding numbers, percentages (%), or dollar amounts ($).".
Definition REC_TECHNOLOGY : string :=
  "**Update Your Technology Stack:** Your resume mentions potentially outdated technologies. Prioritize highlighting modern tools relevant to the job.".
Definition REC_STRONG : string :=
  "Your resume is strong and well-aligned. No major recommendations at this time.".

(** [any(sub in issue for issue in issues)] *)
Definition any_mentions (sub : string) (issues : list string) : bool :=
  existsb (fun issue => Py.contains sub issue) issues.

(** Truth value of a list. *)
Definition nonempty {A} (l : list A) : bool :=
  match l with [] => false | _ => true end.

(** The five tests, as the source writes them. *)
Definition rule_job_fit (checks : ClassifiedChecks) : bool :=
  (score (job_fit checks) <? 75) && nonempty (missing_keywords (job_fit checks)).
Definition rule_section_headers (checks : ClassifiedChecks) : bool :=
  any_mentions "section" (formatting_ats checks).
Definition rule_profile (checks : ClassifiedChecks) : bool :=
  any_mentions "value proposition" (content_impact checks).
Definition rule_quantify (checks : ClassifiedChecks) : bool :=
  any_mentions "quantification" (content_impact checks).
Definition rule_technology (checks : ClassifiedChecks) : bool :=
  nonempty (technology_freshness checks).

Definition generate_personalized_recommendations (report : Report) : list string :=
  let checks := classified_checks report in
  let recommendations := [] in
  let recommendations :=
    append_if (rule_job_fit checks)
              (REC_JOB_FIT (take 8 (missing_keywords (job_fit checks)))) recommendations in
  let recommendations :=
    append_if (rule_section_headers checks) REC_SECTION_HEADERS recommendations in
  let recommendations := append_if (rule_profile checks) REC_PROFILE recommendations in
  let recommendations := append_if (rule_quantify checks) REC_QUANTIFY recommendations in
  let recommendations := append_if (rule_technology checks) REC_TECHNOLOGY recommendations in
  append_if (negb (nonempty recommendations)) REC_STRONG recommendations.

(* ===================================================================== *)
(** * Orchestrator *)
(* ===================================================================== *)

(** [max(d, key=d.get)] over the keys of a dict in iteration order: the
    first key whose value is not exceeded.  [None] on an empty dict, where
    Python raises. *)
Fixpoint max_from (best : string * Z) (rest : list (string * Z)) : string * Z :=
  match rest with
  | [] => best
  | x :: rest' => max_from (if snd best <? snd x then x else best) rest'
  end.

Definition max_by_value (d : list (string * Z)) : option (string * Z) :=
  match d with
  | [] => None
  | x :: rest => Some (max_from x rest)
  end.

(** [sum(1 for keyword in keywords if keyword in text_lower)] *)
Definition keyword_hits (keywords : list string) (text_lower : string) : Z :=
  Z.of_nat (length (List.filter (fun keyword => Py.contains keyword text_lower) keywords)).

Definition domain_scores (text_lower : string) : list (string * Z) :=
  (fun '(domain, keywords) => (domain, keyword_hits keywords text_lower))
    <$> DOMAIN_KEYWORDS.

(** The domain chosen when no job description is supplied. *)
Definition infer_domain (raw_text : string) : option string :=
  let text_lower := Py.lower raw_text in
  match max_by_value (domain_scores text_lower) with
  | Some (best_domain, best_score) =>
      Some (if 2 <? best_score then best_domain else "generic")
  | None => None
  end.

(** A result of [analyze_resume]: the error dict, the report, or an
    exception that escapes. *)
Inductive Result :=
  | Error (message : string)
  | Analysis (report : Report)
  | Uncaught.

Definition ERR_EXTRACTION : string :=
  "Failed to extract text. File may be corrupted or an unsupported format.".
Definition ERR_TESSERACT : string := "Tesseract OCR is not installed.".

(** Truth value of the optional job-description argument. *)
Definition supplied (job_description_text : option string) : bool :=
  match job_description_text with
  | Some t => Py.truthy t
  | None => false
  end.

(** The job description the matcher receives: the caller's when it is
    supplied, else [DEFAULT_JDS.get(domain)] for the inferred domain. *)
Definition effective_job_description (raw_text : string)
    (job_description_text : option string) : option string :=
  if supplied job_description_text then job_description_text
  else match infer_domain raw_text with
       | Some domain => DEFAULT_JDS !! domain
       | None => None
       end.

(** The stages after the job description is settled. *)
Definition build_report (env : Env) (raw_text : string) (sections : gmap string string)
    (is_graphics_heavy : bool) (job_description_text : string) : Report :=
  let jd_match := match_job_description env raw_text job_description_text in
  let '(formatting_issues, content_issues, outdated_tech) :=
    compile_issues env sections raw_text in
  let formatting_issues := append_if is_graphics_heavy MSG_GRAPHICS formatting_issues in
  let '(final_score, grade) :=
    calculate_scores formatting_issues content_issues outdated_tech (score jd_match) in
  let report :=
    {| overall_score := final_score;
       resume_grade := grade;
       ai_generated_summary := generate_ai_summary env raw_text;
       classified_checks :=
         {| formatting_ats := formatting_issues;
            content_impact := content_issues;
            job_fit := {| score := score jd_match;
                          missing_keywords := missing_keywords jd_match;
                          overlap_keywords := overlap_keywords jd_match |};
            technology_freshness := outdated_tech |};
       personalized_recommendations := [] |} in
  {| overall_score := overall_score report;
     resume_grade := resume_grade report;
     ai_generated_summary := ai_generated_summary report;
     classified_checks := classified_checks report;
     personalized_recommendations := generate_personalized_recommendations report |}.

Definition analyze_resume (env : Env) (filepath : string)
    (job_description_text : option string) : Result :=
  let '(raw_text, sections, is_graphics_heavy) := master_text_extractor env filepath in
  match raw_text with
  | None => Error ERR_EXTRACTION
  | Some raw_text =>
      if negb (Py.truthy raw_text) then Error ERR_EXTRACTION
      else if String.eqb raw_text TESSERACT_NOT_FOUND then Error ERR_TESSERACT
      else
        match effective_job_description raw_text job_description_text with
        | Some job_description_text =>
            Analysis (build_report env raw_text sections is_graphics_heavy
                                   job_description_text)
        | None => Uncaught
        end
  end.

(** The web layer ([app.py]), reduced to what reaches the analyzer: the
    form field, with its default [request.form.get('job_description', '')],
    is what [upload_and_analyze] passes to [analyze_resume]; the result is
    the report or error that the route then renders.  Saving and removing
    the uploaded file and the rendering are not modelled. *)
Definition form_job_description (field : option string) : string :=
  default EmptyString field.

Definition upload_and_analyze (env : Env) (filepath : string) (field : option string) : Result :=
  analyze_resume env filepath (Some (form_job_description field)).

(* ===================================================================== *)
(** * Reference definitions, following the words of the specification *)
(* ===================================================================== *)

(** [round(100 * n / d)] on exact numbers: the integer nearest to the
    quotient (ties to even, as Python rounds). *)
Definition spec_round_percent (n d : Z) : Z := PyFloat.round_half_even (100 * n) d.

(** [round(0.4 * q + 0.6 * j)] on exact numbers. *)
Definition spec_final_score (q j : Z) : Z := PyFloat.round_half_even (4 * q + 6 * j) 10.

(** Grade thresholds, highest first. *)
Definition spec_grade (final_score : Z) : string :=
  if 80 <=? final_score then "A"
  else if 70 <=? final_score then "B"
  else if 60 <=? final_score then "C"
  else if 40 <=? final_score then "D"
  else "F".

(** Grades from worst to best. *)
Definition grade_rank (g : string) : Z :=
  if String.eqb g "A" then 4
  else if String.eqb g "B" then 3
  else if String.eqb g "C" then 2
  else if String.eqb g "D" then 1
  else 0.





(** [sub] occurs in [s]. *)
Definition is_substring (sub s : string) : Prop :=
  exists pre post, s = pre +:+ sub +:+ post.

(** ** Trimmed lines: the shape of a normalized text *)

(** The first character is not white space, or there is none. *)
Definition head_ok (s : string) : bool :=
  match s with
  | EmptyString => true
  | String c _ => negb (Py.isspace c)
  end.

(** The last character is not white space, or there is none. *)
Fixpoint last_ok (s : string) : bool :=
  match s with
  | EmptyString => true
  | String c EmptyString => negb (Py.isspace c)
  | String _ s' => last_ok s'
  end.

(** The newline character, a text that starts with it, and a text without. *)
Definition is_nl (c : char) : bool := Char.eqb c "010".

Definition starts_nl (s : string) : bool :=
  match s with
  | String c _ => is_nl c
  | EmptyString => false
  end.

Fixpoint no_nl (s : string) : bool :=
  match s with
  | EmptyString => true
  | String c s' => negb (is_nl c) && no_nl s'
  end.

(** No white space touches a newline: what follows a newline is not white
    space, and what follows another white-space character is not a
    newline. *)
Fixpoint tidy (s : string) : bool :=
  match s with
  | EmptyString => true
  | String c s' =>
      (if is_nl c then head_ok s'
       else if Py.isspace c then negb (starts_nl s') else true)
      && tidy s'
  end.

(** A run of white space. *)
Fixpoint all_space (s : string) : bool :=
  match s with
  | EmptyString => true
  | String c s' => Py.isspace c && all_space s'
  end.

(** A line as the normalization leaves it: not empty, without newline, and
    without white space at either end. *)
Definition good_line (l : string) : Prop :=
  l <> EmptyString /\ no_nl l = true /\ head_ok l = true /\ last_ok l = true.


(** The winner of a score table: no entry has more, and every earlier
    entry has less. *)
Definition first_maximum (table : list (string * Z)) (best : string * Z) : Prop :=
  exists i : nat,
    table !! i = Some best /\
    (forall j x, table !! j = Some x -> snd x <= snd best) /\
    (forall j x, (j < i)%nat -> table !! j = Some x -> snd x < snd best).

(** The recommendations of the five rules, in their priority order. *)
Definition triggered (checks : ClassifiedChecks) : list string :=
  (if rule_job_fit checks
   then [REC_JOB_FIT (take 8 (missing_keywords (job_fit checks)))] else [])
  ++ (if rule_section_headers checks then [REC_SECTION_HEADERS] else [])
  ++ (if rule_profile checks then [REC_PROFILE] else [])
  ++ (if rule_quantify checks then [REC_QUANTIFY] else [])
  ++ (if rule_technology checks then [REC_TECHNOLOGY] else []).

(** None of the five rules triggers. *)
Definition no_rule (checks : ClassifiedChecks) : Prop :=
  rule_job_fit checks = false /\ rule_section_headers checks = false /\
  rule_profile checks = false /\ rule_quantify checks = false /\
  rule_technology checks = false.

(** The check behind the scoring theorem, on one pair of inputs: the
    computed score is the exact rounding, it is strictly nearer to the exact
    weighted sum than any other integer, and it lies in range. *)
Definition weighted_score_ok (q j : Z) : bool :=
  let final_score := weighted_score q j in
  (final_score =? spec_final_score q j)
  && (2 * Z.abs (10 * final_score - (4 * q + 6 * j)) <? 10)
  && (0 <=? final_score) && (final_score <=? 100).

(** A result in which no section of the four holds text. *)
Definition no_sections : gmap string string :=
  <["skills" := EmptyString]>
  (<["education" := EmptyString]>
  (<["work_experience" := EmptyString]>
  (<["profile_summary" := EmptyString]> ∅))).

(** ** Readings of the segmenter, of the checks and of the OCR loop *)

(** The cursor after a line: a heading moves it, any other line keeps it. *)
Definition cursor_after (current_section : option string) (line : string) : option string :=
  match heading_of line with
  | Some key => Some key
  | None => current_section
  end.

(** The lines that the segmenter gives to section [key], in the order of the
    text: the lines that are no heading, read while the cursor is on
    [key]. *)
Fixpoint lines_under (key : string) (current_section : option string)
    (lines : list string) : list string :=
  match lines with
  | [] => []
  | line :: rest =>
      (match heading_of line, current_section with
       | None, Some cur => if Py.truthy cur && String.eqb cur key then [line] else []
       | _, _ => []
       end) ++ lines_under key (cursor_after current_section line) rest
  end.

(** The four section keys. *)
Definition SECTION_KEYS : list string :=
  ["profile_summary"; "work_experience"; "education"; "skills"].

(** The character [c] occurs in [s]. *)
Fixpoint has_char (c : char) (s : string) : bool :=
  match s with
  | EmptyString => false
  | String a s' => Char.eqb a c || has_char c s'
  end.

(** The buzzwords of the table that are one word. *)
Definition SINGLE_WORD_BUZZWORDS : list string :=
  ["synergy"; "go-getter"; "results-oriented"; "dynamic"; "proactive"; "self-starter"].

(** No character of the string is white space. *)
Fixpoint no_space (s : string) : bool :=
  match s with
  | EmptyString => true
  | String c s' => negb (Py.isspace c) && no_space s'
  end.

(** The OCR engine reads [text] off the rendering of [page]. *)
Definition ocr_page_text (env : Env) (page : Page) (text : string) : Prop :=
  exists img, get_pixmap page = Some img /\ image_to_string env img = OcrText text.

(** The page texts, each followed by a newline. *)
Definition appended_pages (texts : list string) : string :=
  foldr (fun page_text rest => page_text +:+ NL +:+ rest) EmptyString texts.

(** The characters [19] or [20] followed by two decimal digits, and the
    word characters around an occurrence. *)
Definition is_year (y : string) : Prop :=
  exists c d, Py.isdecimal c = true /\ Py.isdecimal d = true /\
    (y = String "1" (String "9" (String c (String d EmptyString))) \/
     y = String "2" (String "0" (String c (String d EmptyString)))).

Fixpoint ends_with_word (s : string) : bool :=
  match s with
  | EmptyString => false
  | String c EmptyString => Py.isword c
  | String _ s' => ends_with_word s'
  end.

Definition starts_with_word (s : string) : bool :=
  match s with
  | EmptyString => false
  | String c _ => Py.isword c
  end.

(** ** The command-line report *)

(** [s.replace("**", "")]: the occurrences are taken from the left and do
    not overlap. *)
Fixpoint replace_double_star (s : string) : string :=
  match s with
  | String a (String b rest as s') =>
      if Char.eqb a "*" && Char.eqb b "*" then replace_double_star rest
      else String a (replace_double_star s')
  | _ => s
  end.

(** [rec_text = rec.replace("**", "").replace("*", "")], the text of a
    recommendation as the command line prints it. *)
Definition rec_text (rec : string) : string :=
  Py.remove_char "*" (replace_double_star rec).

(* ===================================================================== *)
(** * Fixtures: concrete collaborators and inputs *)
(* ===================================================================== *)

(** A lemmatizer that cuts the text at white space and takes each word as
    its own lemma; a word is alphabetic when it is made of the letters a to
    z and A to Z. *)
Definition ascii_letter (n : N) : bool :=
  ((65 <=? n) && (n <=? 90) || (97 <=? n) && (n <=? 122))%N.

Definition word_token (w : string) : Token :=
  {| lemma_ := w;
     is_stop := false;
     is_punct := false;
     is_alpha := forallb ascii_letter (String.to_list w) |}.

Definition word_lemmatizer (text : string) : list Token :=
  word_token <$> Py.split text.

(** The scenario text: a summary heading, one summary line, a skills
    heading, one skills line. *)
Definition scenario_text : string :=
  "Summary" +:+ NL +:+ "A dynamic team player." +:+ NL +:+ "Skills" +:+ NL +:+ "Python, AWS".

(** A PDF without text layer: any path opens as [pages]; no DOCX. *)
Definition scanned_env (pages : list Page) (engine : string -> ocr_outcome) : Env :=
  {| nlp := Some word_lemmatizer;
     summarizer := None;
     set_iter := elements;
     fitz_open := fun _ => Some pages;
     docx_open := fun _ => None;
     image_to_string := engine |}.

(** Any DOCX path opens as the given paragraphs. *)
Definition docx_env (paragraphs : list string) : Env :=
  {| nlp := Some word_lemmatizer;
     summarizer := None;
     set_iter := elements;
     fitz_open := fun _ => None;
     docx_open := fun _ => Some paragraphs;
     image_to_string := fun _ => TesseractNotFoundError |}.

Definition blank_page : Page :=
  {| get_text := EmptyString; get_pixmap := Some "png" |}.



(* ===================================================================== *)
(** * Facts on text *)
(* ===================================================================== *)

Lemma char_eqb_eq (a b : char) : Char.eqb a b = true <-> a = b.
Proof.
  destruct a as [n], b as [m]. unfold Char.eqb. cbn [code]. rewrite N.eqb_eq.
  split; [intros ->; reflexivity | intros [= ->]; reflexivity].
Qed.

Lemma char_eqb_refl (a : char) : Char.eqb a a = true.
Proof. by apply char_eqb_eq. Qed.

Lemma char_eqb_sym (a b : char) : Char.eqb a b = Char.eqb b a.
Proof. unfold Char.eqb. apply N.eqb_sym. Qed.

Lemma char_eqb_neq (a b : char) : Char.eqb a b = false <-> a <> b.
Proof.
  rewrite <- char_eqb_eq. destruct (Char.eqb a b); split; congruence.
Qed.

Lemma string_eqb_eq (s1 s2 : string) : String.eqb s1 s2 = true <-> s1 = s2.
Proof.
  revert s2. induction s1 as [|a s1 IH]; intros [|b s2]; cbn [String.eqb];
    try (split; [discriminate | discriminate]); [split; reflexivity|].
  rewrite andb_true_iff, char_eqb_eq, IH.
  split; [intros [-> ->]; reflexivity | intros [= -> ->]; by split].
Qed.

Lemma string_eqb_refl (s : string) : String.eqb s s = true.
Proof. by apply string_eqb_eq. Qed.

Lemma string_eqb_neq (s1 s2 : string) : String.eqb s1 s2 = false <-> s1 <> s2.
Proof.
  rewrite <- string_eqb_eq. destruct (String.eqb s1 s2); split; congruence.
Qed.

Lemma string_eqb_spec (s1 s2 : string) : reflect (s1 = s2) (String.eqb s1 s2).
Proof.
  destruct (String.eqb s1 s2) eqn:E; constructor.
  - by apply string_eqb_eq.
  - by apply string_eqb_neq.
Qed.

#[global] Instance string_le_total : Total String.le.
Proof.
  intros s1. unfold String.le.
  induction s1 as [|a s1 IH]; intros [|b s2]; cbn [String.leb]; auto.
  destruct (N.ltb_spec (code a) (code b)), (N.ltb_spec (code b) (code a)); auto; try lia.
  assert (E : code a = code b) by lia. rewrite E, N.eqb_refl. apply IH.
Qed.

#[global] Instance string_le_trans : Transitive String.le.
Proof.
  intros s1. unfold String.le.
  induction s1 as [|a s1 IH]; intros [|b s2] [|c s3]; cbn [String.leb]; auto;
    try discriminate.
  destruct (N.ltb_spec (code a) (code b)), (N.ltb_spec (code b) (code c)),
    (N.ltb_spec (code a) (code c)); auto; try lia;
    destruct (N.eqb_spec (code a) (code b)), (N.eqb_spec (code b) (code c)),
      (N.eqb_spec (code a) (code c)); auto; try lia; try discriminate.
  apply IH.
Qed.

Example py_split_on_ex :
  Py.split_on "010" "ab" = ["ab"] /\ Py.split_on "010" EmptyString = [EmptyString] /\
  Py.split_on ":" "a::b:" = ["a"; EmptyString; "b"; EmptyString].
Proof. repeat split; reflexivity. Qed.

Example py_split_ex :
  Py.split "  a dynamic  team player. " = ["a"; "dynamic"; "team"; "player."] /\
  Py.split "   " = [] /\ Py.split EmptyString = [].
Proof. repeat split; reflexivity. Qed.

Example py_strip_ex :
  Py.strip "  a b  " = "a b" /\ Py.strip "   " = EmptyString /\ Py.strip "x" = "x".
Proof. repeat split; reflexivity. Qed.

Example py_misc_ex :
  Py.lower "Work History:" = "work history:" /\
  Py.remove_char ":" "skills:" = "skills" /\
  Py.join ", " ["a"; "b"; "c"] = "a, b, c" /\
  Py.contains "led" "I handled it" = true /\
  Py.contains EmptyString EmptyString = true /\
  Py.contains "aws" "law" = false.
Proof. repeat split; reflexivity. Qed.

Example re_sub_ex :
  Re.sub_blanks "a  b 	 c" = "a b c" /\
  Re.sub_newlines (String "010" EmptyString) (String "a" (String " " (String "010" (String " " (String "010" "b  c")))))
    = String "a" (String "010" "b  c") /\
  Re.sub_newlines " " "a   b" = "a   b".
Proof. repeat split; reflexivity. Qed.

Example re_year_ex :
  Re.search_year "B.S. 2019, MIT" = true /\
  Re.search_year "id 12019" = false /\
  Re.search_year "x2019" = false /\
  Re.search_year "(1998)" = true /\
  Re.search_year "20191" = false.
Proof. repeat split; reflexivity. Qed.

(** The literals are the correctly rounded decimal fractions: each is a
    canonical double and equals the correctly rounded quotient. *)
Lemma float_literals_ok :
  PyFloat.truediv 3 10 = PyFloat.lit_0_3 /\
  PyFloat.truediv 4 10 = PyFloat.lit_0_4 /\
  PyFloat.truediv 6 10 = PyFloat.lit_0_6 /\
  valid_binary PyFloat.prec PyFloat.emax PyFloat.lit_0_3 = true /\
  valid_binary PyFloat.prec PyFloat.emax PyFloat.lit_0_4 = true /\
  valid_binary PyFloat.prec PyFloat.emax PyFloat.lit_0_6 = true.
Proof. repeat split; vm_compute; reflexivity. Qed.

Example float_trunc_ex :
  PyFloat.to_int (PyFloat.mul (PyFloat.truediv 2 3) (PyFloat.of_int 100)) = 66 /\
  PyFloat.to_int (PyFloat.mul (PyFloat.truediv 29 100) (PyFloat.of_int 100)) = 28 /\
  PyFloat.to_int (PyFloat.mul (PyFloat.truediv 1 2) (PyFloat.of_int 100)) = 50 /\
  PyFloat.to_int (PyFloat.mul (PyFloat.truediv 7 7) (PyFloat.of_int 100)) = 100.
Proof. repeat split; vm_compute; reflexivity. Qed.

Example float_round_ex :
  PyFloat.round (PyFloat.add (PyFloat.mul (PyFloat.of_int 100) PyFloat.lit_0_4)
                             (PyFloat.mul (PyFloat.of_int 0) PyFloat.lit_0_6)) = 40 /\
  PyFloat.round (PyFloat.of_int 7) = 7 /\
  PyFloat.round (PyFloat.truediv 5 2) = 2 /\
  PyFloat.round (PyFloat.truediv 7 2) = 4.
Proof. repeat split; vm_compute; reflexivity. Qed.

Example splitext_ex :
  OsPath.splitext_ext "uploads/cv.PDF" = ".PDF" /\
  OsPath.splitext_ext "uploads/.pdf" = EmptyString /\
  OsPath.splitext_ext "up.d/cv" = EmptyString /\
  OsPath.splitext_ext "a.tar.docx" = ".docx" /\
  OsPath.splitext_ext "..a." = ".".
Proof. repeat split; reflexivity. Qed.

(** ** Agreement with the interpreter beyond ASCII

    The values on the right are those of CPython 3.11 on the same
    inputs; for the segmenter, those of the source function itself. *)

(** The tables hold as many code points as the interpreter answers for:
    29 white-space characters, 788 digits, 660 decimal digits,
    133548 word characters, and 1432 characters with a lower case of one
    character other than themselves. *)
Example unicode_table_sizes :
  Unicode.size Unicode.SPACE = 29%N /\
  Unicode.size Unicode.DIGIT = 788%N /\
  Unicode.size Unicode.DECIMAL = 660%N /\
  Unicode.size Unicode.WORD = 133548%N /\
  Unicode.size Unicode.CASED = 4253%N /\
  Unicode.size Unicode.CASE_IGNORABLE = 2602%N /\
  Unicode.size ((fun '(lo, hi, _) => (lo, hi)) <$> Unicode.LOWER) = 1432%N.
Proof. vm_compute. repeat split; reflexivity. Qed.

(** [str.isspace] beyond ASCII: the no-break space, the next-line control
    and the ideographic space are white space; the zero-width space is not. *)
Example py_isspace_conformance :
  Py.isspace (Chr 160) = true /\
  Py.isspace (Chr 133) = true /\
  Py.isspace (Chr 12288) = true /\
  Py.isspace (Chr 8195) = true /\
  Py.isspace (Chr 8203) = false /\
  Py.isspace (Chr 6158) = false /\
  Py.isspace (Chr 28) = true /\
  Py.isspace (Chr 32) = true /\
  Py.isspace (Chr 65) = false /\
  Py.isspace (Chr 233) = false.
Proof. vm_compute. repeat split; reflexivity. Qed.

(** [str.strip] *)
Example py_strip_conformance :
  Py.strip ("Skills" +:+ Py.chr 160) = "Skills" /\
  Py.strip (Py.chr 160 +:+ " a b " +:+ Py.chr 133) = "a b" /\
  Py.strip (Py.chr 8195 +:+ "x" +:+ Py.chr 12288) = "x" /\
  Py.strip (Py.chr 8203 +:+ "x" +:+ Py.chr 8203) = (Py.chr 8203 +:+ "x" +:+ Py.chr 8203) /\
  Py.strip (" " +:+ Py.chr 9 +:+ Py.chr 28 +:+ Py.chr 31 +:+ "y" +:+ Py.chr 11 +:+ Py.chr 12) = "y" /\
  Py.strip (Py.chr 160 +:+ Py.chr 160 +:+ Py.chr 160) = EmptyString /\
  Py.strip (Py.chr 5760 +:+ "a" +:+ Py.chr 8239 +:+ Py.chr 8287) = "a" /\
  Py.strip (Py.chr 233 +:+ " ") = (Py.chr 233) /\
  Py.strip (Py.chr 6158 +:+ "x" +:+ Py.chr 6158) = (Py.chr 6158 +:+ "x" +:+ Py.chr 6158).
Proof. vm_compute. repeat split; reflexivity. Qed.

(** [str.split] *)
Example py_split_conformance :
  Py.split ("team" +:+ Py.chr 160 +:+ "player") = ["team"; "player"] /\
  Py.split ("a" +:+ Py.chr 8195 +:+ "b" +:+ Py.chr 133 +:+ "c") = ["a"; "b"; "c"] /\
  Py.split (" dynamic" +:+ Py.chr 8232 +:+ "team" +:+ Py.chr 8233 +:+ "player ") = ["dynamic"; "team"; "player"] /\
  Py.split ("x" +:+ Py.chr 8203 +:+ "y") = [("x" +:+ Py.chr 8203 +:+ "y")] /\
  Py.split (Py.chr 160) = [] /\
  Py.split ("go-getter," +:+ Py.chr 12288 +:+ "synergy") = ["go-getter,"; "synergy"].
Proof. vm_compute. repeat split; reflexivity. Qed.

(** [str.lower]: the Kelvin sign, the final sigma in and out of its context,
    the dotted capital I, and letters beyond the first plane. *)
Example py_lower_conformance :
  Py.lower (Py.chr 8490) = "k" /\
  Py.lower (Py.chr 913 +:+ Py.chr 931) = (Py.chr 945 +:+ Py.chr 962) /\
  Py.lower (Py.chr 931) = (Py.chr 963) /\
  Py.lower (Py.chr 931 +:+ Py.chr 913) = (Py.chr 963 +:+ Py.chr 945) /\
  Py.lower (Py.chr 913 +:+ Py.chr 931 +:+ ".") = (Py.chr 945 +:+ Py.chr 962 +:+ ".") /\
  Py.lower (Py.chr 913 +:+ Py.chr 931 +:+ Py.chr 913) = (Py.chr 945 +:+ Py.chr 963 +:+ Py.chr 945) /\
  Py.lower (Py.chr 913 +:+ Py.chr 769 +:+ Py.chr 931) = (Py.chr 945 +:+ Py.chr 769 +:+ Py.chr 962) /\
  Py.lower (Py.chr 913 +:+ "." +:+ Py.chr 931) = (Py.chr 945 +:+ "." +:+ Py.chr 962) /\
  Py.lower ("A'" +:+ Py.chr 931 +:+ "'") = ("a'" +:+ Py.chr 962 +:+ "'") /\
  Py.lower (Py.chr 304 +:+ "stanbul") = ("i" +:+ Py.chr 775 +:+ "stanbul") /\
  Py.lower ("STRASSE " +:+ Py.chr 223) = ("strasse " +:+ Py.chr 223) /\
  Py.lower (Py.chr 201 +:+ "COLE") = (Py.chr 233 +:+ "cole") /\
  Py.lower (Py.chr 452 +:+ " " +:+ Py.chr 453) = (Py.chr 454 +:+ " " +:+ Py.chr 454) /\
  Py.lower (Py.chr 66560) = (Py.chr 66600) /\
  Py.lower (Py.chr 937 +:+ Py.chr 8486) = (Py.chr 969 +:+ Py.chr 969) /\
  Py.lower (Py.chr 908 +:+ Py.chr 931 +:+ Py.chr 927 +:+ Py.chr 931 +:+ " " +:+ Py.chr 927 +:+ Py.chr 916 +:+ Py.chr 927 +:+ Py.chr 931) = (Py.chr 972 +:+ Py.chr 963 +:+ Py.chr 959 +:+ Py.chr 962 +:+ " " +:+ Py.chr 959 +:+ Py.chr 948 +:+ Py.chr 959 +:+ Py.chr 962) /\
  Py.lower ("a" +:+ Py.chr 173 +:+ Py.chr 931) = ("a" +:+ Py.chr 173 +:+ Py.chr 962) /\
  Py.lower ("1" +:+ Py.chr 931) = ("1" +:+ Py.chr 963).
Proof. vm_compute. repeat split; reflexivity. Qed.

(** [str.isdigit] holds of superscripts and of the digits of other scripts,
    not of fractions or letters that denote numbers. *)
Example py_any_digit_conformance :
  Py.any_digit ("x" +:+ Py.chr 178) = true /\
  Py.any_digit (Py.chr 189) = false /\
  Py.any_digit "no digits" = false /\
  Py.any_digit (Py.chr 1635) = true /\
  Py.any_digit (Py.chr 8551) = false /\
  Py.any_digit (Py.chr 9312) = true /\
  Py.any_digit (Py.chr 19968) = false /\
  Py.any_digit (Py.chr 120782) = true /\
  Py.any_digit (Py.chr 179) = true /\
  Py.any_digit (Py.chr 1781) = true.
Proof. vm_compute. repeat split; reflexivity. Qed.

(** The year pattern: [\d] and [\b] follow the Unicode classes. *)
Example re_search_year_conformance :
  Re.search_year (Py.chr 233 +:+ "2019") = false /\
  Re.search_year " 2019" = true /\
  Re.search_year "12019" = false /\
  Re.search_year ("19" +:+ Py.chr 1634 +:+ Py.chr 1635) = true /\
  Re.search_year "(1998)" = true /\
  Re.search_year ("2019" +:+ Py.chr 233) = false /\
  Re.search_year ("2019" +:+ Py.chr 178) = false /\
  Re.search_year "_2019" = false /\
  Re.search_year "2019_" = false /\
  Re.search_year "x 2007." = true /\
  Re.search_year (Py.chr 1634 +:+ Py.chr 1632 +:+ Py.chr 1633 +:+ Py.chr 1641) = false /\
  Re.search_year ("1999" +:+ Py.chr 160) = true /\
  Re.search_year ("2019" +:+ Py.chr 1635) = false /\
  Re.search_year (Py.chr 224 +:+ "1999") = false.
Proof. vm_compute. repeat split; reflexivity. Qed.

(** The two substitutions of the normalization. *)
Example re_sub_conformance :
  Re.sub_blanks ("a " +:+ Py.chr 9 +:+ " b") = "a b" /\
  Re.sub_blanks ("a" +:+ Py.chr 160 +:+ " b") = ("a" +:+ Py.chr 160 +:+ " b") /\
  Re.sub_blanks (Py.chr 9 +:+ Py.chr 8195 +:+ Py.chr 9) = (" " +:+ Py.chr 8195 +:+ " ") /\
  Re.sub_newlines NL ("a" +:+ Py.chr 160 +:+ NL +:+ Py.chr 160 +:+ "b") = ("a" +:+ NL +:+ "b") /\
  Re.sub_newlines NL ("a " +:+ NL +:+ NL +:+ Py.chr 9 +:+ " b") = ("a" +:+ NL +:+ "b") /\
  Re.sub_newlines NL ("a" +:+ Py.chr 133 +:+ "b") = ("a" +:+ Py.chr 133 +:+ "b") /\
  Re.sub_newlines NL ("a" +:+ Py.chr 13 +:+ NL +:+ "b") = ("a" +:+ NL +:+ "b") /\
  Re.sub_newlines NL (Py.chr 8195 +:+ NL) = NL /\
  Re.sub_newlines NL ("a" +:+ Py.chr 8232 +:+ "b") = ("a" +:+ Py.chr 8232 +:+ "b") /\
  Re.sub_newlines NL ("a " +:+ Py.chr 11 +:+ " b") = ("a " +:+ Py.chr 11 +:+ " b") /\
  Re.sub_newlines NL ("x" +:+ Py.chr 12288 +:+ NL +:+ Py.chr 8203 +:+ "y") = ("x" +:+ NL +:+ Py.chr 8203 +:+ "y") /\
  Re.sub_newlines " " ("a" +:+ Py.chr 160 +:+ NL +:+ Py.chr 160 +:+ "b") = "a b" /\
  Re.sub_newlines " " ("a " +:+ NL +:+ NL +:+ Py.chr 9 +:+ " b") = "a b" /\
  Re.sub_newlines " " ("a" +:+ Py.chr 133 +:+ "b") = ("a" +:+ Py.chr 133 +:+ "b").
Proof. vm_compute. repeat split; reflexivity. Qed.

(** [len] and slices count code points. *)
Example len_conformance :
  String.length (Py.chr 8226 +:+ " Managed 3 ppl") = 15%nat /\
  String.length (Py.chr 233 +:+ Py.chr 233 +:+ Py.chr 233 +:+ Py.chr 233 +:+ Py.chr 233) = 5%nat /\
  String.length (Py.chr 128640 +:+ " go") = 4%nat /\
  String.length ("na" +:+ Py.chr 239 +:+ "ve") = 5%nat /\
  Py.prefix 4 (Py.chr 233 +:+ Py.chr 233 +:+ Py.chr 233 +:+ Py.chr 233 +:+ Py.chr 233 +:+ Py.chr 233) = (Py.chr 233 +:+ Py.chr 233 +:+ Py.chr 233 +:+ Py.chr 233) /\
  Py.prefix 2 ("a" +:+ Py.chr 8226 +:+ "b") = ("a" +:+ Py.chr 8226) /\
  Py.prefix 0 "abc" = EmptyString.
Proof. vm_compute. repeat split; reflexivity. Qed.

(** The lines of the quantification check. *)
Example substantive_lines_conformance :
  substantive_lines (Py.chr 8226 +:+ " Managed 3 ppl" +:+ NL +:+ Py.chr 8226 +:+ " Led a team of 12 engineers" +:+ NL +:+ Py.chr 160 +:+ Py.chr 160 +:+ Py.chr 160 +:+ Py.chr 160 +:+ Py.chr 160 +:+ Py.chr 160 +:+ Py.chr 160 +:+ Py.chr 160 +:+ Py.chr 160 +:+ Py.chr 160 +:+ Py.chr 160 +:+ Py.chr 160 +:+ Py.chr 160 +:+ Py.chr 160 +:+ Py.chr 160 +:+ Py.chr 160 +:+ Py.chr 160 +:+ Py.chr 160 +:+ Py.chr 160 +:+ Py.chr 160 +:+ NL +:+ "plain line over fifteen" +:+ Py.chr 160) = [(Py.chr 8226 +:+ " Led a team of 12 engineers"); ("plain line over fifteen" +:+ Py.chr 160)] /\
  substantive_lines "ab 1             " = [].
Proof. vm_compute. repeat split; reflexivity. Qed.

(** The segmenter on headings with white space and letters beyond ASCII. *)
Example parse_sections_conformance :
  parse_sections_by_iteration ("Skills" +:+ Py.chr 160 +:+ NL +:+ "Python") !! "profile_summary" = Some EmptyString /\
  parse_sections_by_iteration ("Skills" +:+ Py.chr 160 +:+ NL +:+ "Python") !! "work_experience" = Some EmptyString /\
  parse_sections_by_iteration ("Skills" +:+ Py.chr 160 +:+ NL +:+ "Python") !! "education" = Some EmptyString /\
  parse_sections_by_iteration ("Skills" +:+ Py.chr 160 +:+ NL +:+ "Python") !! "skills" = Some "Python" /\
  parse_sections_by_iteration ("SUMMARY:" +:+ NL +:+ "A" +:+ NL +:+ Py.chr 201 +:+ "ducation" +:+ NL +:+ "B") !! "profile_summary" = Some ("A" +:+ NL +:+ Py.chr 201 +:+ "ducation" +:+ NL +:+ "B") /\
  parse_sections_by_iteration ("SUMMARY:" +:+ NL +:+ "A" +:+ NL +:+ Py.chr 201 +:+ "ducation" +:+ NL +:+ "B") !! "work_experience" = Some EmptyString /\
  parse_sections_by_iteration ("SUMMARY:" +:+ NL +:+ "A" +:+ NL +:+ Py.chr 201 +:+ "ducation" +:+ NL +:+ "B") !! "education" = Some EmptyString /\
  parse_sections_by_iteration ("SUMMARY:" +:+ NL +:+ "A" +:+ NL +:+ Py.chr 201 +:+ "ducation" +:+ NL +:+ "B") !! "skills" = Some EmptyString /\
  parse_sections_by_iteration (Py.chr 160 +:+ "Experience" +:+ Py.chr 8195 +:+ NL +:+ Py.chr 8226 +:+ " did things" +:+ NL +:+ "EDUCATION" +:+ NL +:+ "MIT 2019") !! "profile_summary" = Some EmptyString /\
  parse_sections_by_iteration (Py.chr 160 +:+ "Experience" +:+ Py.chr 8195 +:+ NL +:+ Py.chr 8226 +:+ " did things" +:+ NL +:+ "EDUCATION" +:+ NL +:+ "MIT 2019") !! "work_experience" = Some (Py.chr 8226 +:+ " did things") /\
  parse_sections_by_iteration (Py.chr 160 +:+ "Experience" +:+ Py.chr 8195 +:+ NL +:+ Py.chr 8226 +:+ " did things" +:+ NL +:+ "EDUCATION" +:+ NL +:+ "MIT 2019") !! "education" = Some "MIT 2019" /\
  parse_sections_by_iteration (Py.chr 160 +:+ "Experience" +:+ Py.chr 8195 +:+ NL +:+ Py.chr 8226 +:+ " did things" +:+ NL +:+ "EDUCATION" +:+ NL +:+ "MIT 2019") !! "skills" = Some EmptyString /\
  parse_sections_by_iteration ("Work Experience" +:+ NL +:+ "x" +:+ NL +:+ "Technical Skills" +:+ NL +:+ "y") !! "profile_summary" = Some EmptyString /\
  parse_sections_by_iteration ("Work Experience" +:+ NL +:+ "x" +:+ NL +:+ "Technical Skills" +:+ NL +:+ "y") !! "work_experience" = Some EmptyString /\
  parse_sections_by_iteration ("Work Experience" +:+ NL +:+ "x" +:+ NL +:+ "Technical Skills" +:+ NL +:+ "y") !! "education" = Some EmptyString /\
  parse_sections_by_iteration ("Work Experience" +:+ NL +:+ "x" +:+ NL +:+ "Technical Skills" +:+ NL +:+ "y") !! "skills" = Some "y" /\
  parse_sections_by_iteration ("SK" +:+ Py.chr 304 +:+ "LLS" +:+ NL +:+ "x") !! "profile_summary" = Some EmptyString /\
  parse_sections_by_iteration ("SK" +:+ Py.chr 304 +:+ "LLS" +:+ NL +:+ "x") !! "work_experience" = Some EmptyString /\
  parse_sections_by_iteration ("SK" +:+ Py.chr 304 +:+ "LLS" +:+ NL +:+ "x") !! "education" = Some EmptyString /\
  parse_sections_by_iteration ("SK" +:+ Py.chr 304 +:+ "LLS" +:+ NL +:+ "x") !! "skills" = Some EmptyString /\
  parse_sections_by_iteration ("Profile" +:+ NL +:+ NL +:+ "Objective" +:+ NL +:+ "z") !! "profile_summary" = Some "z" /\
  parse_sections_by_iteration ("Profile" +:+ NL +:+ NL +:+ "Objective" +:+ NL +:+ "z") !! "work_experience" = Some EmptyString /\
  parse_sections_by_iteration ("Profile" +:+ NL +:+ NL +:+ "Objective" +:+ NL +:+ "z") !! "education" = Some EmptyString /\
  parse_sections_by_iteration ("Profile" +:+ NL +:+ NL +:+ "Objective" +:+ NL +:+ "z") !! "skills" = Some EmptyString.
Proof. vm_compute. repeat split; reflexivity. Qed.

(** The extension test of the extractor. *)
Example splitext_conformance :
  Py.lower (OsPath.splitext_ext "uploads/cv.PDF") = ".pdf" /\
  Py.lower (OsPath.splitext_ext "uploads/cv.Pdf") = ".pdf" /\
  Py.lower (OsPath.splitext_ext "cv.docx") = ".docx" /\
  Py.lower (OsPath.splitext_ext "a.b/cv") = EmptyString /\
  Py.lower (OsPath.splitext_ext ".pdf") = EmptyString /\
  Py.lower (OsPath.splitext_ext "x/.hidden.pdf") = ".pdf" /\
  Py.lower (OsPath.splitext_ext ("cv.PDF" +:+ Py.chr 160)) = (".pdf" +:+ Py.chr 160) /\
  Py.lower (OsPath.splitext_ext ("cv." +:+ Py.chr 65360 +:+ Py.chr 65348 +:+ Py.chr 65350)) = ("." +:+ Py.chr 65360 +:+ Py.chr 65348 +:+ Py.chr 65350) /\
  Py.lower (OsPath.splitext_ext ("cv." +:+ Py.chr 8490)) = ".k".
Proof. vm_compute. repeat split; reflexivity. Qed.

(** The order of [sorted] on [str]. *)
Example string_order_conformance :
  String.leb "a" "b" = true /\
  String.leb "Z" "a" = true /\
  String.leb (Py.chr 233) "z" = false /\
  String.leb "z" (Py.chr 233) = true /\
  String.leb "ab" "a" = false /\
  String.leb "a" "ab" = true /\
  String.leb (Py.chr 65536) (Py.chr 65535) = false /\
  String.leb (Py.chr 65535) (Py.chr 65536) = true /\
  String.leb EmptyString "a" = true /\
  String.leb "a" "a" = true.
Proof. vm_compute. repeat split; reflexivity. Qed.

(** The normalization of the extractor. *)
Example normalization_conformance :
  Py.strip (Re.sub_newlines NL (Re.sub_blanks ("  Summary" +:+ Py.chr 160 +:+ NL +:+ Py.chr 160 +:+ "A  dynamic" +:+ Py.chr 9 +:+ "player " +:+ Py.chr 133 +:+ NL +:+ NL +:+ " Skills "))) = ("Summary" +:+ NL +:+ "A dynamic player" +:+ NL +:+ "Skills") /\
  Py.strip (Re.sub_newlines NL (Re.sub_blanks (Py.chr 160 +:+ "x" +:+ Py.chr 160))) = "x".
Proof. vm_compute. repeat split; reflexivity. Qed.

Lemma foldl_no_heading (lines : list string) (sections : gmap string (list string)) :
  (forall line, line ∈ lines -> heading_of line = None) ->
  foldl segment_step (None, sections) lines = (None, sections).
Proof.
  induction lines as [|line lines IH]; intros Hno; [reflexivity|].
  cbn [foldl]. unfold segment_step at 2.
  rewrite (Hno line) by (left).
  apply IH. intros l Hl. apply Hno. by right.
Qed.

Lemma empty_sections_done :
  (fun section_lines => Py.strip (Py.join NL section_lines)) <$> empty_sections = no_sections.
Proof. vm_compute. reflexivity. Qed.

Lemma parse_no_heading (text : string) :
  (forall line, line ∈ Py.split_on "010" text -> heading_of line = None) ->
  parse_sections_by_iteration text = no_sections.
Proof.
  intros Hno. unfold parse_sections_by_iteration.
  rewrite (foldl_no_heading _ _ Hno). apply empty_sections_done.
Qed.

(** Claim C8.  When no line of the text is recognised as a heading, the
    segmentation returns the four sections, each an empty string, and the
    issue compiler on that result reports exactly the missing-skills and
    missing-work-experience formatting issues and the single content issue
    that the education section was not found; the degree/institution and
    graduation-year issues are not raised. *)
Theorem no_headings_all_missing (env : Env) (text raw_text : string) :
  (forall line, line ∈ Py.split_on "010" text -> heading_of line = None) ->
  parse_sections_by_iteration text !! "profile_summary" = Some EmptyString /\
  parse_sections_by_iteration text !! "work_experience" = Some EmptyString /\
  parse_sections_by_iteration text !! "education" = Some EmptyString /\
  parse_sections_by_iteration text !! "skills" = Some EmptyString /\
  exists formatting_issues content_issues outdated_tech,
    compile_issues env (parse_sections_by_iteration text) raw_text
      = (formatting_issues, content_issues, outdated_tech) /\
    formatting_issues = [MSG_NO_SKILLS; MSG_NO_WORK] /\
    MSG_NO_EDUCATION ∈ content_issues /\
    (MSG_EDU_TERMS ∉ content_issues) /\
    (MSG_EDU_YEAR ∉ content_issues) /\
    content_issues = [MSG_NO_EDUCATION].
Proof.
  intros Hno. rewrite (parse_no_heading _ Hno).
  repeat (split; [reflexivity|]).
  exists [MSG_NO_SKILLS; MSG_NO_WORK], [MSG_NO_EDUCATION], (outdated_mentions env raw_text).
  repeat split.
  - apply list_elem_of_singleton. reflexivity.
  - intros H%list_elem_of_singleton. discriminate H.
  - intros H%list_elem_of_singleton. discriminate H.
Qed.

(** Claim C8 at the one-line text [Jane Doe]. *)
Lemma no_headings_witness :
  (forall line, line ∈ Py.split_on "010" "Jane Doe" -> heading_of line = None) /\
  parse_sections_by_iteration "Jane Doe" !! "skills" = Some EmptyString.
Proof.
  assert (H : forall line, line ∈ Py.split_on "010" "Jane Doe" -> heading_of line = None).
  { intros line Hl. apply list_elem_of_singleton in Hl. subst line. reflexivity. }
  split; [exact H|].
  exact (proj1 (proj2 (proj2 (proj2 (no_headings_all_missing (docx_env []) "Jane Doe" "Jane Doe" H))))).
Defined.

Lemma set_iter_singleton (env : Env) (x : string) :
  set_iter_ok env -> set_iter env {[x]} = [x].
Proof.
  intros Hok. specialize (Hok {[x]}). rewrite elements_singleton in Hok.
  by apply Permutation_singleton_r in Hok.
Qed.

Lemma scenario_buzzwords : found_buzzwords "A dynamic team player." = {["dynamic"]}.
Proof. vm_compute. reflexivity. Qed.

(** Claim C2, evaluated on the code.  On the scenario text the segmentation
    gives the stated summary and skills, and the missing work experience and
    the missing education are flagged; but the buzzword test compares single
    white-space separated words with the buzzword set, so it finds [dynamic]
    only: the two-word entry [team player] is never found, and the content
    issue reads [Profile summary uses buzzwords: dynamic.] *)
Theorem scenario_reports_one_buzzword (env : Env) (raw_text : string) :
  set_iter_ok env ->
  parse_sections_by_iteration scenario_text !! "profile_summary"
    = Some "A dynamic team player." /\
  parse_sections_by_iteration scenario_text !! "skills" = Some "Python, AWS" /\
  parse_sections_by_iteration scenario_text !! "work_experience" = Some EmptyString /\
  parse_sections_by_iteration scenario_text !! "education" = Some EmptyString /\
  "dynamic" ∈ found_buzzwords "A dynamic team player." /\
  ("team player" ∉ found_buzzwords "A dynamic team player.") /\
  compile_issues env (parse_sections_by_iteration scenario_text) raw_text
    = ([MSG_NO_WORK],
       ["Profile summary uses buzzwords: dynamic."; MSG_VALUE_PROPOSITION; MSG_NO_EDUCATION],
       outdated_mentions env raw_text).
Proof.
  intros Hok.
  assert (Hs : parse_sections_by_iteration scenario_text =
               <["skills" := "Python, AWS"]> (<["profile_summary" := "A dynamic team player."]> no_sections))
    by (vm_compute; reflexivity).
  rewrite Hs, scenario_buzzwords.
  split; [reflexivity|]. split; [reflexivity|].
  split; [reflexivity|]. split; [reflexivity|].
  split; [by apply elem_of_singleton|].
  split; [intros H; apply elem_of_singleton in H; discriminate H|].
  unfold compile_issues, section_text, summary_issues.
  clear Hs.
  repeat (rewrite ?lookup_insert_eq; rewrite ?lookup_insert_ne by done).
  cbn [default Py.truthy]. unfold id. rewrite scenario_buzzwords.
  rewrite (set_iter_singleton env _ Hok). reflexivity.
Qed.

(** Claim C2 with the sets iterated in the order of [elements]. *)
Lemma scenario_witness :
  set_iter_ok (docx_env [scenario_text]) /\
  compile_issues (docx_env [scenario_text]) (parse_sections_by_iteration scenario_text)
                 scenario_text
    = ([MSG_NO_WORK],
       ["Profile summary uses buzzwords: dynamic."; MSG_VALUE_PROPOSITION; MSG_NO_EDUCATION],
       outdated_mentions (docx_env [scenario_text]) scenario_text).
Proof.
  assert (H : set_iter_ok (docx_env [scenario_text])) by (intros s; reflexivity).
  split; [exact H|].
  apply (scenario_reports_one_buzzword (docx_env [scenario_text]) scenario_text H).
Defined.

(** ** Recommendations *)

Lemma nonempty_spec {A} (l : list A) : nonempty l = true <-> l <> [].
Proof. destruct l; simpl; split; congruence. Qed.

Lemma any_mentions_spec (sub : string) (issues : list string) :
  any_mentions sub issues = true <->
  exists issue, issue ∈ issues /\ Py.contains sub issue = true.
Proof.
  unfold any_mentions. rewrite existsb_exists.
  split; intros (x & Hx & Hc); exists x; split; auto; by apply list_elem_of_In.
Qed.

Lemma rec_job_fit_not_strong (keywords : list string) : REC_JOB_FIT keywords <> REC_STRONG.
Proof. unfold REC_JOB_FIT, REC_STRONG. discriminate. Qed.

Lemma recommendations_unfold (report : Report) :
  generate_personalized_recommendations report =
  let checks := classified_checks report in
  match triggered checks with
  | [] => [REC_STRONG]
  | recs => recs
  end.
Proof.
  unfold generate_personalized_recommendations, triggered, append_if.
  cbv zeta.
  destruct (rule_job_fit _), (rule_section_headers _), (rule_profile _),
    (rule_quantify _), (rule_technology _); reflexivity.
Qed.

Lemma triggered_nil (checks : ClassifiedChecks) : triggered checks = [] <-> no_rule checks.
Proof.
  unfold triggered, no_rule.
  destruct (rule_job_fit _), (rule_section_headers _), (rule_profile _),
    (rule_quantify _), (rule_technology _); simpl; split; intros H;
    try discriminate; try reflexivity; try (repeat split; reflexivity);
    (destruct H as (?&?&?&?&?); discriminate).
Qed.

Lemma strong_not_triggered (checks : ClassifiedChecks) : REC_STRONG ∉ triggered checks.
Proof.
  unfold triggered. rewrite !elem_of_app.
  intros [H|[H|[H|[H|H]]]].
  - destruct (rule_job_fit _); [|by apply not_elem_of_nil in H].
    apply list_elem_of_singleton in H. symmetry in H. by apply rec_job_fit_not_strong in H.
  - destruct (rule_section_headers _); [|by apply not_elem_of_nil in H].
    apply list_elem_of_singleton in H. discriminate H.
  - destruct (rule_profile _); [|by apply not_elem_of_nil in H].
    apply list_elem_of_singleton in H. discriminate H.
  - destruct (rule_quantify _); [|by apply not_elem_of_nil in H].
    apply list_elem_of_singleton in H. discriminate H.
  - destruct (rule_technology _); [|by apply not_elem_of_nil in H].
    apply list_elem_of_singleton in H. discriminate H.
Qed.

(** Claim C9.  The recommendations are the outcomes of five rules in a fixed
    order: job fit (score below 75 and missing keywords present, listing at
    most the first eight), section headers (a formatting issue contains
    [section]), profile (a content issue contains [value proposition]),
    quantification (a content issue contains [quantification]) and
    technology (outdated technology present).  The fallback message is
    returned, alone, exactly when none of the five rules triggers. *)
Theorem recommendations_five_rules_then_fallback (report : Report) :
  let checks := classified_checks report in
  let recs := generate_personalized_recommendations report in
  (* what each rule tests *)
  (rule_job_fit checks = true <->
     score (job_fit checks) < 75 /\ missing_keywords (job_fit checks) <> []) /\
  (rule_section_headers checks = true <->
     exists issue, issue ∈ formatting_ats checks /\ Py.contains "section" issue = true) /\
  (rule_profile checks = true <->
     exists issue, issue ∈ content_impact checks /\ Py.contains "value proposition" issue = true) /\
  (rule_quantify checks = true <->
     exists issue, issue ∈ content_impact checks /\ Py.contains "quantification" issue = true) /\
  (rule_technology checks = true <-> technology_freshness checks <> []) /\
  (* the output, in priority order *)
  (~ no_rule checks ->
     recs =
       (if rule_job_fit checks
        then [REC_JOB_FIT (take 8 (missing_keywords (job_fit checks)))] else [])
       ++ (if rule_section_headers checks then [REC_SECTION_HEADERS] else [])
       ++ (if rule_profile checks then [REC_PROFILE] else [])
       ++ (if rule_quantify checks then [REC_QUANTIFY] else [])
       ++ (if rule_technology checks then [REC_TECHNOLOGY] else [])) /\
  (length (take 8 (missing_keywords (job_fit checks))) <= 8)%nat /\
  (* the fallback *)
  (no_rule checks -> recs = [REC_STRONG]) /\
  (REC_STRONG ∈ recs <-> no_rule checks).
Proof.
  intros checks recs.
  split; [|split; [|split; [|split; [|split]]]].
  - unfold rule_job_fit. rewrite andb_true_iff, Z.ltb_lt, nonempty_spec. reflexivity.
  - apply any_mentions_spec.
  - apply any_mentions_spec.
  - apply any_mentions_spec.
  - apply nonempty_spec.
  - subst recs. rewrite recommendations_unfold. cbv zeta. fold checks.
    pose proof (triggered_nil checks) as Hnil.
    pose proof (strong_not_triggered checks) as Hns.
    split; [|split; [|split]].
    + intros Hsome. fold (triggered checks).
      destruct (triggered checks) eqn:E; [|reflexivity].
      exfalso. apply Hsome, Hnil. reflexivity.
    + rewrite length_take. lia.
    + intros Hno. apply Hnil in Hno. rewrite Hno. reflexivity.
    + split.
      * intros Hin. apply Hnil.
        destruct (triggered checks) eqn:E; [reflexivity|]. contradiction.
      * intros Hno. apply Hnil in Hno. rewrite Hno. by left.
Qed.

(** ** Substrings *)

Lemma startswith_spec (p s : string) :
  Py.startswith p s = true <-> exists post, s = p +:+ post.
Proof.
  revert s. induction p as [|a p IH]; intros s; simpl.
  - split; [intros _; exists s; reflexivity | reflexivity].
  - destruct s as [|b s].
    + split; [discriminate | intros [post H]; discriminate H].
    + rewrite andb_true_iff, char_eqb_eq, IH. split.
      * intros [-> [post ->]]. exists post. reflexivity.
      * intros [post H]. injection H as -> ->. split; [reflexivity | by exists post].
Qed.

Lemma contains_spec (sub s : string) :
  Py.contains sub s = true <-> is_substring sub s.
Proof.
  unfold is_substring. induction s as [|c s IH].
  - simpl. rewrite orb_false_r, startswith_spec. split.
    + intros [post H]. exists EmptyString, post. exact H.
    + intros (pre & post & H). destruct pre as [|a pre]; [by exists post | discriminate H].
  - cbn [Py.contains]. rewrite orb_true_iff, startswith_spec, IH. split.
    + intros [[post H] | (pre & post & H)].
      * exists EmptyString, post. exact H.
      * exists (String c pre), post. rewrite H. reflexivity.
    + intros (pre & post & H). destruct pre as [|a pre].
      * left. by exists post.
      * right. injection H as _ H. by exists pre, post.
Qed.

(** ** Domain inference *)

Lemma max_from_spec (rest : list (string * Z)) (x : string * Z) :
  first_maximum (x :: rest) (max_from x rest).
Proof.
  revert x. induction rest as [|y rest IH]; intros x.
  - exists 0%nat. simpl. split; [reflexivity|]. split.
    + intros [|j] z Hz; simpl in Hz; [injection Hz as <-; lia | discriminate Hz].
    + intros j z Hj. lia.
  - cbn [max_from].
    destruct (IH (if snd x <? snd y then y else x)) as (i & Hi & Hmax & Hfirst).
    destruct (Z.ltb_spec (snd x) (snd y)) as [Hlt|Hge].
    + (* the head is beaten: the winner comes from [y :: rest] *)
      exists (S i). split; [exact Hi|]. split.
      * intros [|j] z Hz; simpl in Hz.
        -- injection Hz as <-. specialize (Hmax 0%nat y eq_refl). lia.
        -- apply (Hmax j z Hz).
      * intros [|j] z Hj Hz; simpl in Hz.
        -- injection Hz as <-. specialize (Hmax 0%nat y eq_refl). lia.
        -- apply (Hfirst j z); [lia | exact Hz].
    + (* the head stays ahead of [y] *)
      destruct i as [|i].
      * simpl in Hi. injection Hi as Hi. exists 0%nat. rewrite <- Hi. simpl.
        split; [reflexivity|]. split.
        -- intros [|[|j]] z Hz; simpl in Hz.
           ++ injection Hz as <-. lia.
           ++ injection Hz as <-. lia.
           ++ specialize (Hmax (S j) z Hz). rewrite <- Hi in Hmax. exact Hmax.
        -- intros j z Hj. lia.
      * exists (S (S i)). split; [exact Hi|]. split.
        -- intros [|[|j]] z Hz; simpl in Hz.
           ++ injection Hz as <-. apply (Hmax 0%nat x eq_refl).
           ++ injection Hz as <-. specialize (Hmax 0%nat x eq_refl). lia.
           ++ apply (Hmax (S j) z Hz).
        -- intros [|[|j]] z Hj Hz; simpl in Hz.
           ++ injection Hz as <-. apply (Hfirst 0%nat x); [lia | reflexivity].
           ++ injection Hz as <-. specialize (Hfirst 0%nat x ltac:(lia) eq_refl). lia.
           ++ apply (Hfirst (S j) z); [lia | exact Hz].
Qed.

Lemma max_by_value_spec (table : list (string * Z)) (best : string * Z) :
  max_by_value table = Some best -> first_maximum table best.
Proof.
  destruct table as [|x rest]; [discriminate|].
  simpl. intros [= <-]. apply max_from_spec.
Qed.

Lemma domain_scores_best (text_lower : string) :
  exists best, max_by_value (domain_scores text_lower) = Some best /\
    (fst best = "software" \/ fst best = "marketing" \/
     fst best = "graphic_designer" \/ fst best = "scm").
Proof.
  unfold domain_scores, DOMAIN_KEYWORDS. cbn [fmap list_fmap max_by_value max_from].
  eexists. split; [reflexivity|].
  repeat match goal with |- context [if ?b then _ else _] => destruct b end;
    cbn [fst]; tauto.
Qed.

Lemma infer_domain_known (raw_text : string) :
  exists domain jd, infer_domain raw_text = Some domain /\
    DEFAULT_JDS !! domain = Some jd /\ jd <> EmptyString.
Proof.
  unfold infer_domain.
  destruct (domain_scores_best (Py.lower raw_text)) as ([d n] & Hbest & Hd).
  rewrite Hbest. cbn [fst] in Hd.
  destruct (2 <? n).
  - destruct Hd as [-> | [-> | [-> | ->]]]; eexists _, _; (split; [reflexivity|]);
      (split; [reflexivity | discriminate]).
  - eexists _, _. split; [reflexivity|]. split; [reflexivity | discriminate].
Qed.

(** ** Orchestrator *)

Lemma analyze_resume_extracted (env : Env) (filepath raw_text : string)
    (sections : gmap string string) (is_graphics_heavy : bool)
    (job_description_text : option string) :
  master_text_extractor env filepath = (Some raw_text, sections, is_graphics_heavy) ->
  raw_text <> EmptyString -> raw_text <> TESSERACT_NOT_FOUND ->
  analyze_resume env filepath job_description_text =
  match effective_job_description raw_text job_description_text with
  | Some jd => Analysis (build_report env raw_text sections is_graphics_heavy jd)
  | None => Uncaught
  end.
Proof.
  intros Hx Hne Hns. unfold analyze_resume. rewrite Hx.
  destruct raw_text as [|c r]; [congruence|]. cbn [Py.truthy negb].
  destruct (string_eqb_spec (String c r) TESSERACT_NOT_FOUND); [congruence | reflexivity].
Qed.

(** The lookup of the default job description never fails: no exception
    escapes [analyze_resume]. *)
Lemma analyze_resume_caught (env : Env) (filepath : string)
    (job_description_text : option string) :
  analyze_resume env filepath job_description_text <> Uncaught.
Proof.
  unfold analyze_resume.
  destruct (master_text_extractor env filepath) as [[[raw_text|] sections] heavy];
    [|discriminate].
  destruct (negb (Py.truthy raw_text)); [discriminate|].
  destruct (String.eqb raw_text TESSERACT_NOT_FOUND); [discriminate|].
  unfold effective_job_description.
  destruct (supplied job_description_text) eqn:Hs.
  - destruct job_description_text; [discriminate | discriminate Hs].
  - destruct (infer_domain_known raw_text) as (domain & jd & Hd & Hjd & _).
    rewrite Hd, Hjd. discriminate.
Qed.

(** Claim C6.  Without a job description, every domain of the table is
    scored by the number of its keywords that occur in the lower-cased text;
    the winner is the first domain, in table order, with the highest count;
    the report is built against the default job description of that domain
    when its count exceeds 2, and against the generic one otherwise. *)
Theorem no_job_description_uses_inferred_domain (env : Env) (filepath raw_text : string)
    (sections : gmap string string) (is_graphics_heavy : bool) :
  master_text_extractor env filepath = (Some raw_text, sections, is_graphics_heavy) ->
  raw_text <> EmptyString -> raw_text <> TESSERACT_NOT_FOUND ->
  exists best jd,
    first_maximum (domain_scores (Py.lower raw_text)) best /\
    (forall i domain keywords, DOMAIN_KEYWORDS !! i = Some (domain, keywords) ->
       domain_scores (Py.lower raw_text) !! i =
         Some (domain, Z.of_nat (length (List.filter
                 (fun keyword => Py.contains keyword (Py.lower raw_text)) keywords)))) /\
    (forall keyword, Py.contains keyword (Py.lower raw_text) = true <->
                     is_substring keyword (Py.lower raw_text)) /\
    (2 < snd best -> DEFAULT_JDS !! fst best = Some jd) /\
    (snd best <= 2 -> jd = JD_GENERIC) /\
    analyze_resume env filepath None
      = Analysis (build_report env raw_text sections is_graphics_heavy jd).
Proof.
  intros Hx Hne Hns.
  rewrite (analyze_resume_extracted _ _ _ _ _ _ Hx Hne Hns).
  unfold effective_job_description, infer_domain. cbn [supplied].
  destruct (domain_scores_best (Py.lower raw_text)) as ([d n] & Hbest & Hd).
  rewrite Hbest. cbn [fst] in Hd.
  assert (Hjd : exists jd, DEFAULT_JDS !! d = Some jd).
  { destruct Hd as [-> | [-> | [-> | ->]]]; eexists; reflexivity. }
  destruct Hjd as [jd Hjd].
  exists (d, n), (if 2 <? n then jd else JD_GENERIC).
  split; [by apply max_by_value_spec|].
  split.
  { intros i domain keywords Hi. unfold domain_scores.
    rewrite list_lookup_fmap, Hi. reflexivity. }
  split; [intros keyword; apply contains_spec|].
  cbn [fst snd].
  destruct (Z.ltb_spec 2 n) as [Hgt|Hle].
  - split; [intros _; exact Hjd|]. split; [lia|]. rewrite Hjd. reflexivity.
  - split; [lia|]. split; [reflexivity|]. reflexivity.
Qed.

(** Claim C6 on a DOCX holding the scenario text. *)
Lemma no_job_description_witness :
  exists raw_text sections,
    master_text_extractor (docx_env [scenario_text]) "uploads/cv.docx"
      = (Some raw_text, sections, false) /\
    raw_text <> EmptyString /\ raw_text <> TESSERACT_NOT_FOUND /\
    exists jd, analyze_resume (docx_env [scenario_text]) "uploads/cv.docx" None
               = Analysis (build_report (docx_env [scenario_text]) raw_text sections false jd).
Proof.
  eexists _, _.
  assert (Hx : master_text_extractor (docx_env [scenario_text]) "uploads/cv.docx"
               = (Some scenario_text, parse_sections_by_iteration scenario_text, false))
    by (vm_compute; reflexivity).
  assert (Hne : scenario_text <> EmptyString) by discriminate.
  assert (Hns : scenario_text <> TESSERACT_NOT_FOUND) by discriminate.
  split; [exact Hx|]. split; [exact Hne|]. split; [exact Hns|].
  destruct (no_job_description_uses_inferred_domain _ _ _ _ _ Hx Hne Hns)
    as (best & jd & _ & _ & _ & _ & _ & H).
  exists jd. exact H.
Defined.


(** ** Missing OCR engine *)

(** Claim C7, as amended.  For a PDF whose text layer has fewer than 150
    stripped characters, which has at least one page, whose first page
    renders to an image, and with the OCR engine missing, the extraction
    returns the sentinel and [analyze_resume] returns the error
    [Tesseract OCR is not installed.], distinct from the generic extraction
    error, whatever the job description. *)
Theorem missing_ocr_engine_is_reported (env : Env) (filepath : string)
    (page : Page) (rest : list Page) (img : string) (job_description_text : option string) :
  Py.lower (OsPath.splitext_ext filepath) = ".pdf" ->
  fitz_open env filepath = Some (page :: rest) ->
  (String.length (Py.strip (text_layer (page :: rest))) < 150)%nat ->
  get_pixmap page = Some img ->
  ocr_engine_missing env ->
  extract_text_from_pdf env filepath = (TESSERACT_NOT_FOUND, false) /\
  analyze_resume env filepath job_description_text = Error ERR_TESSERACT /\
  ERR_TESSERACT <> ERR_EXTRACTION.
Proof.
  intros Hext Hopen Hlow Hpix Hmissing.
  assert (Hpdf : extract_text_from_pdf env filepath = (TESSERACT_NOT_FOUND, false)).
  { unfold extract_text_from_pdf. rewrite Hopen.
    apply Nat.ltb_lt in Hlow. rewrite Hlow.
    cbn [ocr_pages]. rewrite Hpix, (Hmissing img). reflexivity. }
  split; [exact Hpdf|]. split; [|discriminate].
  unfold analyze_resume, master_text_extractor. rewrite Hext.
  cbn [String.eqb Char.eqb Bool.eqb]. rewrite Hpdf. reflexivity.
Qed.

(** Claim C7 on a scanned PDF of one blank page. *)
Lemma missing_ocr_engine_witness :
  analyze_resume (scanned_env [blank_page] (fun _ => TesseractNotFoundError))
                 "uploads/scan.pdf" None = Error ERR_TESSERACT.
Proof.
  refine (proj1 (proj2 (missing_ocr_engine_is_reported
            (scanned_env [blank_page] (fun _ => TesseractNotFoundError))
            "uploads/scan.pdf" blank_page [] "png" None _ _ _ _ _))).
  - reflexivity.
  - reflexivity.
  - vm_compute. lia.
  - reflexivity.
  - intros img. reflexivity.
Defined.

(** The threshold of 150 counts characters: a text layer of one hundred
    accented letters is a low-text one, and the missing engine is
    reported. *)
Example low_text_threshold_counts_characters :
  let page := {| get_text := Py.join EmptyString (replicate 100 (Py.chr 233));
                 get_pixmap := Some "png" |} in
  String.length (Py.strip (get_text page)) = 100%nat /\
  analyze_resume (scanned_env [page] (fun _ => TesseractNotFoundError)) "scan.pdf" None
    = Error ERR_TESSERACT.
Proof. vm_compute. split; reflexivity. Qed.

(** Claim C7 fails as stated.  A PDF without pages has an empty text layer;
    the OCR loop then has nothing to hand to the engine, its absence goes
    unnoticed, and the run ends in the generic extraction error. *)
Lemma missing_ocr_engine_unnoticed_without_pages :
  let env := scanned_env [] (fun _ => TesseractNotFoundError) in
  Py.lower (OsPath.splitext_ext "uploads/scan.pdf") = ".pdf" /\
  fitz_open env "uploads/scan.pdf" = Some [] /\
  (String.length (Py.strip (text_layer [])) < 150)%nat /\
  ocr_engine_missing env /\
  analyze_resume env "uploads/scan.pdf" None = Error ERR_EXTRACTION /\
  analyze_resume env "uploads/scan.pdf" None <> Error ERR_TESSERACT.
Proof.
  cbv zeta. split; [reflexivity|]. split; [reflexivity|].
  split; [vm_compute; lia|]. split; [intros img; reflexivity|].
  split; [reflexivity | discriminate].
Qed.

(** ** Scoring *)

Lemma weighted_score_table :
  forallb (fun q => forallb (fun j => weighted_score_ok q j) (seqZ 0 101)) (seqZ 0 101) = true.
Proof. vm_compute. reflexivity. Qed.

Lemma weighted_score_checked (q j : Z) :
  0 <= q <= 100 -> 0 <= j <= 100 -> weighted_score_ok q j = true.
Proof.
  intros Hq Hj. pose proof weighted_score_table as H.
  rewrite forallb_forall in H.
  assert (Hq' : In q (seqZ 0 101)) by (apply list_elem_of_In, elem_of_seqZ; lia).
  specialize (H q Hq'). rewrite forallb_forall in H.
  apply H. apply list_elem_of_In, elem_of_seqZ. lia.
Qed.

Lemma quality_score_range (f c o : list string) : 0 <= quality_score f c o <= 100.
Proof. unfold quality_score. lia. Qed.

Lemma first_grade_spec (final_score : Z) :
  first_grade GRADE_TABLE final_score = spec_grade final_score.
Proof. reflexivity. Qed.

Lemma spec_grade_monotone (s1 s2 : Z) :
  s1 <= s2 -> grade_rank (spec_grade s1) <= grade_rank (spec_grade s2).
Proof.
  intros H. unfold spec_grade.
  repeat match goal with |- context [?a <=? ?b] => destruct (Z.leb_spec a b) end;
    cbn; lia.
Qed.

(** Claim C3.  For a job-fit score between 0 and 100, the final score is the
    rounding of [0.4 * quality + 0.6 * jd_match_score], where
    [quality = max(0, 100 - 10 * (formatting + content) - 5 * outdated)]: it
    equals the exact rounding, is strictly the nearest integer (no tie
    occurs), and lies between 0 and 100.  The grade is the first threshold
    reached, highest first (80 A, 70 B, 60 C, 40 D, else F), and does not
    decrease when the final score grows. *)
Theorem calculate_scores_spec (formatting_issues content_issues outdated_tech : list string)
    (jd_match_score : Z) :
  0 <= jd_match_score <= 100 ->
  let quality :=
    Z.max 0 (100 - 10 * (Z.of_nat (length formatting_issues) + Z.of_nat (length content_issues))
             - 5 * Z.of_nat (length outdated_tech)) in
  let final_score := fst (calculate_scores formatting_issues content_issues outdated_tech jd_match_score) in
  let grade := snd (calculate_scores formatting_issues content_issues outdated_tech jd_match_score) in
  final_score = spec_final_score quality jd_match_score /\
  2 * Z.abs (10 * final_score - (4 * quality + 6 * jd_match_score)) < 10 /\
  0 <= final_score <= 100 /\
  grade = spec_grade final_score /\
  (forall f' c' o' j',
     fst (calculate_scores f' c' o' j') <= final_score ->
     grade_rank (snd (calculate_scores f' c' o' j')) <= grade_rank grade) /\
  (forall f' c' o' j',
     final_score <= fst (calculate_scores f' c' o' j') ->
     grade_rank grade <= grade_rank (snd (calculate_scores f' c' o' j'))).
Proof.
  intros Hj quality final_score grade.
  assert (Hq : quality = quality_score formatting_issues content_issues outdated_tech)
    by (unfold quality, quality_score; lia).
  pose proof (quality_score_range formatting_issues content_issues outdated_tech) as Hr.
  pose proof (weighted_score_checked _ _ Hr Hj) as Hok.
  unfold weighted_score_ok in Hok.
  apply andb_true_iff in Hok as [Hok H4]. apply andb_true_iff in Hok as [Hok H3].
  apply andb_true_iff in Hok as [H1 H2].
  apply Z.eqb_eq in H1. apply Z.ltb_lt in H2. apply Z.leb_le in H3, H4.
  subst final_score grade. unfold calculate_scores. cbn [fst snd].
  rewrite Hq. split; [exact H1|]. split; [exact H2|]. split; [lia|].
  split; [apply first_grade_spec|].
  split; intros f' c' o' j' Hle; rewrite !first_grade_spec; by apply spec_grade_monotone.
Qed.

(** Claim C3 without issues and with job-fit score 0: score 40, grade D. *)
Lemma calculate_scores_witness :
  0 <= 0 <= 100 /\ calculate_scores [] [] [] 0 = (40, "D").
Proof.
  assert (H : 0 <= 0 <= 100) by lia. split; [exact H|].
  pose proof (calculate_scores_spec [] [] [] 0 H) as (H1 & _ & _ & H4 & _).
  rewrite (surjective_pairing (calculate_scores [] [] [] 0)), H4, H1. reflexivity.
Defined.

(** ** Job-fit matching *)

Section sorted_facts.
Implicit Types s : gset string.

Lemma sorted_perm s : sorted s ≡ₚ elements s.
Proof. apply merge_sort_Permutation. Qed.

Lemma sorted_set s : list_to_set (sorted s) = s.
Proof.
  apply set_eq. intros x.
  rewrite elem_of_list_to_set, sorted_perm. apply elem_of_elements.
Qed.

Lemma sorted_elem_of s x : x ∈ sorted s <-> x ∈ s.
Proof. rewrite sorted_perm. apply elem_of_elements. Qed.

Lemma sorted_NoDup s : NoDup (sorted s).
Proof. rewrite sorted_perm. apply NoDup_elements. Qed.

Lemma sorted_ascending s : StronglySorted String.le (sorted s).
Proof. apply StronglySorted_merge_sort; apply _. Qed.

Lemma sorted_length s : length (sorted s) = size s.
Proof. rewrite sorted_perm. reflexivity. Qed.
End sorted_facts.

Lemma match_job_description_unfold (env : Env) (model : string -> list Token)
    (resume_text job_description_text : string) :
  nlp env = Some model ->
  lemma_set model job_description_text <> ∅ ->
  match_job_description env resume_text job_description_text =
  {| score := overlap_percent
                (Z.of_nat (size (lemma_set model resume_text ∩ lemma_set model job_description_text)))
                (Z.of_nat (size (lemma_set model job_description_text)));
     missing_keywords :=
       sorted (lemma_set model job_description_text ∖ lemma_set model resume_text);
     overlap_keywords :=
       sorted (lemma_set model resume_text ∩ lemma_set model job_description_text) |}.
Proof.
  intros Hnlp Hne. unfold match_job_description. rewrite Hnlp.
  destruct (decide (lemma_set model job_description_text = ∅)); [contradiction | reflexivity].
Qed.

(** Claim C5.  With the lemmatizer available and a non-empty set of
    job-description lemmas, the missing and the overlapping keywords
    partition that set: their union is the set, they share no element, and
    each list is in ascending order without repetition. *)
Theorem keywords_partition_job_description (env : Env) (model : string -> list Token)
    (resume_text job_description_text : string) :
  nlp env = Some model ->
  lemma_set model job_description_text <> ∅ ->
  let jd_lemmas := lemma_set model job_description_text in
  let resume_lemmas := lemma_set model resume_text in
  let result := match_job_description env resume_text job_description_text in
  let missing : gset string := list_to_set (missing_keywords result) in
  let overlap : gset string := list_to_set (overlap_keywords result) in
  missing ∪ overlap = jd_lemmas /\
  missing ∩ overlap = ∅ /\
  missing = jd_lemmas ∖ resume_lemmas /\
  overlap = resume_lemmas ∩ jd_lemmas /\
  StronglySorted String.le (missing_keywords result) /\
  StronglySorted String.le (overlap_keywords result) /\
  NoDup (missing_keywords result) /\
  NoDup (overlap_keywords result).
Proof.
  intros Hnlp Hne jd_lemmas resume_lemmas result missing overlap.
  subst missing overlap result.
  rewrite (match_job_description_unfold _ _ _ _ Hnlp Hne). cbn [missing_keywords overlap_keywords].
  rewrite !sorted_set. fold jd_lemmas resume_lemmas.
  split; [|split; [|split; [|split; [|split; [|split; [|split]]]]]].
  - apply set_eq. intros x. rewrite elem_of_union, elem_of_difference, elem_of_intersection.
    destruct (decide (x ∈ resume_lemmas)); tauto.
  - apply set_eq. intros x.
    rewrite elem_of_intersection, elem_of_difference, elem_of_intersection, elem_of_empty.
    tauto.
  - reflexivity.
  - reflexivity.
  - apply sorted_ascending.
  - apply sorted_ascending.
  - apply sorted_NoDup.
  - apply sorted_NoDup.
Qed.

(** Claim C5 on a three-word job description. *)
Lemma keywords_partition_witness :
  let env := docx_env [] in
  nlp env = Some word_lemmatizer /\
  lemma_set word_lemmatizer "python java docker" <> ∅ /\
  missing_keywords (match_job_description env "Java and Python" "python java docker") = ["docker"] /\
  overlap_keywords (match_job_description env "Java and Python" "python java docker")
    = ["java"; "python"] /\
  StronglySorted String.le
    (overlap_keywords (match_job_description env "Java and Python" "python java docker")).
Proof.
  cbv zeta.
  assert (H1 : nlp (docx_env []) = Some word_lemmatizer) by reflexivity.
  assert (H2 : lemma_set word_lemmatizer "python java docker" <> ∅).
  { intros H. apply (f_equal elements) in H. vm_compute in H. discriminate H. }
  split; [exact H1|]. split; [exact H2|].
  split; [vm_compute; reflexivity|]. split; [vm_compute; reflexivity|].
  exact (proj1 (proj2 (proj2 (proj2 (proj2 (proj2
    (keywords_partition_job_description (docx_env []) word_lemmatizer
       "Java and Python" "python java docker" H1 H2))))))).
Defined.

(** Claim C1 fails as stated.  The code truncates where the claim rounds:
    two of three job-description lemmas give the score 66, and
    [round(100 * 2 / 3)] is 67. *)
Lemma match_score_truncates_two_thirds :
  let env := docx_env [] in
  let resume_lemmas := lemma_set word_lemmatizer "python java" in
  let jd_lemmas := lemma_set word_lemmatizer "python java docker" in
  nlp env = Some word_lemmatizer /\
  jd_lemmas <> ∅ /\
  size (resume_lemmas ∩ jd_lemmas) = 2%nat /\
  size jd_lemmas = 3%nat /\
  score (match_job_description env "python java" "python java docker") = 66 /\
  spec_round_percent (Z.of_nat (size (resume_lemmas ∩ jd_lemmas))) (Z.of_nat (size jd_lemmas)) = 67 /\
  score (match_job_description env "python java" "python java docker")
    <> spec_round_percent (Z.of_nat (size (resume_lemmas ∩ jd_lemmas)))
                          (Z.of_nat (size jd_lemmas)).
Proof.
  cbv zeta. split; [reflexivity|].
  split. { intros H. apply (f_equal elements) in H. vm_compute in H. discriminate H. }
  split; [vm_compute; reflexivity|]. split; [vm_compute; reflexivity|].
  split; [vm_compute; reflexivity|]. split; [vm_compute; reflexivity|].
  vm_compute. discriminate.
Qed.

(* ===================================================================== *)
(** * Binary64 rounding *)
(* ===================================================================== *)

Module FloatLemmas.
Import FloatFacts.

Lemma emin_val : emin = -1074.
Proof. reflexivity. Qed.

Lemma fexp_normal (x : Z) : -1021 <= x -> fexp x = x - 53.
Proof. intros H. unfold SpecFloat.fexp, SpecFloat.emin, PyFloat.prec, PyFloat.emax. lia. Qed.

(** The number of binary digits. *)
Lemma digits2_pos_bounds (p : positive) :
  2 ^ (Z.pos (digits2_pos p) - 1) <= Z.pos p < 2 ^ Z.pos (digits2_pos p).
Proof.
  induction p as [p IH|p IH|]; cbn [digits2_pos].
  - rewrite Pos2Z.inj_succ. replace (Z.succ (Z.pos (digits2_pos p)) - 1)
      with (Z.succ (Z.pos (digits2_pos p) - 1)) by lia.
    rewrite !Z.pow_succ_r by lia. lia.
  - rewrite Pos2Z.inj_succ. replace (Z.succ (Z.pos (digits2_pos p)) - 1)
      with (Z.succ (Z.pos (digits2_pos p) - 1)) by lia.
    rewrite !Z.pow_succ_r by lia. lia.
  - simpl. lia.
Qed.

Lemma digits2_pos_unique (p : positive) (d : Z) :
  2 ^ (d - 1) <= Z.pos p < 2 ^ d -> Z.pos (digits2_pos p) = d.
Proof.
  intros [Hlo Hhi]. pose proof (digits2_pos_bounds p) as [Hlo' Hhi'].
  set (d' := Z.pos (digits2_pos p)) in *.
  assert (Hd : 0 < d).
  { destruct (Z_lt_le_dec 0 d) as [|Hle]; [assumption|]. exfalso.
    destruct (Z.eq_dec d 0) as [->|Hne]; [simpl in Hhi; lia|].
    rewrite (Z.pow_neg_r 2 d) in Hhi by lia. lia. }
  destruct (Z.lt_trichotomy d' d) as [Hlt|[Heq|Hgt]]; [|exact Heq|].
  - assert (2 ^ d' <= 2 ^ (d - 1)) by (apply Z.pow_le_mono_r; lia). lia.
  - assert (2 ^ d <= 2 ^ (d' - 1)) by (apply Z.pow_le_mono_r; lia). lia.
Qed.

Lemma shr_1_located (N M : Z) (mrs : shr_record) :
  0 < M -> located N M mrs -> located N (2 * M) (shr_1 mrs).
Proof.
  intros HM (Hm & Hrho & Hr & Hs). destruct mrs as [m r s]. cbn [shr_m shr_r shr_s] in *.
  unfold located.
  destruct m as [|[p|p|]|p]; [| | | |lia]; cbn [shr_1 shr_m shr_r shr_s];
    destruct r, s; cbn [orb]; repeat split; intros; try discriminate; try lia;
    try (exfalso; lia).
Qed.

Lemma iter_shr_1_located (p : positive) (N M : Z) (mrs : shr_record) :
  0 < M -> located N M mrs -> located N (M * 2 ^ Z.pos p) (SpecFloat.iter_pos shr_1 p mrs).
Proof.
  revert M mrs. induction p as [p IH|p IH|]; intros M mrs HM Hloc; cbn [SpecFloat.iter_pos].
  - replace (M * 2 ^ Z.pos p~1) with (2 * M * 2 ^ Z.pos p * 2 ^ Z.pos p).
    + assert (0 < 2 ^ Z.pos p) by (apply Z.pow_pos_nonneg; lia).
      apply IH; [nia|]. apply IH; [lia|]. by apply shr_1_located.
    + assert (E : 2 ^ Z.pos p~1 = 2 * (2 ^ Z.pos p * 2 ^ Z.pos p)).
      { rewrite <- Z.pow_add_r, <- Z.pow_succ_r by lia. f_equal. lia. }
      rewrite E. ring.
  - replace (M * 2 ^ Z.pos p~0) with (M * 2 ^ Z.pos p * 2 ^ Z.pos p).
    + assert (0 < 2 ^ Z.pos p) by (apply Z.pow_pos_nonneg; lia).
      apply IH; [nia|]. by apply IH.
    + assert (E : 2 ^ Z.pos p~0 = 2 ^ Z.pos p * 2 ^ Z.pos p).
      { rewrite <- Z.pow_add_r by lia. f_equal. lia. }
      rewrite E. ring.
  - replace (M * 2 ^ 1) with (2 * M) by lia. by apply shr_1_located.
Qed.

(** The location that the division hands over. *)
Lemma new_location_located (N D : Z) :
  0 <= N -> 0 < D ->
  located N D (shr_record_of_loc (N / D) (new_location D (N mod D))).
Proof.
  intros HN HD.
  pose proof (Z.div_mod N D ltac:(lia)) as Hdm.
  pose proof (Z.mod_pos_bound N D HD) as Hr.
  assert (Hq : 0 <= N / D) by (apply Z.div_pos; lia).
  assert (Hrho : N - N / D * D = N mod D) by lia.
  assert (Hm : forall l, shr_m (shr_record_of_loc (N / D) l) = N / D)
    by (intros [|[]]; reflexivity).
  unfold located. rewrite Hm, Hrho.
  split; [exact Hq|]. split; [exact Hr|].
  unfold new_location, new_location_even, new_location_odd.
  destruct (Z.even D) eqn:Heven.
  - destruct (Z.eqb_spec (N mod D) 0) as [H0|H0].
    + cbn. split; split; intros; try discriminate; lia.
    + destruct (Z.compare_spec (2 * (N mod D)) D); cbn;
        split; split; intros; try discriminate; try lia; try (exfalso; lia).
  - assert (Hodd : Z.odd D = true) by (rewrite <- Z.negb_even, Heven; reflexivity).
    apply Z.odd_spec in Hodd as [k Hk].
    destruct (Z.eqb_spec (N mod D) 0) as [H0|H0].
    + cbn. split; split; intros; try discriminate; lia.
    + destruct (Z.compare_spec (2 * (N mod D) + 1) D); cbn;
        split; split; intros; try discriminate; try lia; try (exfalso; lia).
Qed.

Lemma Zdigits2_bounds (q : Z) :
  0 < q -> 2 ^ (Zdigits2 q - 1) <= q < 2 ^ Zdigits2 q.
Proof. destruct q as [|p|p]; try lia. intros _. apply digits2_pos_bounds. Qed.

(** Shifting a quotient of at least 53 digits down to 53 digits. *)
Lemma shr_fexp_located (N D ex : Z) :
  0 < D -> 2 ^ 52 * D <= N -> -1074 <= ex ->
  exists mrs n,
    shr_fexp PyFloat.prec PyFloat.emax (N / D) ex (new_location D (N mod D))
      = (mrs, ex + n) /\
    0 <= n /\ n = Zdigits2 (N / D) - 53 /\
    located N (D * 2 ^ n) mrs /\
    2 ^ 52 <= shr_m mrs < 2 ^ 53.
Proof.
  intros HD HN Hex.
  assert (Hq : 2 ^ 52 <= N / D) by (apply Z.div_le_lower_bound; lia).
  pose proof (Zdigits2_bounds (N / D) ltac:(lia)) as [Hlo Hhi].
  set (d := Zdigits2 (N / D)) in *.
  assert (Hd : 53 <= d).
  { destruct (Z_lt_le_dec d 53) as [Hlt|]; [|assumption]. exfalso.
    assert (2 ^ d <= 2 ^ 52) by (apply Z.pow_le_mono_r; lia). lia. }
  pose proof (new_location_located N D ltac:(lia) HD) as Hloc.
  unfold shr_fexp. fold d. rewrite fexp_normal by lia.
  replace (d + ex - 53 - ex) with (d - 53) by lia.
  destruct (Z.eq_dec d 53) as [E|E].
  - rewrite E. cbn [Z.sub Z.add Z.opp Z.pos_sub Pos.pred_double shr].
    eexists _, 0. split; [rewrite Z.add_0_r; reflexivity|].
    split; [lia|]. split; [lia|]. rewrite Z.mul_1_r. split; [exact Hloc|].
    destruct Hloc as (_ & _ & _). 
    assert (Hm : forall l, shr_m (shr_record_of_loc (N / D) l) = N / D)
      by (intros [|[]]; reflexivity).
    rewrite Hm. rewrite E in Hhi. lia.
  - destruct (d - 53) as [|p|p] eqn:Hn; [lia| |lia].
    cbn [shr]. eexists _, (Z.pos p). split; [reflexivity|].
    split; [lia|]. split; [reflexivity|].
    pose proof (iter_shr_1_located p N D _ HD Hloc) as Hit.
    split; [exact Hit|].
    destruct Hit as (Hm0 & Hrho & _).
    set (m := shr_m (SpecFloat.iter_pos shr_1 p (shr_record_of_loc (N / D) (new_location D (N mod D))))) in *.
    assert (Hp : 0 < 2 ^ Z.pos p) by (apply Z.pow_pos_nonneg; lia).
    assert (Hpow : 2 ^ d = 2 ^ 53 * 2 ^ Z.pos p).
    { rewrite <- Z.pow_add_r by lia. f_equal. lia. }
    assert (Hpow' : 2 ^ (d - 1) = 2 ^ 52 * 2 ^ Z.pos p).
    { rewrite <- Z.pow_add_r by lia. f_equal. lia. }
    (* m = N / (D * 2^p) and N / D in [2^(d-1), 2^d) *)
    assert (HND : N / D * D <= N < (N / D + 1) * D).
    { pose proof (Z.div_mod N D ltac:(lia)). pose proof (Z.mod_pos_bound N D HD). lia. }
    split.
    + (* 2^52 <= m *)
      destruct (Z_lt_le_dec m (2 ^ 52)) as [Hlt|]; [|assumption]. exfalso.
      assert (m + 1 <= 2 ^ 52) by lia.
      assert (N < 2 ^ 52 * (D * 2 ^ Z.pos p)) by nia.
      assert (2 ^ (d - 1) * D <= N) by nia.
      rewrite Hpow' in *. nia.
    + destruct (Z_lt_le_dec m (2 ^ 53)) as [|Hge]; [assumption|]. exfalso.
      assert (2 ^ 53 * (D * 2 ^ Z.pos p) <= N) by nia.
      assert (N < 2 ^ d * D) by nia.
      rewrite Hpow in *. nia.
Qed.

(** Rounding to nearest, ties to even, moves by at most half a unit. *)
Lemma round_nearest_even_located (N M : Z) (mrs : shr_record) :
  0 < M -> located N M mrs ->
  let m1 := round_nearest_even (shr_m mrs) (loc_of_shr_record mrs) in
  shr_m mrs <= m1 <= shr_m mrs + 1 /\ 2 * Z.abs (m1 * M - N) <= M.
Proof.
  intros HM (Hm & Hrho & Hr & Hs). destruct mrs as [m r s].
  cbn [shr_m shr_r shr_s] in *. cbv zeta.
  destruct r, s; cbn [loc_of_shr_record round_nearest_even].
  - assert (M <= 2 * (N - m * M)) by (apply Hr; reflexivity). lia.
  - assert (M <= 2 * (N - m * M)) by (apply Hr; reflexivity).
    assert (~ (N - m * M <> 0 /\ 2 * (N - m * M) <> M)) by (intros X; apply Hs in X; discriminate).
    destruct (Z.even m); lia.
  - assert (~ M <= 2 * (N - m * M)) by (intros X; apply Hr in X; discriminate). lia.
  - assert (~ M <= 2 * (N - m * M)) by (intros X; apply Hr in X; discriminate). lia.
Qed.

(** A mantissa of 53 digits, or the carry [2^53], is put in place without
    loss. *)
Lemma shr_fexp_exact (m e : Z) :
  2 ^ 52 <= m <= 2 ^ 53 -> -1074 <= e ->
  exists mrs t,
    shr_fexp PyFloat.prec PyFloat.emax m e loc_Exact = (mrs, e + t) /\
    0 <= t <= 1 /\ m = shr_m mrs * 2 ^ t /\ 2 ^ 52 <= shr_m mrs < 2 ^ 53.
Proof.
  intros Hm He. destruct (Z.eq_dec m (2 ^ 53)) as [->|Hne].
  - unfold shr_fexp. change (Zdigits2 (2 ^ 53)) with 54.
    rewrite fexp_normal by lia.
    replace (54 + e - 53 - e) with 1 by lia.
    exists (Build_shr_record (2 ^ 52) false false), 1.
    split; [reflexivity|]. cbn [shr_m]. lia.
  - destruct m as [|p|p]; try lia.
    assert (Hd : Zdigits2 (Z.pos p) = 53).
    { cbn [Zdigits2]. apply digits2_pos_unique. lia. }
    unfold shr_fexp. rewrite Hd, fexp_normal by lia.
    replace (53 + e - 53 - e) with 0 by lia. cbn [shr].
    eexists _, 0. split; [rewrite Z.add_0_r; reflexivity|]. cbn [shr_m shr_record_of_loc]. lia.
Qed.

(** Rounding a quotient [N / D] of at least 53 digits, scaled by [2^ex],
    to a double: the result is a normal number [m * 2^(ex + t)] within
    half a unit in the last place of the exact value. *)
Lemma binary_round_aux_spec (N D ex : Z) :
  0 < D -> 2 ^ 52 * D <= N -> -1074 <= ex ->
  ex + Zdigits2 (N / D) <= 1023 ->
  exists (m : positive) (t : Z),
    binary_round_aux PyFloat.prec PyFloat.emax false (N / D) ex (new_location D (N mod D))
      = S754_finite false m (ex + t) /\
    0 <= t /\
    2 ^ 52 <= Z.pos m < 2 ^ 53 /\
    2 * Z.abs (Z.pos m * (D * 2 ^ t) - N) <= D * 2 ^ t.
Proof.
  intros HD HN Hex Hov.
  destruct (shr_fexp_located N D ex HD HN Hex) as (mrs & n & Hshr & Hn & Hnd & Hloc & Hm).
  assert (Hpn : 0 < 2 ^ n) by (apply Z.pow_pos_nonneg; lia).
  assert (HM : 0 < D * 2 ^ n) by nia.
  pose proof (round_nearest_even_located N (D * 2 ^ n) mrs HM Hloc) as [Hm1 Hnear].
  cbv zeta in Hm1, Hnear.
  set (m1 := round_nearest_even (shr_m mrs) (loc_of_shr_record mrs)) in *.
  destruct (shr_fexp_exact m1 (ex + n) ltac:(lia) ltac:(lia)) as (mrs2 & t & Hshr2 & Ht & Hm1eq & Hm2).
  unfold binary_round_aux. rewrite Hshr. fold m1. rewrite Hshr2.
  destruct (shr_m mrs2) as [|m|m] eqn:Em; [lia| |lia].
  assert (Hle : (ex + n + t <=? PyFloat.emax - PyFloat.prec) = true).
  { apply Z.leb_le. unfold PyFloat.emax, PyFloat.prec. lia. }
  rewrite Hle. exists m, (n + t).
  split; [f_equal; lia|]. split; [lia|]. split; [exact Hm2|].
  rewrite Z.pow_add_r by lia.
  replace (Z.pos m * (D * (2 ^ n * 2 ^ t))) with (m1 * (D * 2 ^ n)) by (rewrite Hm1eq; ring).
  assert (0 < 2 ^ t) by (apply Z.pow_pos_nonneg; lia).
  assert (D * 2 ^ n <= D * (2 ^ n * 2 ^ t)) by nia.
  lia.
Qed.

Lemma binary_round_aux_exact (m : positive) (e : Z) :
  2 ^ 52 <= Z.pos m < 2 ^ 53 -> -1074 <= e <= 971 ->
  binary_round_aux PyFloat.prec PyFloat.emax false (Z.pos m) e loc_Exact
    = S754_finite false m e.
Proof.
  intros Hm He.
  assert (Hd : Zdigits2 (Z.pos m) = 53) by (cbn [Zdigits2]; apply digits2_pos_unique; lia).
  assert (Hshr : forall x, 2 ^ 52 <= Z.pos x < 2 ^ 53 ->
            shr_fexp PyFloat.prec PyFloat.emax (Z.pos x) e loc_Exact
            = (Build_shr_record (Z.pos x) false false, e)).
  { intros x Hx. unfold shr_fexp.
    replace (Zdigits2 (Z.pos x)) with 53
      by (symmetry; cbn [Zdigits2]; apply digits2_pos_unique; lia).
    rewrite fexp_normal by lia. replace (53 + e - 53 - e) with 0 by lia. reflexivity. }
  unfold binary_round_aux. rewrite (Hshr m Hm).
  cbn [shr_m loc_of_shr_record round_nearest_even]. rewrite (Hshr m Hm). cbn [shr_m].
  replace (e <=? PyFloat.emax - PyFloat.prec) with true; [reflexivity|].
  symmetry. apply Z.leb_le. unfold PyFloat.emax, PyFloat.prec. lia.
Qed.

Lemma iter_xO (d p : positive) : Z.pos (Pos.iter xO p d) = Z.pos p * 2 ^ Z.pos d.
Proof.
  induction d as [|d IH] using Pos.peano_ind.
  - cbn [Pos.iter]. lia.
  - rewrite Pos.iter_succ, Pos2Z.inj_xO, IH, Pos2Z.inj_succ, Z.pow_succ_r by lia. ring.
Qed.

(** Conversion of a positive integer below [2^53] is exact and yields a
    normal number. *)
Lemma of_int_spec (a : Z) :
  0 < a < 2 ^ 53 ->
  exists (m : positive) (e : Z),
    PyFloat.of_int a = S754_finite false m e /\
    2 ^ 52 <= Z.pos m < 2 ^ 53 /\ -52 <= e <= 0 /\ Z.pos m = a * 2 ^ (- e).
Proof.
  intros Ha. destruct a as [|p|p]; try lia.
  pose proof (digits2_pos_bounds p) as [Hlo Hhi].
  set (d := Z.pos (digits2_pos p)) in *.
  assert (Hd1 : 1 <= d) by (subst d; lia).
  assert (Hd : d <= 53).
  { destruct (Z_le_gt_dec d 53); [assumption|]. exfalso.
    assert (2 ^ 53 <= 2 ^ (d - 1)) by (apply Z.pow_le_mono_r; lia). lia. }
  unfold PyFloat.of_int, binary_normalize, binary_round. fold d.
  rewrite Z.add_0_r, fexp_normal by lia.
  unfold shl_align. rewrite Z.sub_0_r.
  destruct (d - 53) as [|k|k] eqn:Hk; [| lia |].
  - (* already 53 digits *)
    assert (d = 53) by lia.
    assert (Hp : 2 ^ 52 <= Z.pos p < 2 ^ 53) by (rewrite H in Hlo, Hhi; lia).
    rewrite binary_round_aux_exact by (try exact Hp; lia).
    exists p, 0. split; [reflexivity|]. split; [exact Hp|]. cbn. lia.
  - assert (Hpow : 2 ^ 53 = 2 ^ d * 2 ^ Z.pos k).
    { rewrite <- Z.pow_add_r by lia. f_equal. lia. }
    assert (Hpow' : 2 ^ 52 = 2 ^ (d - 1) * 2 ^ Z.pos k).
    { rewrite <- Z.pow_add_r by lia. f_equal. lia. }
    assert (Hk0 : 0 < 2 ^ Z.pos k) by (apply Z.pow_pos_nonneg; lia).
    assert (Hm : 2 ^ 52 <= Z.pos (Pos.iter xO p k) < 2 ^ 53).
    { rewrite iter_xO, Hpow, Hpow'. nia. }
    rewrite binary_round_aux_exact by (try exact Hm; lia).
    exists (Pos.iter xO p k), (Z.neg k). split; [reflexivity|].
    split; [exact Hm|]. split; [lia|]. rewrite iter_xO. reflexivity.
Qed.

Lemma Zdigits2_le (q k : Z) : 0 < q < 2 ^ k -> Zdigits2 q <= k.
Proof.
  intros [Hq Hk]. pose proof (Zdigits2_bounds q Hq) as [Hlo _].
  destruct (Z_le_gt_dec (Zdigits2 q) k) as [|Hgt]; [assumption|]. exfalso.
  assert (2 ^ k <= 2 ^ (Zdigits2 q - 1)) by (apply Z.pow_le_mono_r; lia). lia.
Qed.

Lemma div_eucl_eq (N D : Z) : Z.div_eucl N D = (N / D, N mod D).
Proof. unfold Z.div, Z.modulo. destruct (Z.div_eucl N D). reflexivity. Qed.

(** The quotient of two normal numbers. *)
Lemma div_normal (mx my : positive) (ex ey : Z) :
  2 ^ 52 <= Z.pos mx < 2 ^ 53 -> 2 ^ 52 <= Z.pos my < 2 ^ 53 ->
  -900 <= ex - ey <= 900 ->
  exists (m : positive) (t : Z),
    PyFloat.div (S754_finite false mx ex) (S754_finite false my ey)
      = S754_finite false m (ex - ey - 53 + t) /\
    0 <= t /\
    2 ^ 52 <= Z.pos m < 2 ^ 53 /\
    2 * Z.abs (Z.pos m * (Z.pos my * 2 ^ t) - Z.pos mx * 2 ^ 53) <= Z.pos my * 2 ^ t.
Proof.
  intros Hx Hy He.
  assert (Hdx : Z.pos (digits2_pos mx) = 53) by (apply digits2_pos_unique; lia).
  assert (Hdy : Z.pos (digits2_pos my) = 53) by (apply digits2_pos_unique; lia).
  set (N := Z.pos mx * 2 ^ 53).
  assert (HN : 2 ^ 52 * Z.pos my <= N) by (unfold N; nia).
  assert (Hq : 0 < N / Z.pos my < 2 ^ 54).
  { split.
    - apply Z.div_str_pos. unfold N. nia.
    - apply Z.div_lt_upper_bound; [lia|]. unfold N. nia. }
  destruct (binary_round_aux_spec N (Z.pos my) (ex - ey - 53) ltac:(lia) HN ltac:(lia))
    as (m & t & Hr & Ht & Hm & Hnear).
  { pose proof (Zdigits2_le _ 54 Hq). lia. }
  exists m, t. split; [|auto].
  unfold PyFloat.div, SFdiv, SFdiv_core_binary. cbn [Zdigits2 xorb].
  rewrite Hdx, Hdy, fexp_normal by lia.
  replace (Z.min (53 + ex - (53 + ey) - 53) (ex - ey)) with (ex - ey - 53) by lia.
  replace (ex - ey - (ex - ey - 53)) with 53 by lia.
  rewrite Z.shiftl_mul_pow2 by lia. fold N.
  rewrite div_eucl_eq. exact Hr.
Qed.

(** The quotient of two positive integers, the first not above the second:
    a normal number at most one, within half a unit in the last place of
    the exact quotient. *)
Lemma truediv_spec (a b : Z) :
  0 < a -> a <= b -> b < 2 ^ 53 ->
  exists (m : positive) (e : Z),
    PyFloat.truediv a b = S754_finite false m e /\
    2 ^ 52 <= Z.pos m < 2 ^ 53 /\
    -105 <= e <= -52 /\
    2 * Z.abs (Z.pos m * b - a * 2 ^ (- e)) <= b.
Proof.
  intros Ha Hab Hb.
  destruct (of_int_spec a ltac:(lia)) as (ma & ea & Hfa & Hma & Hea & Ema).
  destruct (of_int_spec b ltac:(lia)) as (mb & eb & Hfb & Hmb & Heb & Emb).
  destruct (div_normal ma mb ea eb Hma Hmb ltac:(lia)) as (m & t & Hdiv & Ht & Hm & Hnear).
  unfold PyFloat.truediv. rewrite Hfa, Hfb, Hdiv.
  (* the exponents are ordered as the integers are *)
  set (A := 2 ^ (- ea)) in *. set (B := 2 ^ (- eb)) in *.
  assert (HA : 0 < A) by (apply Z.pow_pos_nonneg; lia).
  assert (HB : 0 < B) by (apply Z.pow_pos_nonneg; lia).
  assert (Hee : ea <= eb).
  { destruct (Z_le_gt_dec ea eb) as [|Hgt]; [assumption|]. exfalso.
    assert (2 * A <= B).
    { unfold A, B. replace (- eb) with (1 + (- ea + (ea - eb - 1))) by lia.
      rewrite (Z.pow_add_r 2 1), (Z.pow_add_r 2 (- ea)) by lia.
      assert (0 < 2 ^ (ea - eb - 1)) by (apply Z.pow_pos_nonneg; lia).
      assert (2 ^ (- ea) * 1 <= 2 ^ (- ea) * 2 ^ (ea - eb - 1))
        by (apply Z.mul_le_mono_nonneg_l; lia).
      lia. }
    assert (b * (2 * A) <= b * B) by (apply Z.mul_le_mono_nonneg_l; lia).
    assert (a * (2 * A) <= b * (2 * A)) by (apply Z.mul_le_mono_nonneg_r; lia).
    lia. }
  set (u := eb - ea).
  set (U := 2 ^ u). set (T := 2 ^ t) in *.
  assert (Hu : A = B * U).
  { unfold A, B, U. rewrite <- Z.pow_add_r by lia. f_equal. lia. }
  assert (HU : 0 < U) by (apply Z.pow_pos_nonneg; lia).
  assert (HT : 0 < T) by (apply Z.pow_pos_nonneg; lia).
  assert (Hmab : Z.pos ma <= Z.pos mb * U).
  { assert (a * (B * U) <= b * (B * U)).
    { apply Z.mul_le_mono_nonneg_r; [apply Z.mul_nonneg_nonneg|]; lia. }
    rewrite Ema, Emb, Hu. lia. }
  (* the result does not exceed one *)
  assert (Htu : t <= u + 1).
  { destruct (Z_le_gt_dec t (u + 1)) as [|Hgt]; [assumption|]. exfalso.
    assert (4 * U <= T).
    { unfold T, U. replace t with (2 + (u + (t - u - 2))) by lia.
      rewrite (Z.pow_add_r 2 2), (Z.pow_add_r 2 u) by lia.
      assert (0 < 2 ^ (t - u - 2)) by (apply Z.pow_pos_nonneg; lia).
      assert (2 ^ u * 1 <= 2 ^ u * 2 ^ (t - u - 2))
        by (apply Z.mul_le_mono_nonneg_l; lia).
      lia. }
    assert (0 < Z.pos mb * U) by (apply Z.mul_pos_pos; lia).
    assert (Z.pos mb * (4 * U) <= Z.pos mb * T) by (apply Z.mul_le_mono_nonneg_l; lia).
    assert ((2 ^ 53 - 1) * (Z.pos mb * (4 * U)) <= (2 * Z.pos m - 1) * (Z.pos mb * T))
      by (apply Z.mul_le_mono_nonneg; lia).
    lia. }
  exists m, (ea - eb - 53 + t). split; [reflexivity|]. split; [exact Hm|].
  split; [lia|].
  (* cancel the common power of two *)
  set (K := 2 ^ (t - eb)).
  assert (HK : 0 < K) by (apply Z.pow_pos_nonneg; lia).
  assert (E1 : Z.pos mb * T = b * K).
  { rewrite Emb. unfold K, B, T. replace (t - eb) with (- eb + t) by lia.
    rewrite Z.pow_add_r by lia. ring. }
  assert (E2 : Z.pos ma * 2 ^ 53 = a * 2 ^ (- (ea - eb - 53 + t)) * K).
  { rewrite Ema. unfold K, A. rewrite <- !Z.mul_assoc, <- !Z.pow_add_r by lia.
    f_equal. f_equal. lia. }
  rewrite E1, E2 in Hnear.
  replace (Z.pos m * (b * K) - a * 2 ^ (- (ea - eb - 53 + t)) * K)
    with ((Z.pos m * b - a * 2 ^ (- (ea - eb - 53 + t))) * K) in Hnear by ring.
  rewrite Z.abs_mul, (Z.abs_eq K) in Hnear by lia.
  remember (Z.abs (Z.pos m * b - a * 2 ^ (- (ea - eb - 53 + t)))) as Y.
  apply (Z.mul_le_mono_pos_r _ _ K HK). lia.
Qed.



(** Multiplication of a normal number by the double [100.0]. *)
Lemma of_int_100 : PyFloat.of_int 100 = S754_finite false 7036874417766400 (-46).
Proof. vm_compute. reflexivity. Qed.

Lemma mul_100_spec (m1 : positive) (e1 : Z) :
  2 ^ 52 <= Z.pos m1 < 2 ^ 53 -> -1000 <= e1 <= 900 ->
  exists (m2 : positive) (t : Z),
    PyFloat.mul (S754_finite false m1 e1) (PyFloat.of_int 100)
      = S754_finite false m2 (e1 - 46 + t) /\
    0 <= t /\
    2 ^ 52 <= Z.pos m2 < 2 ^ 53 /\
    2 * Z.abs (Z.pos m2 * 2 ^ t - Z.pos m1 * (100 * 2 ^ 46)) <= 2 ^ t.
Proof.
  intros Hm He. rewrite of_int_100.
  set (N := Z.pos (m1 * 7036874417766400)).
  assert (HN : N = Z.pos m1 * (100 * 2 ^ 46)) by (unfold N; lia).
  assert (Hd : Zdigits2 N <= 106) by (apply Zdigits2_le; lia).
  destruct (binary_round_aux_spec N 1 (e1 + -46) ltac:(lia) ltac:(lia) ltac:(lia))
    as (m2 & t & Hr & Ht & Hm2 & Hnear).
  { rewrite Z.div_1_r. lia. }
  rewrite Z.div_1_r, Z.mod_1_r in Hr. change (new_location 1 0) with loc_Exact in Hr.
  exists m2, t. split.
  - unfold PyFloat.mul, SFmul. cbn [xorb]. fold N. rewrite Hr. f_equal; lia.
  - split; [exact Ht|]. split; [exact Hm2|]. rewrite <- HN. lia.
Qed.

Lemma to_int_negative_exponent (m : positive) (e : Z) :
  e < 0 -> PyFloat.to_int (S754_finite false m e) = Z.pos m / 2 ^ (- e).
Proof. intros He. destruct e as [|p|p]; try lia. reflexivity. Qed.

(** The percentage of the matcher, [int((a / b) * 100)], against the exact
    quotient: the truncation of [100 * a / b], or one less when [b]
    divides [100 * a]. *)
Lemma overlap_percent_spec (a b : Z) :
  0 <= a <= b -> 0 < b < 2 ^ 45 ->
  100 * a / b - 1 <= overlap_percent a b <= 100 * a / b /\
  ((100 * a) mod b <> 0 -> overlap_percent a b = 100 * a / b) /\
  0 <= overlap_percent a b <= 100.
Proof.
  intros Hab Hb. unfold overlap_percent.
  destruct (Z.eq_dec a 0) as [->|Ha].
  { destruct (of_int_spec b ltac:(lia)) as (mb & eb & Hfb & _).
    unfold PyFloat.truediv. rewrite Hfb, of_int_100.
    change (PyFloat.to_int _) with 0.
    change (100 * 0) with 0. rewrite Z.div_0_l, Z.mod_0_l by lia.
    split; [lia|]. split; [intros H; exfalso; apply H; reflexivity | lia]. }
  destruct (truediv_spec a b ltac:(lia) ltac:(lia) ltac:(lia))
    as (m1 & e1 & Hdiv & Hm1 & He1 & HA).
  destruct (mul_100_spec m1 e1 Hm1 ltac:(lia)) as (m2 & t & Hmul & Ht & Hm2 & HB).
  rewrite Hdiv, Hmul.
  set (E1 := 2 ^ (- e1)) in *. set (T := 2 ^ t) in *.
  assert (HE1 : 2 ^ 52 <= E1) by (apply Z.pow_le_mono_r; lia).
  assert (HT : 0 < T) by (apply Z.pow_pos_nonneg; lia).
  (* the quotient is at most one *)
  assert (Hm1E : Z.pos m1 <= E1).
  { destruct (Z_le_gt_dec (Z.pos m1) E1) as [|Hgt]; [assumption|]. exfalso.
    assert (a * E1 <= b * E1) by (apply Z.mul_le_mono_nonneg_r; lia).
    assert ((E1 + 1) * b <= Z.pos m1 * b) by (apply Z.mul_le_mono_nonneg_r; lia).
    lia. }
  (* so the product stays below 128 *)
  assert (Hte : t <= - e1).
  { destruct (Z_le_gt_dec t (- e1)) as [|Hgt]; [assumption|]. exfalso.
    assert (2 * E1 <= T).
    { unfold T, E1. replace t with (1 + (- e1 + (t - 1 + e1))) by lia.
      rewrite (Z.pow_add_r 2 1), (Z.pow_add_r 2 (- e1)) by lia.
      assert (0 < 2 ^ (t - 1 + e1)) by (apply Z.pow_pos_nonneg; lia).
      assert (0 < 2 ^ (- e1)) by (apply Z.pow_pos_nonneg; lia).
      assert (2 ^ (- e1) * 1 <= 2 ^ (- e1) * 2 ^ (t - 1 + e1))
        by (apply Z.mul_le_mono_nonneg_l; lia).
      lia. }
    assert ((2 ^ 53 - 1) * (2 * E1) <= (2 * Z.pos m2 - 1) * T)
      by (apply Z.mul_le_mono_nonneg; lia).
    lia. }
  assert (HTE : T <= E1) by (apply Z.pow_le_mono_r; lia).
  rewrite to_int_negative_exponent by lia.
  set (E2 := 2 ^ (- (e1 - 46 + t))).
  assert (HE2 : 0 < E2) by (apply Z.pow_pos_nonneg; lia).
  assert (HW : E2 * T = 2 ^ 46 * E1).
  { unfold E2, T, E1. rewrite <- !Z.pow_add_r by lia. f_equal. lia. }
  set (k := 100 * a / b).
  pose proof (Z.div_mod (100 * a) b ltac:(lia)) as Hdm.
  pose proof (Z.mod_pos_bound (100 * a) b ltac:(lia)) as Hr.
  fold k in Hdm. set (r := (100 * a) mod b) in *.
  assert (Hk : 0 <= k <= 100).
  { split; [apply Z.div_pos; lia|]. apply Z.div_le_upper_bound; lia. }
  (* the products that occur, each compared with one multiplication *)
  assert (F3u : 2 * (Z.pos m2 * T) * b <= (2 * (Z.pos m1 * (100 * 2 ^ 46)) + T) * b)
    by (apply Z.mul_le_mono_nonneg_r; lia).
  assert (F3l : (2 * (Z.pos m1 * (100 * 2 ^ 46)) - T) * b <= 2 * (Z.pos m2 * T) * b)
    by (apply Z.mul_le_mono_nonneg_r; lia).
  assert (F4 : b * T <= 2 ^ 45 * T) by (apply Z.mul_le_mono_nonneg_r; lia).
  assert (F4' : 0 <= b * T) by (apply Z.mul_nonneg_nonneg; lia).
  assert (F5 : 100 * a * E1 = (b * k + r) * E1) by (rewrite <- Hdm; reflexivity).
  assert (F6 : r * E1 <= (b - 1) * E1) by (apply Z.mul_le_mono_nonneg_r; lia).
  assert (F6' : 0 <= r * E1) by (apply Z.mul_nonneg_nonneg; lia).
  assert (F7 : 0 <= b * k * E1).
  { apply Z.mul_nonneg_nonneg; [apply Z.mul_nonneg_nonneg|]; lia. }
  assert (F8 : b * E1 >= E1) by (assert (1 * E1 <= b * E1) by (apply Z.mul_le_mono_nonneg_r; lia); lia).
  (* [m2 * T * b] for a candidate value [c] of the score *)
  assert (Fc : forall c, c * E2 <= Z.pos m2 -> c * (2 ^ 46 * E1) * b <= Z.pos m2 * T * b).
  { intros c Hc. rewrite <- HW.
    replace (c * (E2 * T) * b) with (c * E2 * (T * b)) by ring.
    replace (Z.pos m2 * T * b) with (Z.pos m2 * (T * b)) by ring.
    apply Z.mul_le_mono_nonneg_r; [|exact Hc]. apply Z.mul_nonneg_nonneg; lia. }
  assert (Fc' : forall c, Z.pos m2 <= c * E2 - 1 ->
                Z.pos m2 * T * b <= (c * (2 ^ 46 * E1) - T) * b).
  { intros c Hc.
    replace (c * (2 ^ 46 * E1) - T) with ((c * E2 - 1) * T) by (rewrite <- HW; ring).
    replace (Z.pos m2 * T * b) with (Z.pos m2 * (T * b)) by ring.
    replace ((c * E2 - 1) * T * b) with ((c * E2 - 1) * (T * b)) by ring.
    apply Z.mul_le_mono_nonneg_r; [|exact Hc]. apply Z.mul_nonneg_nonneg; lia. }
  assert (Hupper : Z.pos m2 < (k + 1) * E2).
  { destruct (Z_lt_le_dec (Z.pos m2) ((k + 1) * E2)) as [|Hge]; [assumption|]. exfalso.
    pose proof (Fc (k + 1) Hge). lia. }
  assert (Hlower : (k - 1) * E2 <= Z.pos m2).
  { destruct (Z_le_gt_dec ((k - 1) * E2) (Z.pos m2)) as [|Hgt]; [assumption|]. exfalso.
    pose proof (Fc' (k - 1) ltac:(lia)). lia. }
  assert (Hs1 : Z.pos m2 / E2 <= k).
  { assert (Z.pos m2 / E2 < k + 1) by (apply Z.div_lt_upper_bound; lia). lia. }
  assert (Hs2 : k - 1 <= Z.pos m2 / E2) by (apply Z.div_le_lower_bound; lia).
  split; [lia|]. split.
  - intros Hr0.
    assert (k * E2 <= Z.pos m2).
    { destruct (Z_le_gt_dec (k * E2) (Z.pos m2)) as [|Hgt]; [assumption|]. exfalso.
      assert (F6'' : 1 * E1 <= r * E1) by (apply Z.mul_le_mono_nonneg_r; lia).
      pose proof (Fc' k ltac:(lia)). lia. }
    assert (k <= Z.pos m2 / E2) by (apply Z.div_le_lower_bound; lia). lia.
  - split; [apply Z.div_pos; lia | lia].
Qed.

End FloatLemmas.

(* ===================================================================== *)
(** * Normalized text has trimmed lines *)
(* ===================================================================== *)

Lemma is_nl_space (c : char) : is_nl c = true -> Py.isspace c = true.
Proof. unfold is_nl. intros H%char_eqb_eq. subst c. reflexivity. Qed.

Lemma has_newline_cons (c : char) (s : string) :
  Re.has_newline (String c s) = is_nl c || Re.has_newline s.
Proof.
  unfold Re.has_newline, is_nl. cbn [Py.contains Py.startswith].
  rewrite (char_eqb_sym c). destruct (Char.eqb "010" c); reflexivity.
Qed.

Lemma has_newline_no_nl (s : string) : Re.has_newline s = negb (no_nl s).
Proof.
  induction s as [|c s IH]; [reflexivity|].
  rewrite has_newline_cons, IH. cbn [no_nl]. destruct (is_nl c), (no_nl s); reflexivity.
Qed.

Lemma head_ok_not_nl (s : string) : head_ok s = true -> starts_nl s = false.
Proof.
  destruct s as [|c s]; [reflexivity|]. cbn. intros H.
  destruct (is_nl c) eqn:E; [|reflexivity].
  apply is_nl_space in E. rewrite E in H. discriminate H.
Qed.

(** A run of white space without newline, put before a tidy text that does
    not start with white space. *)
Lemma tidy_run_app (run out : string) :
  all_space run = true -> no_nl run = true ->
  tidy out = true -> head_ok out = true ->
  tidy (run +:+ out) = true.
Proof.
  intros Hsp Hnl Ht Hh. induction run as [|c run IH]; [exact Ht|].
  cbn [all_space no_nl] in Hsp, Hnl.
  apply andb_true_iff in Hsp as [Hc Hsp]. apply andb_true_iff in Hnl as [Hn Hnl].
  change (String c run +:+ out) with (String c (run +:+ out)).
  cbn [tidy]. apply negb_true_iff in Hn. rewrite Hn, Hc, (IH Hsp Hnl), andb_true_r.
  apply negb_true_iff.
  destruct run as [|d run]; [by apply head_ok_not_nl|].
  cbn [no_nl] in Hnl. apply andb_true_iff in Hnl as [Hd _].
  apply negb_true_iff in Hd. exact Hd.
Qed.

Lemma tidy_flush_app (run out : string) :
  all_space run = true -> tidy out = true -> head_ok out = true ->
  tidy (Re.flush NL run +:+ out) = true.
Proof.
  intros Hsp Ht Hh. unfold Re.flush. rewrite has_newline_no_nl.
  destruct (no_nl run) eqn:Hnl; cbn [negb].
  - by apply tidy_run_app.
  - change (NL +:+ out) with (String "010" out). cbn [tidy].
    change (is_nl "010") with true. cbn match. rewrite Hh, Ht. reflexivity.
Qed.

Lemma sub_newlines_go_spec (s : string) :
  all_space (Re.sub_newlines_go NL s).1 = true /\
  tidy (Re.sub_newlines_go NL s).2 = true /\
  head_ok (Re.sub_newlines_go NL s).2 = true.
Proof.
  induction s as [|c s (Hsp & Ht & Hh)]; [by repeat split|].
  cbn [Re.sub_newlines_go].
  destruct (Re.sub_newlines_go NL s) as [run out]. cbn [fst snd] in *.
  destruct (Py.isspace c) eqn:Hc; cbn [fst snd].
  - cbn [all_space]. rewrite Hc, Hsp. by repeat split.
  - split; [reflexivity|].
    pose proof (tidy_flush_app run out Hsp Ht Hh) as Htf.
    cbn [tidy head_ok]. rewrite Hc, Htf.
    assert (Hn : is_nl c = false).
    { destruct (is_nl c) eqn:E; [|reflexivity]. apply is_nl_space in E. congruence. }
    rewrite Hn. by repeat split.
Qed.

Lemma sub_newlines_tidy (s : string) : tidy (Re.sub_newlines NL s) = true.
Proof.
  unfold Re.sub_newlines. pose proof (sub_newlines_go_spec s) as (Hsp & Ht & Hh).
  destruct (Re.sub_newlines_go NL s) as [run out]. cbn [fst snd] in *.
  by apply tidy_flush_app.
Qed.

(** *** Stripping *)

Lemma lstrip_tidy (s : string) : tidy s = true -> tidy (Py.lstrip s) = true.
Proof.
  induction s as [|c s IH]; [reflexivity|]. intros Ht. cbn [Py.lstrip].
  destruct (Py.isspace c); [|exact Ht].
  apply IH. cbn [tidy] in Ht. by apply andb_true_iff in Ht as [_ Ht].
Qed.

Lemma lstrip_head_ok (s : string) : head_ok (Py.lstrip s) = true.
Proof.
  induction s as [|c s IH]; [reflexivity|]. cbn [Py.lstrip].
  destruct (Py.isspace c) eqn:E; [exact IH|]. cbn. by rewrite E.
Qed.

Lemma rstrip_cons (c : char) (s : string) :
  Py.rstrip (String c s) = EmptyString \/
  exists r, Py.rstrip (String c s) = String c r /\
            (r = EmptyString \/ r = Py.rstrip s /\ r <> EmptyString).
Proof.
  cbn [Py.rstrip]. destruct (Py.rstrip s) as [|d r] eqn:E.
  - destruct (Py.isspace c); [by left|]. right. exists EmptyString. by split; [|left].
  - right. exists (String d r). split; [reflexivity|]. right. by split.
Qed.

Lemma rstrip_head (s : string) (d : char) (r : string) :
  Py.rstrip s = String d r -> exists t, s = String d t.
Proof.
  destruct s as [|c s]; [discriminate|]. intros H.
  destruct (rstrip_cons c s) as [E|(r' & E & _)]; rewrite E in H; [discriminate|].
  injection H as -> _. by exists s.
Qed.

Lemma rstrip_head_ok (s : string) : head_ok s = true -> head_ok (Py.rstrip s) = true.
Proof.
  destruct (Py.rstrip s) as [|d r] eqn:E; [reflexivity|].
  apply rstrip_head in E as [t ->]. trivial.
Qed.

Lemma rstrip_starts_nl (s : string) :
  starts_nl (Py.rstrip s) = true -> starts_nl s = true.
Proof.
  destruct (Py.rstrip s) as [|d r] eqn:E; [discriminate|].
  apply rstrip_head in E as [t ->]. trivial.
Qed.

Lemma rstrip_tidy (s : string) : tidy s = true -> tidy (Py.rstrip s) = true.
Proof.
  induction s as [|c s IH]; [reflexivity|]. intros Ht.
  cbn [tidy] in Ht. apply andb_true_iff in Ht as [Hc Ht]. specialize (IH Ht).
  destruct (rstrip_cons c s) as [E|(r & E & [->|[-> Hne]])]; rewrite E; [reflexivity| |].
  - (* a single character is left: it is not white space *)
    cbn [Py.rstrip] in E. destruct (Py.rstrip s); [|by injection E].
    destruct (Py.isspace c) eqn:Hsp; [discriminate|].
    cbn [tidy head_ok starts_nl]. rewrite Hsp. by destruct (is_nl c).
  - cbn [tidy]. rewrite IH, andb_true_r.
    destruct (is_nl c).
    + destruct (Py.rstrip s) as [|d r] eqn:Er; [reflexivity|].
      apply rstrip_head in Er as [t ->]. exact Hc.
    + destruct (Py.isspace c); [|reflexivity].
      apply negb_true_iff. apply negb_true_iff in Hc.
      destruct (starts_nl (Py.rstrip s)) eqn:Es; [|reflexivity].
      apply rstrip_starts_nl in Es. congruence.
Qed.

Lemma rstrip_last_ok (s : string) : last_ok (Py.rstrip s) = true.
Proof.
  induction s as [|c s IH]; [reflexivity|].
  cbn [Py.rstrip]. destruct (Py.rstrip s) as [|d r].
  - destruct (Py.isspace c) eqn:E; [reflexivity|]. cbn. by rewrite E.
  - exact IH.
Qed.

Lemma lstrip_id (s : string) : head_ok s = true -> Py.lstrip s = s.
Proof.
  destruct s as [|c s]; [reflexivity|]. cbn. intros H.
  apply negb_true_iff in H. by rewrite H.
Qed.

Lemma rstrip_id (s : string) : last_ok s = true -> Py.rstrip s = s.
Proof.
  induction s as [|c s IH]; [reflexivity|]. intros H.
  cbn [Py.rstrip]. destruct s as [|d s].
  - cbn in *. apply negb_true_iff in H. by rewrite H.
  - rewrite IH by exact H. reflexivity.
Qed.

Lemma strip_id (s : string) : head_ok s = true -> last_ok s = true -> Py.strip s = s.
Proof. intros Hh Hl. unfold Py.strip. rewrite lstrip_id by exact Hh. by apply rstrip_id. Qed.

Lemma strip_spec (s : string) :
  tidy s = true ->
  tidy (Py.strip s) = true /\ head_ok (Py.strip s) = true /\ last_ok (Py.strip s) = true.
Proof.
  intros Ht. unfold Py.strip. split; [|split].
  - by apply rstrip_tidy, lstrip_tidy.
  - apply rstrip_head_ok, lstrip_head_ok.
  - apply rstrip_last_ok.
Qed.

Lemma good_line_trimmed (l : string) : good_line l -> Py.strip l = l.
Proof. intros (_ & _ & Hh & Hl). by apply strip_id. Qed.

Lemma last_ok_cons (c : char) (s : string) :
  s <> EmptyString -> last_ok (String c s) = last_ok s.
Proof. destruct s; [congruence | reflexivity]. Qed.

Lemma split_lines_good (s : string) :
  tidy s = true -> last_ok s = true -> s <> EmptyString ->
  exists w ws,
    Py.split_on "010" s = w :: ws /\
    Forall good_line ws /\
    no_nl w = true /\ last_ok w = true /\
    (w = EmptyString -> starts_nl s = true) /\
    (w <> EmptyString -> head_ok w = head_ok s).
Proof.
  induction s as [|c s IH]; [congruence|]. intros Ht Hl _.
  cbn [tidy] in Ht. apply andb_true_iff in Ht as [Hc Ht].
  cbn [Py.split_on]. change (Char.eqb c "010") with (is_nl c).
  destruct s as [|d s'].
  { (* the last character *)
    cbn [last_ok] in Hl. apply negb_true_iff in Hl.
    assert (Hn : is_nl c = false).
    { destruct (is_nl c) eqn:E; [|reflexivity]. apply is_nl_space in E. congruence. }
    rewrite Hn. cbn [Py.split_on].
    exists (String c EmptyString), []. split; [reflexivity|]. split; [constructor|].
    cbn [no_nl last_ok head_ok]. rewrite Hn, Hl. by repeat split. }
  rewrite last_ok_cons in Hl by discriminate.
  destruct (IH Ht Hl ltac:(discriminate)) as (w & ws & Hs & Hws & Hnw & Hlw & Hew & Hhw).
  rewrite Hs. destruct (is_nl c) eqn:Hn.
  - (* a newline: an empty field, and the next line starts here *)
    exists EmptyString, (w :: ws). split; [reflexivity|].
    assert (Hd : starts_nl (String d s') = false) by (by apply head_ok_not_nl).
    assert (Hwne : w <> EmptyString) by (intros E; apply Hew in E; congruence).
    split.
    { constructor; [|exact Hws]. split; [exact Hwne|]. split; [exact Hnw|].
      split; [|exact Hlw]. rewrite (Hhw Hwne). exact Hc. }
    cbn [starts_nl no_nl last_ok]. rewrite Hn. by repeat split.
  - exists (String c w), ws. split; [reflexivity|]. split; [exact Hws|].
    cbn [no_nl]. rewrite Hn, Hnw. split; [reflexivity|]. split.
    + destruct w as [|e w'].
      * (* the line ends after [c]: a newline follows, so [c] is no space *)
        specialize (Hew eq_refl). cbn [last_ok].
        destruct (Py.isspace c); [|reflexivity].
        rewrite Hew in Hc. discriminate Hc.
      * rewrite last_ok_cons by discriminate. exact Hlw.
    + split; [discriminate|]. intros _. reflexivity.
Qed.

Lemma normalized_lines_good (s : string) :
  tidy s = true -> head_ok s = true -> last_ok s = true -> s <> EmptyString ->
  Forall good_line (Py.split_on "010" s).
Proof.
  intros Ht Hh Hl Hne.
  destruct (split_lines_good s Ht Hl Hne) as (w & ws & Hs & Hws & Hnw & Hlw & Hew & Hhw).
  rewrite Hs. constructor; [|exact Hws].
  assert (Hwne : w <> EmptyString).
  { intros E. apply Hew in E. apply head_ok_not_nl in Hh. congruence. }
  split; [exact Hwne|]. split; [exact Hnw|]. split; [|exact Hlw].
  rewrite (Hhw Hwne). exact Hh.
Qed.

(** *** Joining lines and splitting them again *)













Import FloatFacts FloatLemmas.

(** ** Quantification of the work experience *)

Lemma elem_of_append_if (c : bool) (x y : string) (l : list string) :
  x ∈ append_if c y l <-> x ∈ l \/ (c = true /\ x = y).
Proof.
  unfold append_if. destruct c.
  - rewrite elem_of_app, list_elem_of_singleton. intuition.
  - intuition discriminate.
Qed.

Lemma buzzwords_not_quantification (found : list string) :
  MSG_QUANTIFICATION <> MSG_BUZZWORDS found.
Proof. unfold MSG_BUZZWORDS, MSG_QUANTIFICATION. intros H. cbv [String.append] in H. discriminate H. Qed.

Lemma quantification_not_in_summary (env : Env) (summary_text : string) :
  MSG_QUANTIFICATION ∉ summary_issues env summary_text [].
Proof.
  unfold summary_issues. destruct (Py.truthy summary_text); [|apply not_elem_of_nil].
  rewrite !elem_of_append_if. intros [[H|[_ H]]|[_ H]].
  - by apply not_elem_of_nil in H.
  - by apply buzzwords_not_quantification in H.
  - discriminate H.
Qed.

Lemma quantification_not_in_education (education_text : string) (l : list string) :
  MSG_QUANTIFICATION ∈ education_issues education_text l <-> MSG_QUANTIFICATION ∈ l.
Proof.
  unfold education_issues. destruct (Py.truthy education_text).
  - rewrite !elem_of_append_if. split; [|tauto].
    intros [[H|[_ H]]|[_ H]]; [exact H | discriminate H | discriminate H].
  - rewrite elem_of_app, list_elem_of_singleton. split; [|tauto].
    intros [H|H]; [exact H | discriminate H].
Qed.







(** ** The job-fit score *)

(** Claim C1, as amended.  With the lemmatizer available (and fewer than
    [2^45] job-description lemmas), the score is 0 when the job description
    has no lemma, and otherwise [int((|overlap| / |jd|) * 100)] in double
    precision: the quotient [100 * |overlap| / |jd|] truncated, not rounded,
    or one less than it when [|jd|] divides [100 * |overlap|]; it lies
    between 0 and 100. *)
Theorem match_score_is_truncated_percentage (env : Env) (model : string -> list Token)
    (resume_text job_description_text : string) :
  nlp env = Some model ->
  Z.of_nat (size (lemma_set model job_description_text)) < 2 ^ 45 ->
  let jd_lemmas := lemma_set model job_description_text in
  let overlap := lemma_set model resume_text ∩ jd_lemmas in
  let n := Z.of_nat (size overlap) in
  let d := Z.of_nat (size jd_lemmas) in
  let s := score (match_job_description env resume_text job_description_text) in
  (jd_lemmas = ∅ -> s = 0) /\
  (jd_lemmas <> ∅ ->
     s = PyFloat.to_int (PyFloat.mul (PyFloat.truediv n d) (PyFloat.of_int 100)) /\
     100 * n / d - 1 <= s <= 100 * n / d /\
     ((100 * n) mod d <> 0 -> s = 100 * n / d) /\
     0 <= s <= 100).
Proof.
  intros Hnlp Hsize jd_lemmas overlap n d s. split.
  - intros Hempty. subst s. unfold match_job_description. rewrite Hnlp.
    fold jd_lemmas. destruct (decide (jd_lemmas = ∅)); [reflexivity | contradiction].
  - intros Hne. subst s. unfold match_job_description. rewrite Hnlp.
    fold jd_lemmas. destruct (decide (jd_lemmas = ∅)); [contradiction|].
    cbn [score]. fold overlap n d.
    split; [reflexivity|].
    assert (Hd : 0 < d).
    { subst d. assert (size jd_lemmas <> 0%nat); [|lia].
      intros Hs. apply Hne. apply size_empty_inv in Hs. by apply leibniz_equiv. }
    assert (Hn : 0 <= n <= d).
    { subst n d. split; [lia|]. apply inj_le, subseteq_size.
      subst overlap. apply intersection_subseteq_r. }
    apply (overlap_percent_spec n d Hn). split; [exact Hd | exact Hsize].
Qed.

(** Claim C1 as amended, on two of three lemmas: the score is 66. *)
Lemma match_score_witness :
  nlp (docx_env []) = Some word_lemmatizer /\
  Z.of_nat (size (lemma_set word_lemmatizer "python java docker")) < 2 ^ 45 /\
  score (match_job_description (docx_env []) "python java" "python java docker") = 66.
Proof.
  assert (H1 : nlp (docx_env []) = Some word_lemmatizer) by reflexivity.
  assert (H2 : Z.of_nat (size (lemma_set word_lemmatizer "python java docker")) < 2 ^ 45)
    by (vm_compute; reflexivity).
  assert (H3 : lemma_set word_lemmatizer "python java docker" <> ∅).
  { intros H. apply (f_equal elements) in H. vm_compute in H. discriminate H. }
  split; [exact H1|]. split; [exact H2|].
  destruct (proj2 (match_score_is_truncated_percentage (docx_env []) word_lemmatizer
                     "python java" "python java docker" H1 H2) H3) as (Hs & _).
  rewrite Hs. vm_compute. reflexivity.
Defined.

(* ===================================================================== *)
(** * Further properties: segmentation *)
(* ===================================================================== *)

Lemma segment_step_lookup (current : option string) (acc : gmap string (list string))
    (line key : string) :
  (segment_step (current, acc) line).1 = cursor_after current line /\
  (segment_step (current, acc) line).2 !! key =
    (fun ls => ls ++ lines_under key current [line]) <$> (acc !! key).
Proof.
  unfold segment_step, cursor_after. cbn [lines_under].
  destruct (heading_of line) as [k|]; cbn [fst snd].
  { split; [reflexivity|]. destruct (acc !! key); cbn; rewrite ?app_nil_r; reflexivity. }
  destruct current as [cur|]; cbn [fst snd].
  2:{ split; [reflexivity|]. destruct (acc !! key); cbn; rewrite ?app_nil_r; reflexivity. }
  destruct (Py.truthy cur); cbn [fst snd andb].
  2:{ split; [reflexivity|]. destruct (acc !! key); cbn; rewrite ?app_nil_r; reflexivity. }
  split; [reflexivity|]. rewrite lookup_alter.
  destruct (decide (cur = key)) as [->|Hne].
  - rewrite string_eqb_refl. destruct (acc !! key); cbn; rewrite ?app_nil_r; reflexivity.
  - apply string_eqb_neq in Hne. rewrite Hne.
    destruct (acc !! key); cbn; rewrite ?app_nil_r; reflexivity.
Qed.

Lemma lines_under_cons (key : string) (current : option string) (line : string)
    (rest : list string) :
  lines_under key current (line :: rest) =
  lines_under key current [line] ++ lines_under key (cursor_after current line) rest.
Proof. cbn [lines_under]. by rewrite app_nil_r. Qed.

Lemma foldl_segment_lookup (lines : list string) (current : option string)
    (acc : gmap string (list string)) (key : string) :
  (foldl segment_step (current, acc) lines).2 !! key =
    (fun ls => ls ++ lines_under key current lines) <$> (acc !! key).
Proof.
  revert current acc. induction lines as [|line lines IH]; intros current acc.
  - cbn. destruct (acc !! key); cbn; rewrite ?app_nil_r; reflexivity.
  - cbn [foldl].
    destruct (segment_step_lookup current acc line key) as [Hcur Hacc].
    destruct (segment_step (current, acc) line) as [current' acc'] eqn:E.
    cbn [fst snd] in Hcur, Hacc. subst current'.
    rewrite IH, Hacc, (lines_under_cons key current line lines).
    destruct (acc !! key) as [l|]; [|reflexivity].
    cbn [fmap option_fmap option_map]. by rewrite <- (assoc_L (++)).
Qed.

Lemma empty_sections_lookup (key : string) :
  empty_sections !! key = if bool_decide (key ∈ SECTION_KEYS) then Some [] else None.
Proof.
  unfold empty_sections, section_keywords, SECTION_KEYS. cbn [foldl].
  rewrite !lookup_insert, lookup_empty.
  repeat (destruct (decide _) as [<-|?]; [reflexivity|]).
  rewrite bool_decide_eq_false_2; [reflexivity|].
  rewrite !elem_of_cons, elem_of_nil. intuition congruence.
Qed.

Lemma parse_sections_lookup (text key : string) :
  parse_sections_by_iteration text !! key =
    if bool_decide (key ∈ SECTION_KEYS)
    then Some (Py.strip (Py.join NL (lines_under key None (Py.split_on "010" text))))
    else None.
Proof.
  unfold parse_sections_by_iteration.
  pose proof (foldl_segment_lookup (Py.split_on "010" text) None empty_sections key) as H.
  destruct (foldl segment_step (None, empty_sections) (Py.split_on "010" text))
    as [current sections]. cbn [snd] in H.
  rewrite lookup_fmap, H, empty_sections_lookup.
  destruct (bool_decide (key ∈ SECTION_KEYS)); reflexivity.
Qed.

(** Property X1.
    The segmenter against its reading of the text: the keys of the result
    are the four section keys, whatever the text, and the text of a section
    is made of the lines that follow a heading of that section, up to the
    next heading of any section, in the order of the text, joined by
    newlines and stripped.  Lines before the first heading belong to no
    section, a heading line belongs to none, and a section whose heading
    occurs several times collects all its parts. *)
Theorem parse_sections_by_iteration_spec (text : string) :
  dom (parse_sections_by_iteration text) = list_to_set SECTION_KEYS /\
  forall key, key ∈ SECTION_KEYS ->
    parse_sections_by_iteration text !! key =
      Some (Py.strip (Py.join NL (lines_under key None (Py.split_on "010" text)))).
Proof.
  split.
  - apply set_eq. intros key. rewrite elem_of_dom, parse_sections_lookup.
    rewrite elem_of_list_to_set.
    destruct (bool_decide (key ∈ SECTION_KEYS)) eqn:E.
    + apply bool_decide_eq_true in E. split; [intros _; exact E | intros _; eauto].
    + apply bool_decide_eq_false in E. split; [intros [x Hx]; discriminate Hx | contradiction].
  - intros key Hkey. rewrite parse_sections_lookup.
    by rewrite bool_decide_eq_true_2.
Qed.

Lemma lines_under_sublist (key : string) (current : option string) (lines : list string) :
  lines_under key current lines `sublist_of` lines /\
  Forall (fun line => heading_of line = None) (lines_under key current lines).
Proof.
  revert current. induction lines as [|line lines IH]; intros current.
  - split; [reflexivity | constructor].
  - destruct (IH (cursor_after current line)) as [IHs IHf].
    cbn [lines_under]. destruct (heading_of line) eqn:Hh.
    + cbn [app]. split; [by apply sublist_cons | exact IHf].
    + destruct current as [cur|].
      * destruct (Py.truthy cur && String.eqb cur key); cbn [app].
        -- split; [by apply sublist_skip | by constructor].
        -- split; [by apply sublist_cons | exact IHf].
      * cbn [app]. split; [by apply sublist_cons | exact IHf].
Qed.

(** Property X2.
    The text of a section is made of lines of the text, in their order,
    none of them a heading: nothing is added, and no heading line is ever
    part of a section. *)
Theorem section_lines_come_from_the_text (text key section : string) :
  parse_sections_by_iteration text !! key = Some section ->
  exists section_lines,
    section_lines `sublist_of` Py.split_on "010" text /\
    Forall (fun line => heading_of line = None) section_lines /\
    section = Py.strip (Py.join NL section_lines).
Proof.
  rewrite parse_sections_lookup.
  destruct (bool_decide (key ∈ SECTION_KEYS)); [|discriminate].
  intros [= <-]. exists (lines_under key None (Py.split_on "010" text)).
  destruct (lines_under_sublist key None (Py.split_on "010" text)) as [Hs Hf].
  by repeat split.
Qed.

(** Property X2 on the skills section of the scenario text. *)
Lemma section_lines_witness :
  exists section_lines,
    section_lines `sublist_of` Py.split_on "010" scenario_text /\
    Forall (fun line => heading_of line = None) section_lines /\
    "Python, AWS" = Py.strip (Py.join NL section_lines).
Proof.
  apply (section_lines_come_from_the_text scenario_text "skills"). reflexivity.
Defined.

(** ** Headings *)

Lemma keyword_to_section_lookup (cleaned key : string) :
  keyword_to_section !! cleaned = Some key <->
  exists kws, (key, kws) ∈ section_keywords /\ cleaned ∈ kws.
Proof.
  unfold keyword_to_section, section_keywords. cbn [foldl]. split.
  - intros H.
    repeat (rewrite lookup_insert in H; destruct (decide _) as [<-|?];
            [injection H as <-; eexists; split;
             [repeat (first [by left | right]) | repeat (first [by left | right])]|]).
    by rewrite lookup_empty in H.
  - intros (kws & Hin & Hkw).
    rewrite !elem_of_cons, elem_of_nil in Hin.
    destruct Hin as [Hin|[Hin|[Hin|[Hin|[]]]]]; injection Hin as -> ->;
      rewrite !elem_of_cons, elem_of_nil in Hkw;
      repeat (destruct Hkw as [->|Hkw]; [reflexivity|]); contradiction.
Qed.

(** Property X3.
    A line is a heading exactly when its cleaned form (stripped, lower-cased,
    colons removed) is equal to a keyword of the table; the section is the
    one of that keyword.  A line that merely contains a keyword is no
    heading. *)
Theorem heading_of_spec (line key : string) :
  heading_of line = Some key <->
  exists kws, (key, kws) ∈ section_keywords /\ clean_line line ∈ kws.
Proof.
  rewrite <- keyword_to_section_lookup. unfold heading_of.
  set (cleaned := clean_line line).
  destruct ((1 <=? length (Py.split cleaned))%nat && (length (Py.split cleaned) <=? 4)%nat)
    eqn:Hwords; [reflexivity|].
  split; [discriminate|]. intros H. exfalso.
  apply keyword_to_section_lookup in H as (kws & Hin & Hkw).
  unfold section_keywords in Hin. rewrite !elem_of_cons, elem_of_nil in Hin.
  destruct Hin as [Hin|[Hin|[Hin|[Hin|[]]]]]; injection Hin as -> ->;
    rewrite !elem_of_cons, elem_of_nil in Hkw;
    repeat (destruct Hkw as [Hkw|Hkw]; [rewrite Hkw in Hwords; discriminate Hwords|]);
    contradiction.
Qed.

(** Property X4.
    The title [Work Experience] is no heading, however it is capitalised,
    padded or followed by a colon: the table knows [experience],
    [work history], [professional experience] and [experience details]
    only.  (The messages of the analyzer name this title as the standard
    one.) *)
Theorem work_experience_title_not_recognized (line : string) :
  clean_line line = "work experience" -> heading_of line = None.
Proof.
  intros Hclean. unfold heading_of. rewrite Hclean. reflexivity.
Qed.

(** Property X4 on the title with padding and a colon. *)
Lemma work_experience_title_witness :
  clean_line "  Work Experience: " = "work experience" /\
  heading_of "  Work Experience: " = None.
Proof.
  assert (H : clean_line "  Work Experience: " = "work experience") by reflexivity.
  split; [exact H | exact (work_experience_title_not_recognized _ H)].
Defined.

(* ===================================================================== *)
(** * Further properties: the issue checks *)
(* ===================================================================== *)

(** ** Buzzwords *)

Lemma split_go_words (s : string) :
  (forall w, (Py.split_go s).1 = Some w -> w <> EmptyString /\ no_space w = true) /\
  Forall (fun w => w <> EmptyString /\ no_space w = true) (Py.split_go s).2.
Proof.
  induction s as [|c s [IHcur IHws]]; cbn [Py.split_go].
  - split; [discriminate | constructor].
  - destruct (Py.split_go s) as [cur ws]. cbn [fst snd] in *.
    destruct (Py.isspace c) eqn:Hc; cbn [fst snd].
    + split; [discriminate|]. apply Forall_app. split; [|exact IHws].
      destruct cur as [w|]; cbn [option_list]; [|constructor].
      constructor; [by apply IHcur | constructor].
    + split; [|exact IHws]. intros w [= <-]. split; [discriminate|].
      cbn [no_space]. rewrite Hc. cbn [negb andb].
      destruct cur as [w|]; cbn [default]; [by apply IHcur | reflexivity].
Qed.

Lemma split_words (s w : string) :
  w ∈ Py.split s -> w <> EmptyString /\ no_space w = true.
Proof.
  unfold Py.split. destruct (split_go_words s) as [Hcur Hws].
  destruct (Py.split_go s) as [cur ws]. cbn [fst snd] in *.
  rewrite elem_of_app. intros [H|H].
  - destruct cur as [w'|]; cbn [option_list] in H.
    + apply list_elem_of_singleton in H. subst w'. by apply Hcur.
    + by apply elem_of_nil in H.
  - rewrite Forall_forall in Hws. by apply Hws.
Qed.

(** Property X5.
    Of the eight buzzwords of the table, only the six that hold no space
    can be found: whatever the summary, every buzzword found is one of
    these six, and [team player] and [thought leader] are never reported,
    a word of the summary being a run of characters without white space. *)
Theorem found_buzzwords_are_single_words (summary_text w : string) :
  (w ∈ found_buzzwords summary_text <->
     w ∈ SINGLE_WORD_BUZZWORDS /\ w ∈ Py.split (Py.lower summary_text)) /\
  ("team player" ∉ found_buzzwords summary_text) /\
  ("thought leader" ∉ found_buzzwords summary_text).
Proof.
  assert (Hiff : forall x, x ∈ found_buzzwords summary_text <->
                   x ∈ BUZZWORDS /\ x ∈ Py.split (Py.lower summary_text)).
  { intros x. unfold found_buzzwords.
    rewrite elem_of_intersection, !elem_of_list_to_set. reflexivity. }
  assert (Hns : forall x, x ∈ found_buzzwords summary_text -> no_space x = true).
  { intros x Hx. apply Hiff in Hx as [_ Hx]. by apply split_words in Hx as [_ Hx]. }
  split; [|split; intros H; apply Hns in H; vm_compute in H; discriminate H].
  rewrite Hiff. split.
  - intros [Hin Hword]. split; [|exact Hword].
    pose proof (split_words _ _ Hword) as [_ Hno].
    unfold BUZZWORDS in Hin. unfold SINGLE_WORD_BUZZWORDS.
    rewrite !elem_of_cons, elem_of_nil in Hin. rewrite !elem_of_cons.
    destruct Hin as [Hin|[Hin|[Hin|[Hin|[Hin|[Hin|[Hin|[Hin|[]]]]]]]]]; subst w;
      try (vm_compute in Hno; discriminate Hno); tauto.
  - intros [Hin Hword]. split; [|exact Hword].
    unfold SINGLE_WORD_BUZZWORDS in Hin. unfold BUZZWORDS.
    rewrite !elem_of_cons, elem_of_nil in Hin. rewrite !elem_of_cons.
    tauto.
Qed.

(** ** The content checks, section by section *)

Lemma content_issues_unfold (env : Env) (sections : gmap string string) (raw_text : string) :
  (compile_issues env sections raw_text).1.2 =
  summary_issues env (section_text sections "profile_summary") []
  ++ education_issues (section_text sections "education") []
  ++ experience_issues (section_text sections "work_experience") [].
Proof.
  unfold compile_issues. cbn [fst snd].
  unfold experience_issues, education_issues, append_if.
  destruct (Py.truthy (section_text sections "work_experience")),
    (Py.truthy (section_text sections "education"));
    repeat match goal with |- context [if ?b then _ else _] => destruct b end;
    cbn [app]; rewrite ?app_nil_r, <- ?(assoc_L (++)); reflexivity.
Qed.

Lemma truthy_spec (s : string) : Py.truthy s = true <-> s <> EmptyString.
Proof. destruct s; cbn; split; congruence. Qed.

Lemma buzzwords_message_distinct (found : list string) :
  MSG_BUZZWORDS found <> MSG_VALUE_PROPOSITION /\
  MSG_BUZZWORDS found <> MSG_EDU_TERMS /\
  MSG_BUZZWORDS found <> MSG_EDU_YEAR /\
  MSG_BUZZWORDS found <> MSG_NO_EDUCATION.
Proof.
  unfold MSG_BUZZWORDS; repeat split; intros H; cbv [String.append] in H; discriminate H.
Qed.

(** Property X6.
    The three education messages exclude one another as the code branches:
    the missing-section message is raised exactly when the education text
    is empty, and the two detail messages only on a text that is not, the
    first exactly when no education term occurs in its lower-cased form,
    the second exactly when it shows no year. *)
Theorem education_messages_exclusive (env : Env) (sections : gmap string string)
    (raw_text : string) :
  let education_text := section_text sections "education" in
  let content_issues := (compile_issues env sections raw_text).1.2 in
  (MSG_NO_EDUCATION ∈ content_issues <-> education_text = EmptyString) /\
  (MSG_EDU_TERMS ∈ content_issues <->
     education_text <> EmptyString /\
     any_contained EDUCATION_TERMS (Py.lower education_text) = false) /\
  (MSG_EDU_YEAR ∈ content_issues <->
     education_text <> EmptyString /\ Re.search_year education_text = false).
Proof.
  intros education_text content_issues. subst content_issues.
  rewrite content_issues_unfold. fold education_text.
  assert (Hsum : forall m, m ∈ summary_issues env (section_text sections "profile_summary") [] ->
            (exists found, m = MSG_BUZZWORDS found) \/ m = MSG_VALUE_PROPOSITION).
  { intros m. unfold summary_issues. destruct (Py.truthy _); [|by intros ?%elem_of_nil].
    rewrite !elem_of_append_if. intros [[H|[_ H]]|[_ H]].
    - by apply elem_of_nil in H.
    - left. by eexists.
    - by right. }
  assert (Hexp : forall m, m ∈ experience_issues (section_text sections "work_experience") [] ->
            m = MSG_QUANTIFICATION).
  { intros m. unfold experience_issues. destruct (Py.truthy _); [|by intros ?%elem_of_nil].
    rewrite elem_of_append_if. intros [H|[_ H]]; [by apply elem_of_nil in H | exact H]. }
  assert (Hother : forall m,
            m = MSG_NO_EDUCATION \/ m = MSG_EDU_TERMS \/ m = MSG_EDU_YEAR ->
            (m ∈ summary_issues env (section_text sections "profile_summary") []
               ++ education_issues education_text []
               ++ experience_issues (section_text sections "work_experience") []
             <-> m ∈ education_issues education_text [])).
  { intros m Hm. rewrite !elem_of_app. split; [|tauto].
    intros [H|[H|H]]; [|exact H|]; exfalso.
    - apply Hsum in H as [ [found ->] | -> ].
      + destruct (buzzwords_message_distinct found) as (D1 & D2 & D3 & D4).
        destruct Hm as [Hm|[Hm|Hm]]; congruence.
      + destruct Hm as [Hm|[Hm|Hm]]; discriminate Hm.
    - apply Hexp in H. subst m. destruct Hm as [Hm|[Hm|Hm]]; discriminate Hm. }
  rewrite !Hother by tauto.
  unfold education_issues. pose proof (truthy_spec education_text) as Ht.
  destruct (Py.truthy education_text).
  - assert (Hne : education_text <> EmptyString) by (by apply Ht).
    rewrite !elem_of_append_if, !elem_of_nil, !negb_true_iff.
    split; [|split].
    + split; [|intros He; contradiction].
      intros [ [ [] | [_ H] ] | [_ H] ]; discriminate H.
    + split; [|tauto].
      intros [ [ [] | [H _] ] | [_ H] ]; [tauto | discriminate H].
    + split; [|tauto].
      intros [ [ [] | [_ H] ] | [H _] ]; [discriminate H | tauto].
  - assert (He : education_text = EmptyString).
    { destruct (decide (education_text = EmptyString)) as [|Hne]; [assumption|].
      apply Ht in Hne. discriminate Hne. }
    rewrite app_nil_l, !list_elem_of_singleton.
    split; [|split].
    + tauto.
    + split; [intros H; discriminate H | intros [? _]; contradiction].
    + split; [intros H; discriminate H | intros [? _]; contradiction].
Qed.

(** Property X7.
    The content checks of a section run only when the section holds text:
    without a profile summary neither the buzzword nor the value-proposition
    message is raised, and without work experience the quantification
    message is not. *)
Theorem absent_sections_raise_no_content_issue (env : Env)
    (sections : gmap string string) (raw_text : string) :
  let content_issues := (compile_issues env sections raw_text).1.2 in
  (section_text sections "profile_summary" = EmptyString ->
     (MSG_VALUE_PROPOSITION ∉ content_issues) /\
     forall found, MSG_BUZZWORDS found ∉ content_issues) /\
  (section_text sections "work_experience" = EmptyString ->
     MSG_QUANTIFICATION ∉ content_issues).
Proof.
  intros content_issues. subst content_issues. rewrite content_issues_unfold.
  assert (Hedu : forall m, m ∈ education_issues (section_text sections "education") [] ->
            m = MSG_EDU_TERMS \/ m = MSG_EDU_YEAR \/ m = MSG_NO_EDUCATION).
  { intros m. unfold education_issues. destruct (Py.truthy _).
    - rewrite !elem_of_append_if, elem_of_nil. tauto.
    - rewrite app_nil_l, list_elem_of_singleton. tauto. }
  assert (Hexp : forall m, m ∈ experience_issues (section_text sections "work_experience") [] ->
            m = MSG_QUANTIFICATION).
  { intros m. unfold experience_issues. destruct (Py.truthy _); [|by intros ?%elem_of_nil].
    rewrite elem_of_append_if. intros [H|[_ H]]; [by apply elem_of_nil in H | exact H]. }
  split.
  - intros ->. unfold summary_issues. cbn [Py.truthy app]. split.
    + rewrite elem_of_app. intros [H|H].
      * apply Hedu in H as [H|[H|H]]; discriminate H.
      * apply Hexp in H. discriminate H.
    + intros found. destruct (buzzwords_message_distinct found) as (D1 & D2 & D3 & D4).
      rewrite elem_of_app. intros [H|H].
      * apply Hedu in H as [H|[H|H]]; congruence.
      * apply Hexp in H. symmetry in H. by apply buzzwords_not_quantification in H.
  - intros ->. unfold experience_issues. cbn [Py.truthy]. rewrite app_nil_r.
    rewrite elem_of_app. intros [H|H].
    + by apply quantification_not_in_summary in H.
    + apply Hedu in H as [H|[H|H]]; discriminate H.
Qed.

(** ** Outdated technology *)

Lemma set_iter_elem_of (env : Env) (s : gset string) (x : string) :
  set_iter_ok env -> x ∈ set_iter env s <-> x ∈ s.
Proof. intros Hok. rewrite (Hok s). apply elem_of_elements. Qed.

Lemma set_iter_NoDup (env : Env) (s : gset string) :
  set_iter_ok env -> NoDup (set_iter env s).
Proof. intros Hok. rewrite (Hok s). apply NoDup_elements. Qed.

(** Property X8.
    With the lemmatizer available, the outdated technologies reported are
    the entries of the table that are the lower-cased lemma of some token of
    the raw text, each once, so at most nine; the text itself is not
    lower-cased before it is tokenized. *)
Theorem outdated_mentions_spec (env : Env) (model : string -> list Token)
    (raw_text : string) :
  set_iter_ok env ->
  nlp env = Some model ->
  (forall tech, tech ∈ outdated_mentions env raw_text <->
     tech ∈ OUTDATED_TECH /\
     exists token, token ∈ model raw_text /\ Py.lower (lemma_ token) = tech) /\
  NoDup (outdated_mentions env raw_text) /\
  (length (outdated_mentions env raw_text) <= 9)%nat.
Proof.
  intros Hok Hnlp. unfold outdated_mentions. rewrite Hnlp.
  set (found := list_to_set OUTDATED_TECH
                ∩ list_to_set ((fun t => Py.lower (lemma_ t)) <$> model raw_text) : gset string).
  split; [|split].
  - intros tech. rewrite (set_iter_elem_of env found tech Hok). unfold found.
    rewrite elem_of_intersection, !elem_of_list_to_set, list_elem_of_fmap.
    split; intros [H1 (token & H2 & H3)]; (split; [exact H1|]); exists token; auto.
  - by apply set_iter_NoDup.
  - rewrite (Hok found). change (length (elements found)) with (size found).
    transitivity (size (list_to_set OUTDATED_TECH : gset string)).
    + apply subseteq_size. unfold found. apply intersection_subseteq_l.
    + vm_compute. lia.
Qed.

(** Property X8 on a text that names jQuery, with the word lemmatizer. *)
Lemma outdated_mentions_witness :
  "jquery" ∈ outdated_mentions (docx_env []) "Built with jQuery and Flash" /\
  (length (outdated_mentions (docx_env []) "Built with jQuery and Flash") <= 9)%nat.
Proof.
  assert (Hok : set_iter_ok (docx_env [])) by (intros s; reflexivity).
  assert (Hnlp : nlp (docx_env []) = Some word_lemmatizer) by reflexivity.
  destruct (outdated_mentions_spec (docx_env []) word_lemmatizer
              "Built with jQuery and Flash" Hok Hnlp) as (Hiff & _ & Hlen).
  split; [|exact Hlen].
  apply Hiff. split.
  - unfold OUTDATED_TECH. rewrite !elem_of_cons. tauto.
  - exists (word_token "jQuery"). split; [|reflexivity].
    change (word_lemmatizer "Built with jQuery and Flash")
      with (word_token <$> ["Built"; "with"; "jQuery"; "and"; "Flash"]).
    rewrite list_elem_of_fmap. exists "jQuery". split; [reflexivity|].
    rewrite !elem_of_cons. tauto.
Defined.

(* ===================================================================== *)
(** * Further properties: job fit and scores *)
(* ===================================================================== *)

(** [b / b] is the double [1.0]. *)
Lemma truediv_self (b : Z) :
  0 < b < 2 ^ 53 -> PyFloat.truediv b b = S754_finite false 4503599627370496 (-52).
Proof.
  intros Hb.
  destruct (truediv_spec b b ltac:(lia) ltac:(lia) ltac:(lia)) as (m & e & Hdiv & Hm & He & HA).
  rewrite Hdiv. set (E := 2 ^ (- e)) in *.
  assert (HmE : Z.pos m = E).
  { destruct (Z.lt_trichotomy (Z.pos m) E) as [Hlt|[Heq|Hgt]]; [exfalso|exact Heq|exfalso].
    - assert (Z.pos m * b <= (E - 1) * b) by (apply Z.mul_le_mono_nonneg_r; lia). lia.
    - assert ((E + 1) * b <= Z.pos m * b) by (apply Z.mul_le_mono_nonneg_r; lia). lia. }
  assert (He52 : e = -52).
  { destruct (Z.eq_dec e (-52)) as [|Hne]; [assumption|]. exfalso.
    assert (2 ^ 53 <= E) by (apply Z.pow_le_mono_r; lia). lia. }
  subst e. f_equal. apply Pos2Z.inj. rewrite HmE. reflexivity.
Qed.

Lemma overlap_percent_full (b : Z) : 0 < b < 2 ^ 53 -> overlap_percent b b = 100.
Proof. intros Hb. unfold overlap_percent. rewrite truediv_self by exact Hb. reflexivity. Qed.

Lemma size_pos_nonempty (s : gset string) : s <> ∅ -> 0 < Z.of_nat (size s).
Proof.
  intros Hne. assert (size s <> 0%nat); [|lia].
  intros Hs. apply Hne. apply size_empty_inv in Hs. by apply leibniz_equiv.
Qed.

Lemma sorted_nil (s : gset string) : sorted s = [] <-> s = ∅.
Proof.
  split.
  - intros H. apply leibniz_equiv. apply size_empty_inv.
    rewrite <- sorted_length, H. reflexivity.
  - intros ->. apply length_zero_iff_nil. rewrite sorted_length. apply size_empty.
Qed.

Lemma intersection_full_size (resume jd : gset string) :
  size (resume ∩ jd) = size jd <-> jd ⊆ resume.
Proof.
  split.
  - intros Hsize.
    assert (Hsub : resume ∩ jd ⊆ jd) by apply intersection_subseteq_r.
    destruct (decide (jd ⊆ resume)) as [|Hn]; [assumption|]. exfalso.
    assert (Hstrict : resume ∩ jd ⊂ jd).
    { split; [exact Hsub|]. intros H. apply Hn. intros x Hx.
      apply H in Hx. by apply elem_of_intersection in Hx as [? _]. }
    apply subset_size in Hstrict. lia.
  - intros Hsub. f_equal. apply leibniz_equiv. intros x.
    rewrite elem_of_intersection. split; [tauto|]. intros Hx. split; [by apply Hsub | exact Hx].
Qed.

Lemma match_subset_cases (env : Env) (model : string -> list Token)
    (resume_text job_description_text : string) :
  nlp env = Some model ->
  lemma_set model job_description_text <> ∅ ->
  Z.of_nat (size (lemma_set model job_description_text)) < 2 ^ 45 ->
  let result := match_job_description env resume_text job_description_text in
  (lemma_set model job_description_text ⊆ lemma_set model resume_text ->
     score result = 100) /\
  (~ lemma_set model job_description_text ⊆ lemma_set model resume_text ->
     0 <= score result <= 99) /\
  (missing_keywords result = [] <->
     lemma_set model job_description_text ⊆ lemma_set model resume_text).
Proof.
  intros Hnlp Hne Hsize result. subst result.
  rewrite (match_job_description_unfold env model _ _ Hnlp Hne). cbn [score missing_keywords].
  set (jd := lemma_set model job_description_text) in *.
  set (resume := lemma_set model resume_text).
  clearbody jd resume.
  pose proof (size_pos_nonempty jd Hne) as Hd.
  assert (Hn : Z.of_nat (size (resume ∩ jd)) <= Z.of_nat (size jd)).
  { apply inj_le, subseteq_size, intersection_subseteq_r. }
  assert (Hmiss : sorted (jd ∖ resume) = [] <-> jd ⊆ resume).
  { rewrite sorted_nil. split.
    - intros H x Hx. destruct (decide (x ∈ resume)) as [|Hnx]; [assumption|]. exfalso.
      assert (Hin : x ∈ jd ∖ resume) by (apply elem_of_difference; tauto).
      rewrite H in Hin. by apply elem_of_empty in Hin.
    - intros Hsub. apply leibniz_equiv. intros x. rewrite elem_of_difference.
      split; [|by intros ?%elem_of_empty]. intros [Hx Hnx]. exfalso. apply Hnx. by apply Hsub. }
  assert (Hlow : ~ jd ⊆ resume ->
            0 <= overlap_percent (Z.of_nat (size (resume ∩ jd))) (Z.of_nat (size jd)) <= 99).
  { intros Hnsub.
    assert (Hlt : Z.of_nat (size (resume ∩ jd)) < Z.of_nat (size jd)).
    { assert (size (resume ∩ jd) <> size jd) by (by rewrite intersection_full_size). lia. }
    assert (Ha1 : 0 <= Z.of_nat (size (resume ∩ jd)) <= Z.of_nat (size jd)) by lia.
    assert (Ha2 : 0 < Z.of_nat (size jd) < 2 ^ 45) by (split; [exact Hd | exact Hsize]).
    destruct (overlap_percent_spec (Z.of_nat (size (resume ∩ jd))) (Z.of_nat (size jd))
                Ha1 Ha2) as (Hb & _ & Hr).
    assert (100 * Z.of_nat (size (resume ∩ jd)) / Z.of_nat (size jd) < 100)
      by (apply Z.div_lt_upper_bound; lia).
    lia. }
  split; [|split].
  - intros Hsub. apply intersection_full_size in Hsub. rewrite Hsub.
    apply overlap_percent_full. lia.
  - exact Hlow.
  - exact Hmiss.
Qed.


(** Property X9.
    With the lemmatizer available and a job description that has lemmas
    (fewer than [2^45]), the score is 100 exactly when every lemma of the
    job description is among those of the resume, which is exactly when no
    keyword is reported missing; any missing keyword brings the score to
    99 or less. *)
Theorem full_score_iff_nothing_missing (env : Env) (model : string -> list Token)
    (resume_text job_description_text : string) :
  nlp env = Some model ->
  lemma_set model job_description_text <> ∅ ->
  Z.of_nat (size (lemma_set model job_description_text)) < 2 ^ 45 ->
  let result := match_job_description env resume_text job_description_text in
  (score result = 100 <->
     lemma_set model job_description_text ⊆ lemma_set model resume_text) /\
  (missing_keywords result = [] <->
     lemma_set model job_description_text ⊆ lemma_set model resume_text) /\
  (missing_keywords result <> [] -> 0 <= score result <= 99).
Proof.
  intros Hnlp Hne Hsize result.
  destruct (match_subset_cases env model resume_text job_description_text Hnlp Hne Hsize)
    as (Hfull & Hlow & Hmiss). fold result in Hfull, Hlow, Hmiss.
  split; [|split].
  - split; [|exact Hfull].
    intros Hs.
    destruct (decide (lemma_set model job_description_text ⊆ lemma_set model resume_text))
      as [|Hnsub]; [assumption|].
    apply Hlow in Hnsub. lia.
  - exact Hmiss.
  - intros Hm. apply Hlow. intros Hsub. apply Hm. by apply Hmiss.
Qed.

(** Property X9 on a resume that holds both lemmas of the job description. *)
Lemma full_score_witness :
  nlp (docx_env []) = Some word_lemmatizer /\
  lemma_set word_lemmatizer "python java" <> ∅ /\
  Z.of_nat (size (lemma_set word_lemmatizer "python java")) < 2 ^ 45 /\
  score (match_job_description (docx_env []) "Java and Python" "python java") = 100.
Proof.
  assert (H1 : nlp (docx_env []) = Some word_lemmatizer) by reflexivity.
  assert (H2 : lemma_set word_lemmatizer "python java" <> ∅).
  { intros H. apply (f_equal elements) in H. vm_compute in H. discriminate H. }
  assert (H3 : Z.of_nat (size (lemma_set word_lemmatizer "python java")) < 2 ^ 45)
    by (vm_compute; reflexivity).
  split; [exact H1|]. split; [exact H2|]. split; [exact H3|].
  apply (full_score_iff_nothing_missing (docx_env []) word_lemmatizer
           "Java and Python" "python java" H1 H2 H3).
  unfold lemma_set.
  change (lemma_ <$> List.filter keep_token (word_lemmatizer (Py.lower "python java")))
    with ["python"; "java"].
  change (lemma_ <$> List.filter keep_token (word_lemmatizer (Py.lower "Java and Python")))
    with ["java"; "and"; "python"].
  intros x. rewrite !elem_of_list_to_set, !elem_of_cons. tauto.
Defined.

(** Property X10.
    With the lemmatizer available and a job description that has lemmas
    (fewer than [2^45]), a resume that shares no lemma with it scores 0,
    has no overlapping keyword, and misses every lemma of the job
    description. *)
Theorem no_overlap_scores_zero (env : Env) (model : string -> list Token)
    (resume_text job_description_text : string) :
  nlp env = Some model ->
  lemma_set model job_description_text <> ∅ ->
  Z.of_nat (size (lemma_set model job_description_text)) < 2 ^ 45 ->
  lemma_set model resume_text ∩ lemma_set model job_description_text = ∅ ->
  let result := match_job_description env resume_text job_description_text in
  score result = 0 /\
  overlap_keywords result = [] /\
  missing_keywords result = sorted (lemma_set model job_description_text).
Proof.
  intros Hnlp Hne Hsize Hdisjoint result. subst result.
  rewrite (match_job_description_unfold env model _ _ Hnlp Hne).
  cbn [score missing_keywords overlap_keywords]. rewrite Hdisjoint.
  split; [|split].
  - rewrite size_empty.
    pose proof (size_pos_nonempty _ Hne) as Hd.
    assert (Ha : 0 <= Z.of_nat 0 <= Z.of_nat (size (lemma_set model job_description_text)))
      by (split; [reflexivity | lia]).
    destruct (overlap_percent_spec _ _ Ha (conj Hd Hsize)) as (Hb & _ & Hr).
    change (100 * Z.of_nat 0) with 0 in Hb. rewrite Z.div_0_l in Hb by lia. lia.
  - by apply sorted_nil.
  - f_equal. apply leibniz_equiv. intros x. rewrite elem_of_difference.
    split; [tauto|]. intros Hx. split; [exact Hx|]. intros Hr.
    assert (Hin : x ∈ lemma_set model resume_text ∩ lemma_set model job_description_text)
      by (apply elem_of_intersection; tauto).
    rewrite Hdisjoint in Hin. by apply elem_of_empty in Hin.
Qed.

(** Property X10 on a resume that shares no lemma with the job description. *)
Lemma no_overlap_witness :
  nlp (docx_env []) = Some word_lemmatizer /\
  score (match_job_description (docx_env []) "ruby" "python java") = 0.
Proof.
  assert (H1 : nlp (docx_env []) = Some word_lemmatizer) by reflexivity.
  assert (H2 : lemma_set word_lemmatizer "python java" <> ∅).
  { intros H. apply (f_equal elements) in H. vm_compute in H. discriminate H. }
  assert (H3 : Z.of_nat (size (lemma_set word_lemmatizer "python java")) < 2 ^ 45)
    by (vm_compute; reflexivity).
  assert (H4 : lemma_set word_lemmatizer "ruby" ∩ lemma_set word_lemmatizer "python java" = ∅).
  { apply leibniz_equiv. intros x. unfold lemma_set.
    change (lemma_ <$> List.filter keep_token (word_lemmatizer (Py.lower "python java")))
      with ["python"; "java"].
    change (lemma_ <$> List.filter keep_token (word_lemmatizer (Py.lower "ruby")))
      with ["ruby"].
    rewrite elem_of_intersection, !elem_of_list_to_set, !elem_of_cons, !elem_of_nil.
    split; [|intros H; apply elem_of_empty in H; destruct H].
    intros [[-> | []] [H | [H | []]]]; discriminate H. }
  split; [exact H1|].
  pose proof (no_overlap_scores_zero (docx_env []) word_lemmatizer "ruby" "python java"
                H1 H2 H3 H4) as K.
  cbv zeta in K. destruct K as [K _]. exact K.
Defined.

(** Property X11.
    The job-fit recommendation on what the matcher returns (fewer than
    [2^45] job-description lemmas): it is made exactly when the lemmatizer
    is available, the job description has a lemma and the score is below
    75; a missing keyword is then always present.  Without the lemmatizer
    the score is 0 and the recommendation is not made. *)
Theorem job_fit_recommendation_on_match (env : Env) (resume_text job_description_text : string)
    (checks : ClassifiedChecks) :
  (forall model, nlp env = Some model ->
     Z.of_nat (size (lemma_set model job_description_text)) < 2 ^ 45) ->
  job_fit checks = match_job_description env resume_text job_description_text ->
  (rule_job_fit checks = true <->
     score (job_fit checks) < 75 /\
     exists model, nlp env = Some model /\ lemma_set model job_description_text <> ∅) /\
  (nlp env = None -> score (job_fit checks) = 0 /\ rule_job_fit checks = false).
Proof.
  intros Hsize Hfit. unfold rule_job_fit. rewrite Hfit.
  destruct (nlp env) as [model|] eqn:Hnlp.
  2:{ unfold match_job_description. rewrite Hnlp. cbn. split; [|auto].
      split; [discriminate|]. intros (_ & model & H & _). discriminate H. }
  split; [|discriminate].
  destruct (decide (lemma_set model job_description_text = ∅)) as [He|Hne].
  { unfold match_job_description. rewrite Hnlp.
    destruct (decide (lemma_set model job_description_text = ∅)); [|contradiction].
    cbn. split; [discriminate|]. intros (_ & model' & [= <-] & H). contradiction. }
  destruct (match_subset_cases env model resume_text job_description_text Hnlp Hne
              (Hsize model eq_refl)) as (Hfull & Hlow & Hmiss).
  rewrite andb_true_iff, Z.ltb_lt, nonempty_spec. split.
  - intros [Hs _]. split; [exact Hs|]. by exists model.
  - intros [Hs _]. split; [exact Hs|]. intros Hm. apply Hmiss, Hfull in Hm. lia.
Qed.

(** Property X11 on one lemma of three: the rule triggers. *)
Lemma job_fit_recommendation_witness :
  rule_job_fit {| formatting_ats := []; content_impact := [];
                  job_fit := match_job_description (docx_env []) "python" "python java docker";
                  technology_freshness := [] |} = true.
Proof.
  assert (Hsize : forall model, nlp (docx_env []) = Some model ->
            Z.of_nat (size (lemma_set model "python java docker")) < 2 ^ 45).
  { intros model [= <-]. vm_compute. reflexivity. }
  apply (job_fit_recommendation_on_match (docx_env []) "python" "python java docker"
           {| formatting_ats := []; content_impact := [];
              job_fit := match_job_description (docx_env []) "python" "python java docker";
              technology_freshness := [] |} Hsize eq_refl).
  split; [vm_compute; reflexivity|].
  exists word_lemmatizer. split; [reflexivity|].
  intros H. apply (f_equal elements) in H. vm_compute in H. discriminate H.
Defined.

(** ** Scores *)

Lemma weighted_score_near (q j : Z) :
  0 <= q <= 100 -> 0 <= j <= 100 ->
  2 * Z.abs (10 * weighted_score q j - (4 * q + 6 * j)) < 10 /\
  0 <= weighted_score q j <= 100.
Proof.
  intros Hq Hj. pose proof (weighted_score_checked q j Hq Hj) as Hok.
  unfold weighted_score_ok in Hok.
  apply andb_true_iff in Hok as [Hok H4]. apply andb_true_iff in Hok as [Hok H3].
  apply andb_true_iff in Hok as [H1 H2].
  apply Z.ltb_lt in H2. apply Z.leb_le in H3, H4. lia.
Qed.

Lemma weighted_score_monotone (q j q' j' : Z) :
  0 <= q <= q' -> q' <= 100 -> 0 <= j <= j' -> j' <= 100 ->
  weighted_score q j <= weighted_score q' j'.
Proof.
  intros Hq Hq' Hj Hj'.
  pose proof (weighted_score_near q j ltac:(lia) ltac:(lia)) as [H1 _].
  pose proof (weighted_score_near q' j' ltac:(lia) ltac:(lia)) as [H2 _].
  lia.
Qed.

(** Property X12.
    Fewer issues, fewer outdated technologies or a better job-fit score
    never lower the final score, nor the grade. *)
Theorem calculate_scores_monotone (f c o f' c' o' : list string) (j j' : Z) :
  0 <= j <= j' -> j' <= 100 ->
  (length f' + length c' <= length f + length c)%nat ->
  (length o' <= length o)%nat ->
  (calculate_scores f c o j).1 <= (calculate_scores f' c' o' j').1 /\
  grade_rank (calculate_scores f c o j).2 <= grade_rank (calculate_scores f' c' o' j').2.
Proof.
  intros Hj Hj' Hissues Hout. unfold calculate_scores. cbn [fst snd].
  assert (Hq : quality_score f c o <= quality_score f' c' o') by (unfold quality_score; lia).
  pose proof (quality_score_range f c o) as Hr.
  pose proof (quality_score_range f' c' o') as Hr'.
  assert (Hw : weighted_score (quality_score f c o) j
               <= weighted_score (quality_score f' c' o') j')
    by (apply weighted_score_monotone; lia).
  split; [exact Hw|]. rewrite !first_grade_spec. by apply spec_grade_monotone.
Qed.

(** Property X12 on one issue fewer and ten points more of job fit. *)
Lemma calculate_scores_monotone_witness :
  0 <= 50 <= 60 /\
  (calculate_scores [MSG_NO_SKILLS] [] [] 50).1 <= (calculate_scores [] [] [] 60).1.
Proof.
  assert (H : 0 <= 50 <= 60) by lia. split; [exact H|].
  apply (calculate_scores_monotone [MSG_NO_SKILLS] [] [] [] [] [] 50 60 H);
    [lia | simpl; lia | simpl; lia].
Defined.

(** Property X13.
    The job-fit score carries six tenths of the final score: the final
    score lies within [0.6 * j - 0.5] and [0.6 * j + 40.5], so that grade A
    needs a job-fit score of 66 at least, grade B one of 50 and grade C one
    of 33, whatever the issues; and a job-fit score of 100 gives grade C at
    least. *)
Theorem grade_bounded_by_job_fit (f c o : list string) (j : Z) :
  0 <= j <= 100 ->
  let final_score := (calculate_scores f c o j).1 in
  let grade := (calculate_scores f c o j).2 in
  6 * j - 5 < 10 * final_score < 6 * j + 405 /\
  (grade = "A" -> 66 <= j) /\
  (grade = "B" -> 50 <= j) /\
  (grade = "C" -> 33 <= j) /\
  (j = 100 -> grade = "A" \/ grade = "B" \/ grade = "C").
Proof.
  intros Hj final_score grade. subst final_score grade.
  unfold calculate_scores. cbn [fst snd]. rewrite first_grade_spec.
  pose proof (quality_score_range f c o) as Hr.
  destruct (weighted_score_near (quality_score f c o) j Hr Hj) as [Hnear Hrange].
  set (w := weighted_score (quality_score f c o) j) in *.
  split; [lia|]. unfold spec_grade.
  repeat match goal with |- context [?a <=? ?b] => destruct (Z.leb_spec a b) end;
    (split; [|split; [|split]]); intros Hg; try discriminate Hg; try lia; auto.
Qed.

(** Property X13 on a perfect job fit with one issue: grade A. *)
Lemma grade_bounded_by_job_fit_witness :
  0 <= 100 <= 100 /\ (calculate_scores [MSG_NO_SKILLS] [] [] 100).2 = "A".
Proof.
  assert (H : 0 <= 100 <= 100) by lia. split; [exact H|].
  destruct (grade_bounded_by_job_fit [MSG_NO_SKILLS] [] [] 100 H) as (_ & _ & _ & _ & H5).
  destruct (H5 eq_refl) as [Hg|[Hg|Hg]]; [exact Hg | vm_compute in Hg; discriminate Hg
                                          | vm_compute in Hg; discriminate Hg].
Defined.

(* ===================================================================== *)
(** * Further properties: recommendations and the report *)
(* ===================================================================== *)

Lemma rec_job_fit_distinct (keywords : list string) :
  REC_JOB_FIT keywords <> REC_SECTION_HEADERS /\
  REC_JOB_FIT keywords <> REC_PROFILE /\
  REC_JOB_FIT keywords <> REC_QUANTIFY /\
  REC_JOB_FIT keywords <> REC_TECHNOLOGY.
Proof.
  unfold REC_JOB_FIT; repeat split; intros H; cbv [String.append] in H; discriminate H.
Qed.

(** Which rule a recommendation comes from. *)
Lemma recommendation_rules (report : Report) :
  let checks := classified_checks report in
  let recs := generate_personalized_recommendations report in
  (REC_SECTION_HEADERS ∈ recs <-> rule_section_headers checks = true) /\
  (REC_PROFILE ∈ recs <-> rule_profile checks = true) /\
  (REC_QUANTIFY ∈ recs <-> rule_quantify checks = true) /\
  (REC_TECHNOLOGY ∈ recs <-> rule_technology checks = true).
Proof.
  intros checks recs. subst recs. rewrite recommendations_unfold. fold checks.
  unfold triggered.
  destruct (rec_job_fit_distinct (take 8 (missing_keywords (job_fit checks))))
    as (D1 & D2 & D3 & D4).
  destruct (rule_job_fit checks), (rule_section_headers checks), (rule_profile checks),
    (rule_quantify checks), (rule_technology checks); cbn [app];
    rewrite ?elem_of_cons, ?elem_of_nil;
    (split; [|split; [|split]]); split; intros H; try reflexivity; try discriminate H;
    try tauto;
    repeat (destruct H as [H|H]; try discriminate H; try contradiction; try congruence).
Qed.

(** Property X14.
    Between one and five recommendations are returned. *)
Theorem recommendations_between_one_and_five (report : Report) :
  (1 <= length (generate_personalized_recommendations report) <= 5)%nat.
Proof.
  rewrite recommendations_unfold. cbv zeta. unfold triggered.
  destruct (rule_job_fit _), (rule_section_headers _), (rule_profile _),
    (rule_quantify _), (rule_technology _); cbn; lia.
Qed.

(** Property X15.
    A report whose only issues are the graphics issue and the education
    messages, with a job-fit rule that does not trigger and no outdated
    technology, is answered by the fallback alone: these issues lead to no
    recommendation. *)
Theorem education_and_graphics_issues_get_no_recommendation (report : Report) :
  let checks := classified_checks report in
  rule_job_fit checks = false ->
  technology_freshness checks = [] ->
  (forall issue, issue ∈ formatting_ats checks -> issue = MSG_GRAPHICS) ->
  (forall issue, issue ∈ content_impact checks ->
     issue = MSG_EDU_TERMS \/ issue = MSG_EDU_YEAR \/ issue = MSG_NO_EDUCATION) ->
  generate_personalized_recommendations report = [REC_STRONG].
Proof.
  intros checks Hfit Htech Hformat Hcontent.
  rewrite recommendations_unfold. fold checks.
  assert (Hnone : no_rule checks).
  { unfold no_rule. split; [exact Hfit|].
    assert (Hany : forall sub issues, (forall issue, issue ∈ issues -> Py.contains sub issue = false) ->
              any_mentions sub issues = false).
    { intros sub issues H. destruct (any_mentions sub issues) eqn:E; [|reflexivity].
      apply any_mentions_spec in E as (issue & Hin & Hc). rewrite (H issue Hin) in Hc.
      discriminate Hc. }
    split; [|split; [|split]].
    - apply Hany. intros issue Hin. rewrite (Hformat issue Hin). reflexivity.
    - apply Hany. intros issue Hin.
      destruct (Hcontent issue Hin) as [-> | [-> | ->]]; reflexivity.
    - apply Hany. intros issue Hin.
      destruct (Hcontent issue Hin) as [-> | [-> | ->]]; reflexivity.
    - unfold rule_technology. rewrite Htech. reflexivity. }
  apply triggered_nil in Hnone. cbv zeta. rewrite Hnone. reflexivity.
Qed.

(** Property X15 on a report with the graphics issue and a missing year. *)
Lemma education_and_graphics_witness :
  generate_personalized_recommendations
    {| overall_score := 82; resume_grade := "A"; ai_generated_summary := EmptyString;
       classified_checks :=
         {| formatting_ats := [MSG_GRAPHICS]; content_impact := [MSG_EDU_YEAR];
            job_fit := {| score := 100; missing_keywords := []; overlap_keywords := ["python"] |};
            technology_freshness := [] |};
       personalized_recommendations := [] |} = [REC_STRONG].
Proof.
  apply education_and_graphics_issues_get_no_recommendation.
  - reflexivity.
  - reflexivity.
  - simpl. intros issue Hin. apply list_elem_of_singleton in Hin. exact Hin.
  - simpl. intros issue Hin. apply list_elem_of_singleton in Hin. right. left. exact Hin.
Defined.

(** ** The report *)

Lemma build_report_fields (env : Env) (raw_text : string) (sections : gmap string string)
    (is_graphics_heavy : bool) (job_description_text : string) :
  let report := build_report env raw_text sections is_graphics_heavy job_description_text in
  let issues := compile_issues env sections raw_text in
  let formatting_issues := append_if is_graphics_heavy MSG_GRAPHICS issues.1.1 in
  let jd_match := match_job_description env raw_text job_description_text in
  formatting_ats (classified_checks report) = formatting_issues /\
  content_impact (classified_checks report) = issues.1.2 /\
  technology_freshness (classified_checks report) = issues.2 /\
  job_fit (classified_checks report) = jd_match /\
  (overall_score report, resume_grade report)
    = calculate_scores formatting_issues issues.1.2 issues.2 (score jd_match) /\
  personalized_recommendations report
    = generate_personalized_recommendations
        {| overall_score := overall_score report;
           resume_grade := resume_grade report;
           ai_generated_summary := ai_generated_summary report;
           classified_checks := classified_checks report;
           personalized_recommendations := [] |} /\
  ai_generated_summary report = generate_ai_summary env raw_text.
Proof.
  cbv zeta. unfold build_report.
  destruct (compile_issues env sections raw_text) as [[f c] o]. cbn [fst snd].
  destruct (calculate_scores _ _ _ _) as [final grade].
  destruct (match_job_description env raw_text job_description_text) as [s m o'].
  cbn. repeat split.
Qed.

Lemma formatting_issues_unfold (env : Env) (sections : gmap string string) (raw_text : string) :
  (compile_issues env sections raw_text).1.1 =
  (if Py.truthy (section_text sections "skills") then [] else [MSG_NO_SKILLS])
  ++ (if Py.truthy (section_text sections "work_experience") then [] else [MSG_NO_WORK]).
Proof.
  unfold compile_issues, append_if. cbn [fst snd].
  destruct (Py.truthy (section_text sections "skills")),
    (Py.truthy (section_text sections "work_experience")); reflexivity.
Qed.

(** Property X16.
    In a report, the recommendation to check the section headers is made
    exactly when the skills section or the work-experience section is
    empty; the graphics issue alone does not bring it. *)
Theorem section_header_recommendation_iff (env : Env) (raw_text : string)
    (sections : gmap string string) (is_graphics_heavy : bool)
    (job_description_text : string) :
  let report := build_report env raw_text sections is_graphics_heavy job_description_text in
  REC_SECTION_HEADERS ∈ personalized_recommendations report <->
  section_text sections "skills" = EmptyString \/
  section_text sections "work_experience" = EmptyString.
Proof.
  intros report. subst report.
  destruct (build_report_fields env raw_text sections is_graphics_heavy job_description_text)
    as (Hf & _ & _ & _ & _ & Hrecs & _).
  rewrite Hrecs.
  match goal with |- context [generate_personalized_recommendations ?r] =>
    destruct (recommendation_rules r) as (Hrule & _) end.
  rewrite Hrule. cbn [classified_checks]. unfold rule_section_headers. rewrite Hf.
  rewrite formatting_issues_unfold.
  destruct (section_text sections "skills") as [|a s];
    destruct (section_text sections "work_experience") as [|b w];
    destruct is_graphics_heavy; cbn [Py.truthy app append_if];
    (split; [intros H; try (left; reflexivity); try (right; reflexivity); try discriminate H
            | intros [H|H]; try discriminate H; try reflexivity]).
Qed.

(** ** The quantification recommendation *)

Lemma has_char_app (c : char) (x y : string) :
  has_char c (x +:+ y) = has_char c x || has_char c y.
Proof.
  induction x as [|a x IH]; [reflexivity|].
  change (String a x +:+ y) with (String a (x +:+ y)). cbn [has_char].
  rewrite IH. by rewrite orb_assoc.
Qed.

Lemma has_char_join (c : char) (sep : string) (l : list string) :
  has_char c sep = false -> Forall (fun x => has_char c x = false) l ->
  has_char c (Py.join sep l) = false.
Proof.
  intros Hsep Hl. induction Hl as [|x l Hx Hl IH]; [reflexivity|].
  destruct l as [|y l]; [exact Hx|].
  change (Py.join sep (x :: y :: l)) with (x +:+ sep +:+ Py.join sep (y :: l)).
  rewrite !has_char_app, Hx, Hsep, IH. reflexivity.
Qed.

Lemma startswith_has_char (c : char) (sub s : string) :
  Py.startswith sub s = true -> has_char c sub = true -> has_char c s = true.
Proof.
  revert s. induction sub as [|a sub IH]; intros s Hs Hc; [discriminate Hc|].
  destruct s as [|b s]; [discriminate Hs|].
  cbn [Py.startswith] in Hs. apply andb_true_iff in Hs as [Hab Hs].
  apply char_eqb_eq in Hab. subst b. cbn [has_char] in *.
  apply orb_true_iff in Hc as [Hc|Hc]; [by rewrite Hc|].
  rewrite (IH s Hs Hc). apply orb_true_r.
Qed.

Lemma contains_has_char (c : char) (sub s : string) :
  Py.contains sub s = true -> has_char c sub = true -> has_char c s = true.
Proof.
  intros Hs Hc. induction s as [|b s IH].
  - cbn [Py.contains] in Hs. rewrite orb_false_r in Hs.
    by apply (startswith_has_char c sub).
  - cbn [Py.contains] in Hs. apply orb_true_iff in Hs as [Hs|Hs].
    + by apply (startswith_has_char c sub).
    + cbn [has_char]. rewrite (IH Hs). apply orb_true_r.
Qed.

Lemma buzzwords_message_no_quantification (env : Env) (summary_text : string) :
  set_iter_ok env ->
  Py.contains "quantification"
    (MSG_BUZZWORDS (set_iter env (found_buzzwords summary_text))) = false.
Proof.
  intros Hok.
  destruct (Py.contains _ _) eqn:E; [|reflexivity]. exfalso.
  apply (contains_has_char "q") in E; [|reflexivity].
  unfold MSG_BUZZWORDS in E. rewrite !has_char_app in E.
  rewrite has_char_join in E; [discriminate E | reflexivity |].
  apply Forall_forall. intros w Hw.
  apply (set_iter_elem_of env _ w Hok) in Hw.
  unfold found_buzzwords in Hw. apply elem_of_intersection in Hw as [Hw _].
  apply elem_of_list_to_set in Hw. unfold BUZZWORDS in Hw.
  rewrite !elem_of_cons, elem_of_nil in Hw.
  repeat (destruct Hw as [->|Hw]; [reflexivity|]). contradiction.
Qed.

(** Property X17.
    In a report, the recommendation to quantify the achievements is made
    exactly when the quantification issue is among the content issues: no
    other message that the checks can produce, the list of buzzwords
    included, mentions the word the rule looks for. *)
Theorem quantification_recommendation_iff_issue (env : Env) (raw_text : string)
    (sections : gmap string string) (is_graphics_heavy : bool)
    (job_description_text : string) :
  set_iter_ok env ->
  let report := build_report env raw_text sections is_graphics_heavy job_description_text in
  REC_QUANTIFY ∈ personalized_recommendations report <->
  MSG_QUANTIFICATION ∈ content_impact (classified_checks report).
Proof.
  intros Hok report. subst report.
  destruct (build_report_fields env raw_text sections is_graphics_heavy job_description_text)
    as (_ & Hc & _ & _ & _ & Hrecs & _).
  rewrite Hrecs.
  match goal with |- context [generate_personalized_recommendations ?r] =>
    destruct (recommendation_rules r) as (_ & _ & Hrule & _) end.
  rewrite Hrule. cbn [classified_checks]. unfold rule_quantify. rewrite Hc.
  rewrite content_issues_unfold. unfold any_mentions. rewrite !existsb_app, !elem_of_app.
  assert (Hsum : existsb (fun issue => Py.contains "quantification" issue)
                   (summary_issues env (section_text sections "profile_summary") []) = false).
  { unfold summary_issues, append_if.
    pose proof (buzzwords_message_no_quantification env
                  (section_text sections "profile_summary") Hok) as Hb.
    destruct (Py.truthy _); [|reflexivity].
    destruct (bool_decide _), (negb _ && negb _); cbn [app existsb]; rewrite ?Hb; reflexivity. }
  assert (Hedu : existsb (fun issue => Py.contains "quantification" issue)
                   (education_issues (section_text sections "education") []) = false).
  { unfold education_issues, append_if.
    destruct (Py.truthy _); [|reflexivity].
    destruct (negb (any_contained _ _)), (negb (Re.search_year _)); reflexivity. }
  rewrite Hsum, Hedu, !orb_false_l.
  assert (Hns : MSG_QUANTIFICATION ∉ summary_issues env (section_text sections "profile_summary") [])
    by apply quantification_not_in_summary.
  assert (Hne : MSG_QUANTIFICATION ∉ education_issues (section_text sections "education") []).
  { rewrite quantification_not_in_education. apply not_elem_of_nil. }
  unfold experience_issues, append_if.
  destruct (Py.truthy (section_text sections "work_experience")).
  - destruct (PyFloat.ltb _ _); cbn [app existsb].
    + split; [intros _; right; right; apply list_elem_of_singleton; reflexivity | reflexivity].
    + split; [discriminate|]. intros [H|[H|H]]; [contradiction | contradiction |].
      by apply elem_of_nil in H.
  - cbn [existsb]. split; [discriminate|]. intros [H|[H|H]]; [contradiction | contradiction |].
    by apply elem_of_nil in H.
Qed.

(** Property X17 on a report without sections. *)
Lemma quantification_recommendation_witness :
  set_iter_ok (docx_env []) /\
  (REC_QUANTIFY ∈ personalized_recommendations
     (build_report (docx_env []) "Experience" no_sections false "python") <->
   MSG_QUANTIFICATION ∈ content_impact (classified_checks
     (build_report (docx_env []) "Experience" no_sections false "python"))).
Proof.
  assert (Hok : set_iter_ok (docx_env [])) by (intros s; reflexivity).
  split; [exact Hok|].
  exact (quantification_recommendation_iff_issue (docx_env []) "Experience" no_sections
           false "python" Hok).
Defined.

(** ** The scores of a report *)

Lemma match_score_range (env : Env) (resume_text job_description_text : string) :
  (forall model, nlp env = Some model ->
     Z.of_nat (size (lemma_set model job_description_text)) < 2 ^ 45) ->
  0 <= score (match_job_description env resume_text job_description_text) <= 100.
Proof.
  intros Hsize. destruct (nlp env) as [model|] eqn:Hnlp.
  2:{ unfold match_job_description. rewrite Hnlp. cbn. lia. }
  destruct (decide (lemma_set model job_description_text = ∅)) as [He|Hne].
  { unfold match_job_description. rewrite Hnlp.
    destruct (decide (lemma_set model job_description_text = ∅)); [|contradiction]. cbn. lia. }
  rewrite (match_job_description_unfold env model _ _ Hnlp Hne). cbn [score].
  pose proof (size_pos_nonempty _ Hne) as Hd.
  assert (Ha : 0 <= Z.of_nat (size (lemma_set model resume_text
                                    ∩ lemma_set model job_description_text))
               <= Z.of_nat (size (lemma_set model job_description_text))).
  { split; [lia|]. apply inj_le, subseteq_size, intersection_subseteq_r. }
  apply (overlap_percent_spec _ _ Ha). split; [exact Hd | exact (Hsize model eq_refl)].
Qed.

(** Property X18.
    The scores of a report (fewer than [2^45] job-description lemmas): the
    job-fit score and the overall score lie between 0 and 100, the overall
    score and the grade are those of the issues the report lists, the
    graphics issue included, and the grade is the one of the overall
    score. *)
Theorem report_scores_consistent (env : Env) (raw_text : string)
    (sections : gmap string string) (is_graphics_heavy : bool)
    (job_description_text : string) :
  (forall model, nlp env = Some model ->
     Z.of_nat (size (lemma_set model job_description_text)) < 2 ^ 45) ->
  let report := build_report env raw_text sections is_graphics_heavy job_description_text in
  let checks := classified_checks report in
  0 <= score (job_fit checks) <= 100 /\
  0 <= overall_score report <= 100 /\
  (overall_score report, resume_grade report)
    = calculate_scores (formatting_ats checks) (content_impact checks)
                       (technology_freshness checks) (score (job_fit checks)) /\
  resume_grade report = spec_grade (overall_score report).
Proof.
  intros Hsize report checks. subst checks report.
  destruct (build_report_fields env raw_text sections is_graphics_heavy job_description_text)
    as (Hf & Hc & Ht & Hj & Hs & _).
  rewrite Hf, Hc, Ht, Hj.
  pose proof (match_score_range env raw_text job_description_text Hsize) as Hrange.
  split; [exact Hrange|].
  assert (Hpair : forall f c o j, 0 <= j <= 100 ->
            0 <= (calculate_scores f c o j).1 <= 100 /\
            (calculate_scores f c o j).2 = spec_grade (calculate_scores f c o j).1).
  { intros f c o j Hjr. unfold calculate_scores. cbn [fst snd].
    split; [|apply first_grade_spec].
    apply weighted_score_near; [apply quality_score_range | exact Hjr]. }
  match type of Hs with _ = calculate_scores ?f ?c ?o ?j =>
    destruct (Hpair f c o j Hrange) as [H1 H2];
    rewrite <- Hs in H1, H2 end.
  cbn [fst snd] in H1, H2. split; [exact H1|]. split; [exact Hs | exact H2].
Qed.

(** Property X18 on a report for two lemmas of three. *)
Lemma report_scores_witness :
  0 <= overall_score (build_report (docx_env []) "Java and Python" no_sections false
                        "python java docker") <= 100.
Proof.
  assert (Hsize : forall model, nlp (docx_env []) = Some model ->
            Z.of_nat (size (lemma_set model "python java docker")) < 2 ^ 45).
  { intros model [= <-]. vm_compute. reflexivity. }
  apply (report_scores_consistent (docx_env []) "Java and Python" no_sections false
           "python java docker" Hsize).
Defined.

(* ===================================================================== *)
(** * Further properties: extraction and the orchestrator *)
(* ===================================================================== *)

Lemma string_app_assoc (x y z : string) : (x +:+ y) +:+ z = x +:+ (y +:+ z).
Proof.
  induction x as [|a x IH]; [reflexivity|].
  change (String a x +:+ y) with (String a (x +:+ y)).
  change (String a (x +:+ y) +:+ z) with (String a ((x +:+ y) +:+ z)).
  change (String a x +:+ (y +:+ z)) with (String a (x +:+ (y +:+ z))).
  by rewrite IH.
Qed.

Lemma string_app_nil_r (x : string) : x +:+ EmptyString = x.
Proof.
  induction x as [|a x IH]; [reflexivity|].
  change (String a x +:+ EmptyString) with (String a (x +:+ EmptyString)). by rewrite IH.
Qed.

(** Property X19.
    The OCR loop runs to its end exactly when every page renders and is
    read by the engine; the text is then what was there before, followed by
    the page texts in page order, each with a newline after it. *)
Theorem ocr_pages_done (env : Env) (pages : list Page) (full_text ocr_text : string) :
  ocr_pages env pages full_text = OcrDone ocr_text <->
  exists texts, Forall2 (ocr_page_text env) pages texts /\
                ocr_text = full_text +:+ appended_pages texts.
Proof.
  revert full_text. induction pages as [|page pages IH]; intros full_text.
  - cbn [ocr_pages]. split.
    + intros [= <-]. exists []. split; [constructor|].
      cbn. by rewrite string_app_nil_r.
    + intros (texts & Hall & ->). inversion Hall; subst. cbn.
      by rewrite string_app_nil_r.
  - cbn [ocr_pages]. split.
    + destruct (get_pixmap page) as [img|] eqn:Hpix; [|discriminate].
      destruct (image_to_string env img) as [page_text| |] eqn:Hocr; try discriminate.
      intros H. apply IH in H as (texts & Hall & ->).
      exists (page_text :: texts). split.
      * constructor; [by exists img | exact Hall].
      * cbn [appended_pages foldr]. fold (appended_pages texts).
        by rewrite !string_app_assoc.
    + intros (texts & Hall & ->). inversion Hall as [|? text ? texts' Hpage Hrest]; subst.
      destruct Hpage as (img & Hpix & Hocr). rewrite Hpix, Hocr.
      apply IH. exists texts'. split; [exact Hrest|].
      cbn [appended_pages foldr]. fold (appended_pages texts').
      by rewrite !string_app_assoc.
Qed.

(** ** The graphics flag *)

Lemma extractor_graphics_flag (env : Env) (filepath : string) :
  (master_text_extractor env filepath).2 = true <->
  Py.lower (OsPath.splitext_ext filepath) = ".pdf" /\
  exists doc ocr_text,
    fitz_open env filepath = Some doc /\
    (String.length (Py.strip (text_layer doc)) < 150)%nat /\
    ocr_pages env doc EmptyString = OcrDone ocr_text.
Proof.
  unfold master_text_extractor.
  destruct (string_eqb_spec (Py.lower (OsPath.splitext_ext filepath)) ".pdf") as [Hext|Hext].
  - unfold extract_text_from_pdf.
    destruct (fitz_open env filepath) as [doc|].
    2:{ cbn. split; [discriminate|]. intros (_ & doc & t & H & _). discriminate H. }
    destruct (Nat.ltb_spec (String.length (Py.strip (text_layer doc))) 150) as [Hlow|Hhigh].
    + destruct (ocr_pages env doc EmptyString) as [t| |] eqn:Hocr.
      * destruct (negb _ || _); cbn [snd]; (split; [|reflexivity]); intros _;
          (split; [exact Hext|]); exists doc, t; auto.
      * cbn. split; [discriminate|]. intros (_ & doc' & t & [= <-] & _ & H).
        rewrite Hocr in H. discriminate H.
      * cbn. split; [discriminate|]. intros (_ & doc' & t & [= <-] & _ & H).
        rewrite Hocr in H. discriminate H.
    + destruct (negb _ || _); cbn [snd]; (split; [discriminate|]);
        intros (_ & doc' & t & [= <-] & H & _); lia.
  - destruct (String.eqb (Py.lower (OsPath.splitext_ext filepath)) ".docx").
    + unfold extract_text_from_docx.
      destruct (docx_open env filepath) as [paragraphs|].
      * destruct (negb _ || _); cbn [snd]; (split; [discriminate|]); intros [H _];
          contradiction.
      * cbn. split; [discriminate|]. intros [H _]. contradiction.
    + cbn. split; [discriminate|]. intros [H _]. contradiction.
Qed.

(** Property X20.
    A report carries the graphics issue exactly when the file is a PDF
    whose text layer, stripped, has fewer than 150 characters and whose
    pages were all read by OCR. *)
Theorem graphics_issue_iff_ocr_was_used (env : Env) (filepath : string)
    (job_description_text : option string) (report : Report) :
  analyze_resume env filepath job_description_text = Analysis report ->
  (MSG_GRAPHICS ∈ formatting_ats (classified_checks report) <->
   Py.lower (OsPath.splitext_ext filepath) = ".pdf" /\
   exists doc ocr_text,
     fitz_open env filepath = Some doc /\
     (String.length (Py.strip (text_layer doc)) < 150)%nat /\
     ocr_pages env doc EmptyString = OcrDone ocr_text).
Proof.
  intros Hrun. rewrite <- extractor_graphics_flag.
  unfold analyze_resume in Hrun.
  destruct (master_text_extractor env filepath) as [[[raw_text|] sections] heavy];
    [|discriminate Hrun].
  destruct (negb (Py.truthy raw_text)); [discriminate Hrun|].
  destruct (String.eqb raw_text TESSERACT_NOT_FOUND); [discriminate Hrun|].
  destruct (effective_job_description raw_text job_description_text) as [jd|];
    [|discriminate Hrun].
  injection Hrun as <-. cbn [snd].
  destruct (build_report_fields env raw_text sections heavy jd) as (Hf & _).
  rewrite Hf, elem_of_append_if, formatting_issues_unfold.
  split; [|tauto]. intros [H|[H _]]; [exfalso|exact H].
  apply elem_of_app in H as [H|H].
  - destruct (Py.truthy _); [by apply elem_of_nil in H|].
    apply list_elem_of_singleton in H. discriminate H.
  - destruct (Py.truthy (section_text sections "work_experience"));
      [by apply elem_of_nil in H|].
    apply list_elem_of_singleton in H. discriminate H.
Qed.

(** Property X20 on a one-page scan that the engine reads. *)
Lemma graphics_issue_witness :
  exists report,
    analyze_resume (scanned_env [blank_page] (fun _ => OcrText "Jane Doe")) "cv.pdf" None
      = Analysis report /\
    MSG_GRAPHICS ∈ formatting_ats (classified_checks report).
Proof.
  set (env := scanned_env [blank_page] (fun _ => OcrText "Jane Doe")).
  assert (Hx : master_text_extractor env "cv.pdf"
               = (Some "Jane Doe", parse_sections_by_iteration "Jane Doe", true))
    by reflexivity.
  pose proof (analyze_resume_extracted env "cv.pdf" "Jane Doe" _ true None Hx
                ltac:(discriminate) ltac:(discriminate)) as Hrun.
  destruct (effective_job_description "Jane Doe" None) as [jd|] eqn:Hjd.
  2:{ exfalso. by apply (analyze_resume_caught env "cv.pdf" None). }
  eexists. split; [exact Hrun|].
  apply (graphics_issue_iff_ocr_was_used env "cv.pdf" None _ Hrun).
  split; [reflexivity|]. exists [blank_page], ("Jane Doe" +:+ NL).
  split; [reflexivity|]. split; [apply Nat.ltb_lt; reflexivity | reflexivity].
Defined.

(** ** Failures of the extraction *)

Lemma lstrip_all_space (s : string) : all_space s = true -> Py.lstrip s = EmptyString.
Proof.
  induction s as [|c s IH]; [reflexivity|]. cbn [all_space Py.lstrip].
  intros [Hc Hs]%andb_true_iff. rewrite Hc. by apply IH.
Qed.

Lemma strip_all_space (s : string) : all_space s = true -> Py.strip s = EmptyString.
Proof. intros H. unfold Py.strip. by rewrite lstrip_all_space. Qed.

Lemma analyze_resume_no_text (env : Env) (filepath : string)
    (job_description_text : option string) (sections : gmap string string) (heavy : bool) :
  master_text_extractor env filepath = (None, sections, heavy) \/
  master_text_extractor env filepath = (Some EmptyString, sections, heavy) ->
  analyze_resume env filepath job_description_text = Error ERR_EXTRACTION.
Proof. unfold analyze_resume. intros [-> | ->]; reflexivity. Qed.

(** Property X21.
    The generic extraction error is the answer to a file whose extension,
    lower-cased, is neither [.pdf] nor [.docx] (the file is then not
    opened), to a file that cannot be read, to a DOCX whose text is white
    space only, and to a PDF on which OCR fails for another reason than a
    missing engine. *)
Theorem extraction_failure_is_generic_error (env : Env) (filepath : string)
    (job_description_text : option string) :
  let ext := Py.lower (OsPath.splitext_ext filepath) in
  (ext <> ".pdf" /\ ext <> ".docx") \/
  (ext = ".pdf" /\ fitz_open env filepath = None) \/
  (ext = ".docx" /\ docx_open env filepath = None) \/
  (ext = ".docx" /\ exists paragraphs,
     docx_open env filepath = Some paragraphs /\
     all_space (Py.join NL paragraphs) = true) \/
  (ext = ".pdf" /\ exists doc,
     fitz_open env filepath = Some doc /\
     (String.length (Py.strip (text_layer doc)) < 150)%nat /\
     ocr_pages env doc EmptyString = OcrRaised) ->
  analyze_resume env filepath job_description_text = Error ERR_EXTRACTION.
Proof.
  intros ext Hcase.
  apply (analyze_resume_no_text env filepath job_description_text ∅ false).
  unfold master_text_extractor. fold ext.
  destruct Hcase as [[H1 H2]|[[H1 H2]|[[H1 H2]|[[H1 H2]|[H1 H2]]]]].
  - apply string_eqb_neq in H1, H2. rewrite H1, H2. by left.
  - rewrite H1. cbn [String.eqb Char.eqb Bool.eqb]. unfold extract_text_from_pdf.
    rewrite H2. by right.
  - rewrite H1. cbn [String.eqb Char.eqb Bool.eqb]. unfold extract_text_from_docx.
    rewrite H2. by right.
  - destruct H2 as (paragraphs & Hopen & Hblank).
    rewrite H1. cbn [String.eqb Char.eqb Bool.eqb]. unfold extract_text_from_docx.
    rewrite Hopen, (strip_all_space _ Hblank). by right.
  - destruct H2 as (doc & Hopen & Hlow & Hocr).
    rewrite H1. cbn [String.eqb Char.eqb Bool.eqb]. unfold extract_text_from_pdf.
    rewrite Hopen, Hocr. apply Nat.ltb_lt in Hlow. rewrite Hlow. by right.
Qed.

(** Property X21 on a text file. *)
Lemma extraction_failure_witness :
  analyze_resume (docx_env [scenario_text]) "notes.txt" None = Error ERR_EXTRACTION.
Proof.
  apply extraction_failure_is_generic_error. left. split; discriminate.
Defined.

(** Property X22.
    The marker of a missing OCR engine travels in the text itself: a DOCX
    whose text, stripped, is the marker is answered by the missing-engine
    error, although no OCR is involved. *)
Theorem marker_text_is_reported_as_missing_engine (env : Env) (filepath : string)
    (paragraphs : list string) (job_description_text : option string) :
  Py.lower (OsPath.splitext_ext filepath) = ".docx" ->
  docx_open env filepath = Some paragraphs ->
  Py.strip (Py.join NL paragraphs) = TESSERACT_NOT_FOUND ->
  analyze_resume env filepath job_description_text = Error ERR_TESSERACT.
Proof.
  intros Hext Hopen Htext. unfold analyze_resume, master_text_extractor.
  rewrite Hext. cbn [String.eqb Char.eqb Bool.eqb]. unfold extract_text_from_docx.
  rewrite Hopen, Htext. reflexivity.
Qed.

(** Property X22 on a DOCX that holds the marker. *)
Lemma marker_text_witness :
  analyze_resume (docx_env [" TESSERACT_NOT_FOUND"]) "cv.docx" None = Error ERR_TESSERACT.
Proof.
  apply (marker_text_is_reported_as_missing_engine _ _ [" TESSERACT_NOT_FOUND"]);
    reflexivity.
Defined.

(** ** The text handed to the analysis *)

(** Property X23.
    When the extraction succeeds, the text handed to the analysis has no
    empty line and no line with white space at either end. *)
Theorem extracted_text_is_normalized (env : Env) (filepath raw_text : string)
    (sections : gmap string string) (is_graphics_heavy : bool) :
  master_text_extractor env filepath = (Some raw_text, sections, is_graphics_heavy) ->
  raw_text <> EmptyString -> raw_text <> TESSERACT_NOT_FOUND ->
  (forall line, line ∈ Py.split_on "010" raw_text ->
     line <> EmptyString /\ Py.strip line = line) /\
  Py.strip raw_text = raw_text.
Proof.
  unfold master_text_extractor.
  set (extracted := if String.eqb _ ".pdf" then _ else _).
  destruct extracted as [[raw is_heavy]|]; [|discriminate].
  destruct (negb (Py.truthy raw) || String.eqb raw TESSERACT_NOT_FOUND) eqn:Hskip.
  { intros [= <- _ _] Hne Hns. exfalso.
    apply orb_true_iff in Hskip as [Hskip|Hskip].
    - destruct raw; [congruence | discriminate Hskip].
    - apply string_eqb_eq in Hskip. congruence. }
  intros [= <- _ _] Hne _.
  destruct (strip_spec _ (sub_newlines_tidy (Re.sub_blanks raw))) as (Ht & Hh & Hl).
  split; [|by apply strip_id].
  pose proof (normalized_lines_good _ Ht Hh Hl Hne) as Hgood.
  rewrite Forall_forall in Hgood. intros line Hin.
  specialize (Hgood line Hin). split; [apply Hgood | by apply good_line_trimmed].
Qed.

(** Property X23 on a DOCX of one padded line. *)
Lemma extracted_text_witness :
  master_text_extractor (docx_env ["  Summary  "]) "cv.docx"
    = (Some "Summary", parse_sections_by_iteration "Summary", false) /\
  Py.strip "Summary" = "Summary".
Proof.
  assert (Hx : master_text_extractor (docx_env ["  Summary  "]) "cv.docx"
               = (Some "Summary", parse_sections_by_iteration "Summary", false))
    by reflexivity.
  split; [exact Hx|].
  apply (extracted_text_is_normalized (docx_env ["  Summary  "]) "cv.docx" "Summary" _ false Hx);
    discriminate.
Defined.

(** Property X24.
    A job description that is supplied and not empty is the one the resume
    is matched against, from the analyzer and from the web form alike: no
    domain is inferred. *)
Theorem supplied_job_description_is_matched (env : Env) (filepath raw_text : string)
    (sections : gmap string string) (is_graphics_heavy : bool)
    (job_description_text : string) :
  master_text_extractor env filepath = (Some raw_text, sections, is_graphics_heavy) ->
  raw_text <> EmptyString -> raw_text <> TESSERACT_NOT_FOUND ->
  job_description_text <> EmptyString ->
  analyze_resume env filepath (Some job_description_text)
    = Analysis (build_report env raw_text sections is_graphics_heavy job_description_text) /\
  upload_and_analyze env filepath (Some job_description_text)
    = Analysis (build_report env raw_text sections is_graphics_heavy job_description_text).
Proof.
  intros Hx Hne Hns Hjd. unfold upload_and_analyze, form_job_description.
  cbn [default]. unfold id.
  rewrite (analyze_resume_extracted env filepath raw_text sections is_graphics_heavy
             (Some job_description_text) Hx Hne Hns).
  unfold effective_job_description, supplied.
  destruct job_description_text as [|a jd]; [congruence|].
  change (Py.truthy (String a jd)) with true. cbv iota. by split.
Qed.

(** Property X24 on a DOCX and a one-word job description. *)
Lemma supplied_job_description_witness :
  analyze_resume (docx_env ["Summary"]) "cv.docx" (Some "python")
    = Analysis (build_report (docx_env ["Summary"]) "Summary"
                  (parse_sections_by_iteration "Summary") false "python").
Proof.
  assert (Hx : master_text_extractor (docx_env ["Summary"]) "cv.docx"
               = (Some "Summary", parse_sections_by_iteration "Summary", false))
    by reflexivity.
  apply (supplied_job_description_is_matched (docx_env ["Summary"]) "cv.docx" "Summary"
           _ false "python" Hx); discriminate.
Defined.

(** ** The summary *)

Lemma no_nl_app (x y : string) : no_nl (x +:+ y) = no_nl x && no_nl y.
Proof.
  induction x as [|a x IH]; [reflexivity|].
  change (String a x +:+ y) with (String a (x +:+ y)). cbn [no_nl].
  rewrite IH. by rewrite andb_assoc.
Qed.

Lemma flush_space_no_nl (run : string) : no_nl (Re.flush " " run) = true.
Proof.
  unfold Re.flush. rewrite has_newline_no_nl.
  destruct (no_nl run) eqn:E; [exact E | reflexivity].
Qed.

Lemma sub_newlines_go_space_no_nl (s : string) :
  no_nl (Re.sub_newlines_go " " s).2 = true.
Proof.
  induction s as [|c s IH]; [reflexivity|]. cbn [Re.sub_newlines_go].
  destruct (Re.sub_newlines_go " " s) as [run out]. cbn [snd] in IH.
  destruct (Py.isspace c) eqn:Hc; cbn [snd]; [exact IH|].
  cbn [no_nl]. rewrite no_nl_app, flush_space_no_nl, IH.
  destruct (is_nl c) eqn:Hnl; [|reflexivity].
  apply is_nl_space in Hnl. congruence.
Qed.

Lemma sub_newlines_space_no_nl (s : string) : no_nl (Re.sub_newlines " " s) = true.
Proof.
  unfold Re.sub_newlines. pose proof (sub_newlines_go_space_no_nl s) as H.
  destruct (Re.sub_newlines_go " " s) as [run out]. cbn [snd] in H.
  by rewrite no_nl_app, flush_space_no_nl, H.
Qed.

Lemma lstrip_no_nl (s : string) : no_nl s = true -> no_nl (Py.lstrip s) = true.
Proof.
  induction s as [|c s IH]; [reflexivity|]. intros H. cbn [Py.lstrip].
  destruct (Py.isspace c); [|exact H].
  cbn [no_nl] in H. apply andb_true_iff in H as [_ H]. by apply IH.
Qed.

Lemma rstrip_no_nl (s : string) : no_nl s = true -> no_nl (Py.rstrip s) = true.
Proof.
  induction s as [|c s IH]; [reflexivity|]. intros H.
  cbn [no_nl] in H. apply andb_true_iff in H as [Hc H]. specialize (IH H).
  cbn [Py.rstrip]. destruct (Py.rstrip s) as [|d r].
  - destruct (Py.isspace c); [reflexivity|]. cbn [no_nl]. by rewrite Hc.
  - cbn [no_nl] in *. by rewrite Hc, IH.
Qed.

Lemma prefix_no_nl (n : nat) (s : string) : no_nl s = true -> no_nl (Py.prefix n s) = true.
Proof.
  revert s. induction n as [|n IH]; intros s H; [reflexivity|].
  destruct s as [|c s]; [reflexivity|]. cbn [Py.prefix no_nl] in *.
  apply andb_true_iff in H as [Hc H]. by rewrite Hc, IH.
Qed.

Lemma prefix_length (n : nat) (s : string) : (String.length (Py.prefix n s) <= n)%nat.
Proof.
  revert s. induction n as [|n IH]; intros s; [cbn; lia|].
  destruct s as [|c s]; [cbn; lia|]. cbn [Py.prefix String.length].
  specialize (IH s). lia.
Qed.

Lemma prefix_head_ok (n : nat) (s : string) : head_ok s = true -> head_ok (Py.prefix n s) = true.
Proof. destruct n, s; auto. Qed.

Lemma strip_strip (s : string) : Py.strip (Py.strip s) = Py.strip s.
Proof.
  apply strip_id.
  - unfold Py.strip. apply rstrip_head_ok, lstrip_head_ok.
  - unfold Py.strip. apply rstrip_last_ok.
Qed.

(** Property X25.
    The summarization model is called on one line of at most 2048
    characters that does not start with white space; whatever it answers,
    the summary returned carries no white space at either end; when the
    model is missing or raises, the summary is a fixed message. *)
Theorem generate_ai_summary_spec (env : Env) (resume_text : string) :
  (summarizer env = None ->
     generate_ai_summary env resume_text = "AI summary model is unavailable.") /\
  (forall model, summarizer env = Some model ->
     exists input,
       (String.length input <= 2048)%nat /\ no_nl input = true /\ head_ok input = true /\
       generate_ai_summary env resume_text =
         match model input with
         | Some summary_text => Py.strip summary_text
         | None => "Could not generate a unique AI summary."
         end) /\
  Py.strip (generate_ai_summary env resume_text) = generate_ai_summary env resume_text.
Proof.
  unfold generate_ai_summary. split; [|split].
  - intros ->. reflexivity.
  - intros model ->.
    exists (Py.prefix 2048 (Py.strip (Re.sub_newlines " " resume_text))).
    split; [apply prefix_length|]. split; [|split; [|reflexivity]].
    + apply prefix_no_nl. unfold Py.strip.
      apply rstrip_no_nl, lstrip_no_nl, sub_newlines_space_no_nl.
    + apply prefix_head_ok. unfold Py.strip. apply rstrip_head_ok, lstrip_head_ok.
  - destruct (summarizer env) as [model|]; [|reflexivity].
    destruct (model _); [apply strip_strip | reflexivity].
Qed.

(** ** A section without heading *)

Lemma lines_under_no_heading (key : string) (current : option string) (lines : list string) :
  current <> Some key ->
  (forall line, line ∈ lines -> heading_of line <> Some key) ->
  lines_under key current lines = [].
Proof.
  revert current. induction lines as [|line lines IH]; intros current Hcur Hlines;
    [reflexivity|].
  cbn [lines_under].
  assert (Hline : heading_of line <> Some key) by (apply Hlines; left).
  rewrite IH.
  - rewrite app_nil_r. destruct (heading_of line); [reflexivity|].
    destruct current as [cur|]; [|reflexivity].
    destruct (string_eqb_spec cur key) as [->|Hne]; [congruence|].
    by rewrite andb_false_r.
  - unfold cursor_after. destruct (heading_of line); [exact Hline | exact Hcur].
  - intros l Hl. apply Hlines. by right.
Qed.

(** Property X26.
    A section whose heading occurs nowhere in the text is empty, whatever
    the other headings are: text is assigned to a section only under a
    heading of that section. *)
Theorem section_without_heading_is_empty (text key : string) :
  key ∈ SECTION_KEYS ->
  (forall line, line ∈ Py.split_on "010" text -> heading_of line <> Some key) ->
  parse_sections_by_iteration text !! key = Some EmptyString.
Proof.
  intros Hkey Hlines. rewrite parse_sections_lookup, bool_decide_eq_true_2 by exact Hkey.
  rewrite lines_under_no_heading; [reflexivity | discriminate | exact Hlines].
Qed.

(** Property X26 on the education section of the scenario text. *)
Lemma section_without_heading_witness :
  parse_sections_by_iteration scenario_text !! "education" = Some EmptyString.
Proof.
  apply section_without_heading_is_empty.
  - unfold SECTION_KEYS. rewrite !elem_of_cons. tauto.
  - intros line Hin.
    change (Py.split_on "010" scenario_text)
      with ["Summary"; "A dynamic team player."; "Skills"; "Python, AWS"] in Hin.
    rewrite !elem_of_cons, elem_of_nil in Hin.
    destruct Hin as [-> | [-> | [-> | [-> | []]]]]; intros HH; vm_compute in HH;
      discriminate HH.
Defined.

(** ** The graduation year *)

Lemma year_at_spec (s : string) :
  Re.year_at s = true <->
  exists y post, s = y +:+ post /\ is_year y /\ starts_with_word post = false.
Proof.
  split.
  - destruct s as [|a [|b [|c [|d rest]]]]; try discriminate.
    cbn [Re.year_at]. rewrite !andb_true_iff, orb_true_iff, !andb_true_iff, !char_eqb_eq.
    intros [[[Hab Hc] Hd] Hrest].
    exists (String a (String b (String c (String d EmptyString)))), rest.
    split; [reflexivity|]. split.
    + exists c, d. split; [exact Hc|]. split; [exact Hd|].
      destruct Hab as [[-> ->]|[-> ->]]; [by left | by right].
    + destruct rest as [|e rest]; [reflexivity|]. cbn. by apply negb_true_iff.
  - intros (y & post & -> & (c & d & Hc & Hd & Hy) & Hpost).
    destruct Hy as [-> | ->]; cbv [String.append]; cbn [Re.year_at];
      rewrite Hc, Hd; cbn [Char.eqb Bool.eqb andb orb];
      (destruct post as [|e post]; [reflexivity|]); cbn in Hpost; by rewrite Hpost.
Qed.

Lemma is_year_nonempty (y post : string) : is_year y -> y +:+ post <> EmptyString.
Proof. intros (c & d & _ & _ & [-> | ->]); discriminate. Qed.

Lemma search_year_go_spec (prev : bool) (s : string) :
  Re.search_year_go prev s = true <->
  exists pre y post,
    s = pre +:+ y +:+ post /\ is_year y /\
    (if pre is EmptyString then prev = false else ends_with_word pre = false) /\
    starts_with_word post = false.
Proof.
  revert prev. induction s as [|c s IH]; intros prev.
  - cbn [Re.search_year_go]. rewrite andb_false_r. cbn [orb]. split; [discriminate|].
    intros (pre & y & post & Hs & Hy & _). exfalso.
    destruct pre; [|discriminate Hs].
    symmetry in Hs. by apply (is_year_nonempty y post) in Hs.
  - cbn [Re.search_year_go]. rewrite orb_true_iff, andb_true_iff, negb_true_iff. split.
    + intros [[Hprev Hat]|Hgo].
      * apply year_at_spec in Hat as (y & post & Hs & Hy & Hpost).
        exists EmptyString, y, post. by repeat split.
      * apply IH in Hgo as (pre & y & post & Hs & Hy & Hpre & Hpost).
        exists (String c pre), y, post. subst s. split; [reflexivity|].
        split; [exact Hy|]. split; [|exact Hpost].
        destruct pre; [exact Hpre | exact Hpre].
    + intros (pre & y & post & Hs & Hy & Hpre & Hpost).
      destruct pre as [|c0 pre].
      * left. split; [exact Hpre|]. apply year_at_spec. by exists y, post.
      * right. change (String c0 pre +:+ y +:+ post) with (String c0 (pre +:+ y +:+ post)) in Hs.
        injection Hs as -> ->. apply IH. exists pre, y, post.
        split; [reflexivity|]. split; [exact Hy|]. split; [|exact Hpost].
        destruct pre; [exact Hpre | exact Hpre].
Qed.

(** Property X27.
    The year test of the education check: a year is found exactly when the
    text holds 19 or 20 followed by two decimal digits of any script, with
    no word character (letter, digit or underscore, of any script) directly
    before or after these four characters. *)
Theorem search_year_spec (s : string) :
  Re.search_year s = true <->
  exists pre y post,
    s = pre +:+ y +:+ post /\ is_year y /\
    ends_with_word pre = false /\ starts_with_word post = false.
Proof.
  unfold Re.search_year. rewrite search_year_go_spec.
  split; intros (pre & y & post & Hs & Hy & Hpre & Hpost); exists pre, y, post;
    (split; [exact Hs|]); (split; [exact Hy|]); (split; [|exact Hpost]);
    destruct pre; auto.
Qed.

(** ** The command-line report *)

Lemma remove_char_replace_double_star (s : string) :
  Py.remove_char "*" (replace_double_star s) = Py.remove_char "*" s /\
  forall c, Py.remove_char "*" (replace_double_star (String c s))
            = Py.remove_char "*" (String c s).
Proof.
  induction s as [|a s [IH1 IH2]].
  - split; [reflexivity|]. intros c. reflexivity.
  - split; [apply IH2|]. intros c.
    change (replace_double_star (String c (String a s)))
      with (if Char.eqb c "*" && Char.eqb a "*" then replace_double_star s
            else String c (replace_double_star (String a s))).
    destruct (Char.eqb c "*") eqn:Hc; cbn [andb].
    + destruct (Char.eqb a "*") eqn:Ha.
      * rewrite IH1. cbn [Py.remove_char]. by rewrite Hc, Ha.
      * cbn [Py.remove_char]. rewrite Hc. fold (Py.remove_char "*" (String a s)).
        rewrite (IH2 a). reflexivity.
    + cbn [Py.remove_char]. rewrite Hc. fold (Py.remove_char "*" (String a s)).
      by rewrite (IH2 a).
Qed.

Lemma remove_char_has_char (c : char) (s : string) : has_char c (Py.remove_char c s) = false.
Proof.
  induction s as [|a s IH]; [reflexivity|]. cbn [Py.remove_char].
  destruct (Char.eqb a c) eqn:E; [exact IH|]. cbn [has_char]. by rewrite E, IH.
Qed.

(** Property X28.
    The text of a recommendation on the command line is the recommendation
    without its asterisks, every other character kept in place: the first
    of the two replacements changes nothing in the outcome. *)
Theorem rec_text_removes_asterisks (rec : string) :
  rec_text rec = Py.remove_char "*" rec /\
  has_char "*" (rec_text rec) = false.
Proof.
  unfold rec_text. destruct (remove_char_replace_double_star rec) as [H _].
  rewrite H. split; [reflexivity | apply remove_char_has_char].
Qed.
